(** * pylaser2d: a planar laser scanner over a polygonal map

    A shallow embedding of
    - [basic_laser_scanner/laser_output.py]  (class [LaserScanOutput]),
    - [basic_laser_scanner/laser_scanner.py] (class [LaserScanner]),
    - [basic_map/map_geometric.py]           (class [GeometricMap]),
    followed by the properties of the specification that concern them.

    A Python float is modelled as the rational it denotes, in [Q]:
    comparisons are those of the rationals, and every arithmetic operation
    of the program is the exact one followed by rounding to the nearest
    binary64 number, ties to even ([binary64]).  The floats of the model
    are finite: overflow, the infinities and NaN are outside it, and the
    exponent is not bounded above.  A value whose Python type the program
    does not check before using it (the components of the pose given to
    [scan]) is a [pyval], a float or a string.  What the program imports
    from other packages ([math.cos], [math.sin], the constructors and
    predicates of [shapely]) is an interface the development is parametric
    in. *)

From Stdlib Require Import QArith Qround Qminmax Qpower Lqa.
From stdpp Require Import base option list strings gmap pretty.

(** ** Floats *)

(** [a < b] on floats, as a boolean. *)
Definition Qlt_bool (a b : Q) : bool := negb (Qle_bool b a).

Definition pow2 (e : Z) : Q := (2 ^ e)%Q.

(** The exponent of a positive rational [a]: the [k] with
    [2^k <= a < 2^(k+1)]. *)
Definition floor_log2 (a : Q) : Z :=
  let k := (Z.log2 (Qnum a) - Z.log2 (Zpos (Qden a)))%Z in
  if Qle_bool (pow2 k) a then k else (k - 1)%Z.

(** The nearest integer, the even one of two that are equally near. *)
Definition round_half_even (m : Q) : Z :=
  let f := Qfloor m in
  match (m - inject_Z f ?= 1 # 2)%Q with
  | Lt => f
  | Gt => (f + 1)%Z
  | Eq => if Z.even f then f else (f + 1)%Z
  end.

(** The spacing of the binary64 numbers around a positive [a]: 52 bits
    below its exponent, which is at least -1022 (below that the numbers
    are subnormal and equally spaced). *)
Definition ulp (a : Q) : Q := pow2 (Z.max (floor_log2 a) (-1022) - 52).

Definition round_pos (a : Q) : Q :=
  (inject_Z (round_half_even (a / ulp a)) * ulp a)%Q.

(** Rounding to the nearest binary64 number, ties to even. *)
Definition binary64 (q : Q) : Q :=
  match Qnum q with
  | Z0 => 0%Q
  | Zpos _ => Qred (round_pos q)
  | Zneg _ => Qred (- round_pos (- q))
  end.

(** The operations [+], [-], [*] and [/] of Python on two floats. *)
Definition fadd (x y : Q) : Q := binary64 (x + y).
Definition fsub (x y : Q) : Q := binary64 (x - y).
Definition fmul (x y : Q) : Q := binary64 (x * y).
Definition fdiv (x y : Q) : Q := binary64 (x / y).

(** The rational is a binary64 number. *)
Definition representable (q : Q) : bool := Qeq_bool (binary64 q) q.

(** ** Values whose type is checked when they are used *)

(** A number or a string.  A number is a float; an int behaves in the
    program as the float it converts to. *)
Inductive pyval : Type :=
  | PyFloat (q : Q)
  | PyStr (s : string).

Coercion PyFloat : Q >-> pyval.

(** A float is read as a [pyval] also inside a list, a pair or an
    option. *)
#[global] Arguments cons {A}%_type_scope & a l.
#[global] Arguments pair {A B}%_type_scope & a b.
#[global] Arguments Some {A}%_type_scope & a.

Definition is_float (v : pyval) : bool :=
  match v with PyFloat _ => true | PyStr _ => false end.

(** Every value of the list is a float. *)
Definition numeric (l : list pyval) : bool := forallb is_float l.

(** The float a value is, and 0 for a string: used where the value is
    known to be a float. *)
Definition num (v : pyval) : Q :=
  match v with PyFloat q => q | PyStr _ => 0 end.

(** ** Exceptions and results *)

Inductive exn : Type :=
  | ValueError (msg : string)
  | TypeError (msg : string)
  | IndexError
  | KeyError
  | AttributeError.

Inductive result (A : Type) : Type :=
  | Ok (a : A)
  | Raise (e : exn).
Arguments Ok {A} a.
Arguments Raise {A} e.

Definition is_ok {A} (r : result A) : bool :=
  match r with Ok _ => true | Raise _ => false end.

(** What a run leaves behind besides its state: the advisories given to
    [warnings.warn], and one entry per call of [beam.intersects(geo)],
    with the indices of the beam and of the geometry. *)
Inductive event : Type :=
  | Warn (msg : string)
  | IntersectsCall (beam_index geo_index : nat).

(** State, exceptions and the event log in one monad: a computation takes
    the object it runs on and the log so far; when it raises, the state is
    what had been written up to the raise. *)
Definition M (S A : Type) : Type := S * list event -> result A * (S * list event).

Definition ret {S A} (a : A) : M S A := fun w => (Ok a, w).

Definition bind {S A B} (m : M S A) (k : A -> M S B) : M S B :=
  fun w => match m w with
           | (Ok a, w') => k a w'
           | (Raise e, w') => (Raise e, w')
           end.

Definition raise {S A} (e : exn) : M S A := fun w => (Raise e, w).
Definition get {S} : M S S := fun w => (Ok (fst w), w).
Definition modify {S} (f : S -> S) : M S unit := fun w => (Ok tt, (f (fst w), snd w)).
Definition warn {S} (msg : string) : M S unit :=
  fun w => (Ok tt, (fst w, snd w ++ [Warn msg])).
Definition emit {S} (e : event) : M S unit :=
  fun w => (Ok tt, (fst w, snd w ++ [e])).

Declare Scope py_scope.
Delimit Scope py_scope with py.
Notation "x <- c1 ;; c2" := (bind c1 (fun x => c2))
  (at level 100, c1 at next level, right associativity) : py_scope.
Notation "c1 ;;; c2" := (bind c1 (fun _ => c2))
  (at level 100, right associativity) : py_scope.

(** A value that is computed without the state, or the exception it
    raises. *)
Definition lift {S A} (r : result A) : M S A := fun w => (r, w).

(** [a + b] with [b] a float: the rounded sum when [a] is a float; a
    string cannot be added to a float. *)
Definition py_add {S} (a : pyval) (b : Q) : M S Q :=
  match a with
  | PyFloat x => ret (fadd x b)
  | PyStr _ => raise (TypeError "can only concatenate str (not 'float') to str")
  end.

(** A coordinate handed to shapely after it has been used as a number. *)
Definition as_float {S} (a : pyval) : M S Q :=
  match a with
  | PyFloat x => ret x
  | PyStr _ => raise (TypeError "must be real number, not str")
  end.

(** [l[i] = v]: out of range is an [IndexError] in Python. *)
Definition setitem {S A} (l : list A) (i : nat) (v : A) : M S (list A) :=
  if (i <? length l)%nat then ret (<[i:=v]> l) else raise IndexError.

(** [l[i]]. *)
Definition getitem {S A} (l : list A) (i : nat) : M S A :=
  match l !! i with
  | Some a => ret a
  | None => raise IndexError
  end.

(** [a, b = l]. *)
Definition unpack2 {S A} (l : list A) : M S (A * A) :=
  match l with
  | [a; b] => ret (a, b)
  | _ => raise (ValueError "wrong number of values to unpack")
  end.

(** A list comprehension whose element expression may raise. *)
Fixpoint comprehension {S A B} (f : A -> M S B) (l : list A) : M S (list B) :=
  match l with
  | [] => ret []
  | a :: rest =>
      (b <- f a ;;
       bs <- comprehension f rest ;;
       ret (b :: bs))%py
  end.

(** The builtins [min] and [max] on a list of floats: the first element,
    replaced by each later one that is smaller (larger); a [ValueError] on
    the empty list. *)
Definition py_min {S} (l : list Q) : M S Q :=
  match l with
  | [] => raise (ValueError "min() arg is an empty sequence")
  | a :: rest => ret (fold_left (fun best x => if Qlt_bool x best then x else best) rest a)
  end.

Definition py_max {S} (l : list Q) : M S Q :=
  match l with
  | [] => raise (ValueError "max() arg is an empty sequence")
  | a :: rest => ret (fold_left (fun best x => if Qlt_bool best x then x else best) rest a)
  end.

(** ** numpy.arange *)

(** [numpy.arange(start, stop, step)] on floats.  The length is the
    ceiling of the float quotient [(stop - start) / step], and 0 when that
    is not positive.  The first value is [start], the second the float
    [start + step]; from the third on, numpy fills the array with
    [start + i * delta], where [delta] is the float difference of the
    second and the first value, the product and the sum being rounded in
    turn.  The program calls it with a positive [step] only. *)
Definition arange_len (start stop step : Q) : nat :=
  Z.to_nat (Qceiling (fdiv (fsub stop start) step)).

Definition arange_item (start step : Q) (i : nat) : Q :=
  match i with
  | O => start
  | S O => fadd start step
  | _ => fadd start (fmul (inject_Z (Z.of_nat i)) (fsub (fadd start step) start))
  end.

Definition arange (start stop step : Q) : list Q :=
  map (arange_item start step) (seq 0 (arange_len start stop step)).

(** ** External interfaces *)

(** [math.cos] and [math.sin], on the finite floats of the model; what
    they return is a float.  (They raise on an infinity, which the model
    has not.) *)
Class PyMath : Type := {
  cos : Q -> Q;
  sin : Q -> Q
}.

(** A vertex: the sequence of its coordinates.  The annotations make it a
    tuple of two floats; the program checks its length at run time, and the
    model does not record whether the Python value is a tuple or a list. *)
Definition PathNode : Type := list Q.

(** The part of [shapely] the scanner uses.  Geometries are built from
    coordinate lists; the predicates and measures are shapely's.  shapely
    refuses some coordinate lists (a ring of one or two vertices, a line of
    one): [polygon_builds] and [linestring_builds] say which lists it
    accepts, and [Polygon] and [LineString] are the geometries built from
    those.  A point is built from two floats; [str_coord] is what shapely
    makes of a string given as a coordinate, the float it reads or the
    exception it raises.  Two facts about shapely are used, stated apart as
    [ShapelyLaws]: a distance is never negative, and the polygon of an
    empty coordinate list is empty, so it contains no point. *)
Class Shapely : Type := {
  geom : Type;
  polygon_builds : list PathNode -> bool;
  linestring_builds : list PathNode -> bool;
  str_coord : string -> result Q;
  Polygon : list PathNode -> geom;
  LineString : list PathNode -> geom;
  Point : Q -> Q -> geom;
  contains : geom -> geom -> bool;
  is_valid : geom -> bool;
  buffer : geom -> Q -> geom;
  intersects : geom -> geom -> bool;
  intersection : geom -> geom -> geom;
  is_empty : geom -> bool;
  distance : geom -> geom -> Q
}.

Class ShapelyLaws `{Shapely} : Prop := {
  distance_nonneg : forall g h, (0 <= distance g h)%Q;
  contains_nil : forall p, contains (Polygon []) p = false
}.

(** The constructors as the program calls them: [Polygon(coords)] and
    [LineString(coords)] raise a [ValueError] on a list shapely refuses;
    [Point(c0, c1)] reads its two coordinates in turn. *)
Definition build_polygon `{Shapely} {S} (coords : list PathNode) : M S geom :=
  if polygon_builds coords then ret (Polygon coords)
  else raise (ValueError "A LinearRing must have at least 3 coordinate tuples").

Definition build_linestring `{Shapely} {S} (coords : list PathNode) : M S geom :=
  if linestring_builds coords then ret (LineString coords)
  else raise (ValueError "LineStrings must have at least 2 coordinate tuples").

Definition as_coord `{Shapely} (v : pyval) : result Q :=
  match v with
  | PyFloat q => Ok q
  | PyStr s => str_coord s
  end.

Definition build_point `{Shapely} {S} (c0 c1 : pyval) : M S geom :=
  (x <- lift (as_coord c0) ;;
   y <- lift (as_coord c1) ;;
   ret (Point x y))%py.

(** ** laser_output.py *)

Module LaserScanOutput.

(** [LaserScanConfig], the record a sensor is configured from. *)
Record LaserScanConfig : Type := mkConfig {
  cfg_angle_min : Q;
  cfg_angle_max : Q;
  cfg_angle_increment : Q;
  cfg_range_min : Q;
  cfg_range_max : Q;
  cfg_frame_id : string
}.

(** The dataclass [LaserScanOutput]. *)
Record t : Type := mk {
  timestamp : Q;
  frame_id : string;
  _state : list pyval;
  angle_min : Q;
  angle_max : Q;
  angle_increment : Q;
  _angles : list Q;
  range_min : Q;
  range_max : Q;
  _ranges : list Q;
  _beam_end_points : list (Q * Q)
}.

Definition set_timestamp (v : Q) (o : t) : t :=
  mk v (frame_id o) (_state o) (angle_min o) (angle_max o) (angle_increment o)
     (_angles o) (range_min o) (range_max o) (_ranges o) (_beam_end_points o).
Definition set_state (v : list pyval) (o : t) : t :=
  mk (timestamp o) (frame_id o) v (angle_min o) (angle_max o) (angle_increment o)
     (_angles o) (range_min o) (range_max o) (_ranges o) (_beam_end_points o).
Definition set_angles (v : list Q) (o : t) : t :=
  mk (timestamp o) (frame_id o) (_state o) (angle_min o) (angle_max o) (angle_increment o)
     v (range_min o) (range_max o) (_ranges o) (_beam_end_points o).
Definition set_ranges (v : list Q) (o : t) : t :=
  mk (timestamp o) (frame_id o) (_state o) (angle_min o) (angle_max o) (angle_increment o)
     (_angles o) (range_min o) (range_max o) v (_beam_end_points o).
Definition set_beam_end_points (v : list (Q * Q)) (o : t) : t :=
  mk (timestamp o) (frame_id o) (_state o) (angle_min o) (angle_max o) (angle_increment o)
     (_angles o) (range_min o) (range_max o) (_ranges o) v.

(** The properties [angles], [ranges] and [beam_end_points]. *)
Definition angles (o : t) : list Q := _angles o.
Definition ranges (o : t) : list Q := _ranges o.
Definition beam_end_points (o : t) : list (Q * Q) := _beam_end_points o.

(** [__post_init__]: the two checks, the advisory, the angle sequence. *)
Definition post_init : M t unit :=
  (self <- get ;;
   if Qlt_bool (angle_max self) (angle_min self) then
     raise (ValueError "angle_min should be less than angle_max.")
   else if Qle_bool (angle_increment self) 0
           || Qlt_bool (fsub (angle_max self) (angle_min self)) (angle_increment self) then
     raise (ValueError "angle_increment should be positive and less than angle_max - angle_min.")
   else
     (if Qle_bool 0 (angle_min self) || Qle_bool (angle_max self) 0 then
        warn "Assumeing the heading direction is 0.0 rad, angle_min is expected to be negative and angle_max is expected to be positive."
      else ret tt) ;;;
     modify (set_angles
               (arange (angle_min self)
                       (fadd (angle_max self) (fdiv (angle_increment self) 2))
                       (angle_increment self))))%py.

(** The generated [__init__] with the arguments [from_config] passes: the
    other fields take their defaults, then [__post_init__] runs.  A
    constructor that raises leaves no object. *)
Definition init_fields (c : LaserScanConfig) : t :=
  mk 0 (cfg_frame_id c) []
     (cfg_angle_min c) (cfg_angle_max c) (cfg_angle_increment c) []
     (cfg_range_min c) (cfg_range_max c) [] [].

Definition from_config (c : LaserScanConfig) (log : list event)
  : result t * list event :=
  match post_init (init_fields c, log) with
  | (Ok _, (o, log')) => (Ok o, log')
  | (Raise e, (_, log')) => (Raise e, log')
  end.

(** [init_beams].  The position and the heading are whatever the caller
    passed: the three assignments are made with any values, and the
    additions of the loop raise a [TypeError] on one that is no number. *)
Fixpoint init_beams_loop `{PyMath} (current_position : pyval * pyval) (heading : pyval)
    (angles : list Q) : M t unit :=
  match angles with
  | [] => ret tt
  | angle :: rest =>
      (self <- get ;;
       a <- py_add heading angle ;;
       x <- py_add (fst current_position) (fmul (range_max self) (cos a)) ;;
       a <- py_add heading angle ;;
       y <- py_add (snd current_position) (fmul (range_max self) (sin a)) ;;
       modify (set_beam_end_points (beam_end_points self ++ [(x, y)])) ;;;
       init_beams_loop current_position heading rest)%py
  end.

Definition init_beams `{PyMath} (current_position : pyval * pyval) (heading : pyval)
  : M t unit :=
  (modify (set_state [fst current_position; snd current_position; heading]) ;;;
   modify (set_beam_end_points []) ;;;
   self <- get ;;
   modify (set_ranges (replicate (length (angles self)) (range_max self))) ;;;
   self <- get ;;
   init_beams_loop current_position heading (angles self))%py.

(** [update_ranges_and_beams]. *)
Definition update_ranges_and_beams (current_time : Q) (new_ranges : list Q)
    (new_beam_end_points : list (Q * Q)) : M t unit :=
  (self <- get ;;
   if negb (length new_ranges =? length (_ranges self))%nat then
     raise (ValueError "The length of new_ranges should be the length of the ranges.")
   else if negb (length new_beam_end_points =? length (_beam_end_points self))%nat then
     raise (ValueError "The length of new_beam_end_points should be the length of the beam end points.")
   else
     modify (set_timestamp current_time) ;;;
     modify (set_ranges new_ranges) ;;;
     modify (set_beam_end_points new_beam_end_points))%py.

(** The endpoint of a beam of length [r] at relative angle [angle], as
    the program computes it: each operation rounded. *)
Definition end_point `{PyMath} (x y heading r angle : Q) : Q * Q :=
  (fadd x (fmul r (cos (fadd heading angle))),
   fadd y (fmul r (sin (fadd heading angle)))).

(** The object [init_beams] leaves when the pose is made of floats, in
    closed form. *)
Definition after_init_beams `{PyMath} (x y heading : Q) (o : t) : t :=
  mk (timestamp o) (frame_id o) [x; y; heading]
     (angle_min o) (angle_max o) (angle_increment o) (_angles o)
     (range_min o) (range_max o)
     (replicate (length (_angles o)) (range_max o))
     (map (end_point x y heading (range_max o)) (_angles o)).

(** The condition under which [__post_init__] raises: the span the
    increment is compared with is the float difference of the limits. *)
Definition malformed (c : LaserScanConfig) : Prop :=
  (cfg_angle_max c < cfg_angle_min c)%Q
  \/ (cfg_angle_increment c <= 0)%Q
  \/ (fsub (cfg_angle_max c) (cfg_angle_min c) < cfg_angle_increment c)%Q.

(** A configuration the constructor accepts. *)
Definition well_formed (c : LaserScanConfig) : Prop :=
  (cfg_angle_min c <= cfg_angle_max c)%Q
  /\ (0 < cfg_angle_increment c)%Q
  /\ (cfg_angle_increment c <= fsub (cfg_angle_max c) (cfg_angle_min c))%Q.


(** The number of steps the span holds, plus a half. *)
Definition steps (c : LaserScanConfig) : Q :=
  ((cfg_angle_max c - cfg_angle_min c) / cfg_angle_increment c + (1 # 2))%Q.


(** The three angles of the configuration are binary64 numbers. *)
Definition float_config (c : LaserScanConfig) : bool :=
  representable (cfg_angle_min c) && representable (cfg_angle_max c)
  && representable (cfg_angle_increment c).



(** The invariant of the measurement buffer. *)
Definition buffers_match (o : t) : Prop :=
  length (ranges o) = length (angles o)
  /\ length (beam_end_points o) = length (angles o).

End LaserScanOutput.

(** ** laser_scanner.py *)

Module LaserScanner.

Import LaserScanOutput.

(** The typed dictionary [BasicMap]. *)
Record BasicMap : Type := mkMap {
  boundary_coords : list PathNode;
  obstacle_list : list (list PathNode)
}.

(** A [LaserScanner] object.  The attributes [_map], [laser_scan] and
    [_state] do not exist before [load_map] and [load_scanner] set them:
    reading a missing one is an [AttributeError]. *)
Record t : Type := mk {
  _cfg : LaserScanConfig;
  _map_prepared : bool;
  _scanner_prepared : bool;
  _map : option BasicMap;
  laser_scan : option LaserScanOutput.t;
  _state : option (list pyval)
}.

Definition set_map_prepared (v : bool) (s : t) : t :=
  mk (_cfg s) v (_scanner_prepared s) (_map s) (laser_scan s) (_state s).
Definition set_scanner_prepared (v : bool) (s : t) : t :=
  mk (_cfg s) (_map_prepared s) v (_map s) (laser_scan s) (_state s).
Definition set_map (v : BasicMap) (s : t) : t :=
  mk (_cfg s) (_map_prepared s) (_scanner_prepared s) (Some v) (laser_scan s) (_state s).
Definition set_laser_scan (v : LaserScanOutput.t) (s : t) : t :=
  mk (_cfg s) (_map_prepared s) (_scanner_prepared s) (_map s) (Some v) (_state s).
Definition set_state (v : list pyval) (s : t) : t :=
  mk (_cfg s) (_map_prepared s) (_scanner_prepared s) (_map s) (laser_scan s) (Some v).

(** The value given as [current_state]: a list, whose elements are not
    checked to be floats, or something that is not a list (a tuple stands
    for those). *)
Inductive pose_arg : Type :=
  | PyList (l : list pyval)
  | PyTuple (l : list pyval).

(** Reading an attribute that may be missing. *)
Definition attr {A} (f : t -> option A) : M t A :=
  fun w => match f (fst w) with
           | Some a => (Ok a, w)
           | None => (Raise AttributeError, w)
           end.

(** Running a method of the [laser_scan] attribute. *)
Definition on_laser_scan {A} (m : M LaserScanOutput.t A) : M t A :=
  fun w => match laser_scan (fst w) with
           | None => (Raise AttributeError, w)
           | Some o =>
               match m (o, snd w) with
               | (r, (o', log')) => (r, (set_laser_scan o' (fst w), log'))
               end
           end.

(** [__init__]. *)
Definition init (config : LaserScanConfig) : t :=
  mk config false false None None None.

(** The properties [position] and [heading]. *)
Definition position : M t (list pyval) :=
  (st <- attr _state ;; ret (take 2 st))%py.

Definition heading : M t pyval :=
  (st <- attr _state ;; getitem st 2)%py.

(** [load_map]. *)
Definition load_map (boundary : list PathNode) (obstacles : list (list PathNode))
  : M t unit :=
  (modify (set_map (mkMap boundary obstacles)) ;;;
   modify (set_map_prepared true))%py.

(** [load_scanner]. *)
Definition load_scanner (init_position : Q * Q) (init_heading : Q) : M t unit :=
  fun w =>
    match from_config (_cfg (fst w)) (snd w) with
    | (Raise e, log') => (Raise e, (fst w, log'))
    | (Ok o, log') =>
        (modify (set_laser_scan o) ;;;
         modify (set_state [fst init_position; snd init_position; init_heading]) ;;;
         modify (set_scanner_prepared true))%py (fst w, log')
    end.

Section Scan.
Context `{PyMath} `{Shapely}.

(** The loop over the geometries for one beam: [closest_distance] is the
    loop variable, [j] counts the geometries. *)
Fixpoint closest_loop (i j : nat) (beam here : geom) (geometries : list geom)
    (closest_distance : Q) : M t Q :=
  match geometries with
  | [] => ret closest_distance
  | geo :: rest =>
      let geo := if negb (is_valid geo) then buffer geo 0 else geo in
      (emit (IntersectsCall i j) ;;;
       if intersects beam geo then
         let inter := intersection beam geo in
         if negb (is_empty inter) then
           let distance := distance inter here in
           if Qlt_bool distance closest_distance then
             closest_loop i (S j) beam here rest distance
           else closest_loop i (S j) beam here rest closest_distance
         else closest_loop i (S j) beam here rest closest_distance
       else closest_loop i (S j) beam here rest closest_distance)%py
  end.

(** The loop over [enumerate(self.laser_scan.angles)].  The additions
    raise a [TypeError] on a component of the pose that is no number; once
    they have passed, [_x] and [_y] are floats, and shapely builds the beam
    (a line of two points) and the point [Point(_x, _y)] from them. *)
Fixpoint beams_loop (i : nat) (_x _y : pyval) (geometries : list geom)
    (angles : list Q) (new_ranges : list Q) (new_beams : list (Q * Q))
  : M t (list Q * list (Q * Q)) :=
  match angles with
  | [] => ret (new_ranges, new_beams)
  | relative_angle :: rest =>
      (h <- heading ;;
       angle <- py_add h relative_angle ;;
       o <- attr laser_scan ;;
       bx <- py_add _x (fmul (range_max o) (cos angle)) ;;
       by_ <- py_add _y (fmul (range_max o) (sin angle)) ;;
       x <- as_float _x ;;
       y <- as_float _y ;;
       let beam := LineString [[x; y]; [bx; by_]] in
       closest_distance <- closest_loop i 0 beam (Point x y) geometries (range_max o) ;;
       new_ranges <- setitem new_ranges i closest_distance ;;
       ex <- py_add _x (fmul closest_distance (cos angle)) ;;
       ey <- py_add _y (fmul closest_distance (sin angle)) ;;
       new_beams <- setitem new_beams i (ex, ey) ;;
       beams_loop (S i) _x _y geometries rest new_ranges new_beams)%py
  end.

(** [scan]. *)
Definition scan (current_time : Q) (current_state : pose_arg)
  : M t LaserScanOutput.t :=
  (self <- get ;;
   if negb (_map_prepared self) then raise (ValueError "Map not prepared.")
   else if negb (_scanner_prepared self) then raise (ValueError "Scanner not prepared.")
   else match current_state with
   | PyTuple _ => raise (ValueError "Invalid current state.")
   | PyList current_state =>
     if negb (length current_state =? 3)%nat then
       raise (ValueError "Invalid current state.")
     else
       modify (set_state current_state) ;;;
       on_laser_scan (modify (set_timestamp current_time)) ;;;
       pos <- position ;;
       h <- heading ;;
       p0 <- getitem pos 0 ;;
       p1 <- getitem pos 1 ;;
       on_laser_scan (init_beams (p0, p1) h) ;;;
       the_map <- attr _map ;;
       boundary <- build_polygon (boundary_coords the_map) ;;
       c0 <- getitem current_state 0 ;;
       c1 <- getitem current_state 1 ;;
       here <- build_point c0 c1 ;;
       if negb (contains boundary here) then
         warn "Scanner is outside the boundary!" ;;;
         attr laser_scan
       else
         pos <- position ;;
         xy <- unpack2 pos ;;
         let _x := fst xy in
         let _y := snd xy in
         o <- attr laser_scan ;;
         let new_ranges := ranges o in
         let new_beams := beam_end_points o in
         obstacles <- comprehension build_polygon (obstacle_list the_map) ;;
         first <- getitem (boundary_coords the_map) 0 ;;
         line <- build_linestring (boundary_coords the_map ++ [first]) ;;
         let geometries := obstacles ++ [line] in
         rb <- beams_loop 0 _x _y geometries (angles o) new_ranges new_beams ;;
         on_laser_scan (update_ranges_and_beams current_time (fst rb) (snd rb)) ;;;
         attr laser_scan
   end)%py.

(** *** The result the specification describes *)

(** A beam against one geometry, repaired when invalid: the distance from
    the sensor to their intersection, when there is one. *)
Definition hit_distance (beam here geo : geom) : option Q :=
  let geo := if is_valid geo then geo else buffer geo 0 in
  if intersects beam geo && negb (is_empty (intersection beam geo))
  then Some (distance (intersection beam geo) here)
  else None.

(** The candidate geometries: each obstacle a filled polygon, the boundary
    a closed polyline. *)
Definition candidate_geometries (the_map : BasicMap) (first : PathNode) : list geom :=
  map Polygon (obstacle_list the_map)
  ++ [LineString (boundary_coords the_map ++ [first])].

Definition beam_of (x y heading range_max angle : Q) : geom :=
  LineString [[x; y];
              [fadd x (fmul range_max (cos (fadd heading angle)));
               fadd y (fmul range_max (sin (fadd heading angle)))]].

(** The minimum of the distances, floored at 0 and capped at [range_max];
    [range_max] when there is none. *)
Definition spec_range (range_max : Q) (distances : list Q) : Q :=
  match distances with
  | [] => range_max
  | d :: ds => Qmin range_max (Qmax 0 (fold_left Qmin ds d))
  end.

Definition beam_range (the_map : BasicMap) (first : PathNode)
    (x y heading range_max angle : Q) : Q :=
  spec_range range_max
    (omap (hit_distance (beam_of x y heading range_max angle) (Point x y))
          (candidate_geometries the_map first)).

(** *** Closed forms of the loops *)

(** What the loop over the geometries returns. *)
Definition closest_of (beam here : geom) (geometries : list geom) (range_max : Q) : Q :=
  fold_left Qmin (omap (hit_distance beam here) geometries) range_max.

Definition scanned_range (the_map : BasicMap) (first : PathNode)
    (x y heading range_max angle : Q) : Q :=
  closest_of (beam_of x y heading range_max angle) (Point x y)
             (candidate_geometries the_map first) range_max.

(** The object a scan leaves when the containment guard fires.  The pose
    is made of floats, or else there is no beam and the numbers [num]
    gives are not used. *)
Definition after_guard (current_time : Q) (x y heading : pyval) (o : LaserScanOutput.t)
  : LaserScanOutput.t :=
  LaserScanOutput.set_state [x; y; heading]
    (after_init_beams (num x) (num y) (num heading) (set_timestamp current_time o)).

(** The scan up to the containment guard: the pose and the timestamp are
    stored and the beams are back at full length: the scanner the guard
    leaves. *)
Definition at_guard (current_time : Q) (x y h : pyval) (o : LaserScanOutput.t) (s : t)
  : t :=
  set_laser_scan (after_guard current_time x y h o)
    (set_state [x; y; h] s).

(** The object a complete scan leaves. *)
Definition after_scan (current_time : Q) (x y heading : pyval) (the_map : BasicMap)
    (first : PathNode) (o : LaserScanOutput.t) : LaserScanOutput.t :=
  LaserScanOutput.mk current_time (frame_id o) [x; y; heading]
     (angle_min o) (angle_max o) (angle_increment o) (_angles o)
     (range_min o) (range_max o)
     (map (scanned_range the_map first (num x) (num y) (num heading) (range_max o))
          (_angles o))
     (map (fun a => end_point (num x) (num y) (num heading)
                      (scanned_range the_map first (num x) (num y) (num heading)
                                     (range_max o) a) a)
          (_angles o)).

(** shapely builds every geometry of the map: the boundary as a polygon,
    each obstacle as a polygon, and the boundary closed by its first
    vertex as a line. *)
Definition buildable (the_map : BasicMap) : bool :=
  polygon_builds (boundary_coords the_map)
  && forallb polygon_builds (obstacle_list the_map)
  && match boundary_coords the_map with
     | first :: _ => linestring_builds (boundary_coords the_map ++ [first])
     | [] => true
     end.

(** The position, as shapely reads it. *)
Definition here_of (c0 c1 : pyval) : result (Q * Q) :=
  match as_coord c0, as_coord c1 with
  | Ok x, Ok y => Ok (x, y)
  | Raise e, _ => Raise e
  | Ok _, Raise e => Raise e
  end.

End Scan.

(** The calls of [intersects] a complete scan makes, in order: for each
    beam, one per geometry. *)
Definition scan_trace (first_beam beams geometries : nat) : list event :=
  flat_map (fun i => map (IntersectsCall i) (seq 0 geometries)) (seq first_beam beams).

(** The map and the scanner have been loaded: both flags are set, and the
    attributes [load_map] and [load_scanner] assign hold [the_map] and
    [o]. *)
Definition ready (s : t) (the_map : BasicMap) (o : LaserScanOutput.t) : Prop :=
  _map_prepared s = true /\ _map s = Some the_map
  /\ _scanner_prepared s = true /\ laser_scan s = Some o.

(** The pose is a list of three components. *)
Definition pose_ok (current_state : pose_arg) : bool :=
  match current_state with
  | PyList [_; _; _] => true
  | _ => false
  end.

(** The sensor lies strictly inside the boundary polygon. *)
Definition inside `{Shapely} (the_map : BasicMap) (x y : Q) : bool :=
  contains (Polygon (boundary_coords the_map)) (Point x y).

End LaserScanner.

(** ** map_geometric.py *)

Module GeometricMap.

(** What may be passed where a list of vertices is expected. *)
Inductive py_vertices : Type :=
  | NotAList
  | Vertices (vs : list PathNode).

(** An [ObstacleInfo] dictionary; each key may be missing. *)
Record ObstacleInfo : Type := mkInfo {
  id_ : option Z;
  name : option string;
  vertices : option py_vertices
}.

(** What may be passed as an obstacle. *)
Inductive py_obstacle : Type :=
  | NotADict
  | Dict (d : ObstacleInfo).

Record t : Type := mk {
  _boundary_coords : list PathNode;
  _obstacle_info_dict : gmap Z ObstacleInfo
}.

Definition set_boundary_coords (v : list PathNode) (m : t) : t :=
  mk v (_obstacle_info_dict m).
Definition set_obstacle_info_dict (v : gmap Z ObstacleInfo) (m : t) : t :=
  mk (_boundary_coords m) v.

(** [register_obstacle]. *)
Definition register_obstacle (obstacle : py_obstacle) : M t unit :=
  match obstacle with
  | NotADict => raise (TypeError "An obstacle info must be a dictionary.")
  | Dict d =>
      match vertices d with
      | None => raise (ValueError "An obstacle info must have a key 'vertices'.")
      | Some NotAList => raise (TypeError "An obstacle vertices must be a list of tuples.")
      | Some (Vertices vs) =>
          (v0 <- getitem vs 0 ;;
           if negb (length v0 =? 2)%nat then
             raise (TypeError "All coordinates must be 2-dimension.")
           else
             match id_ d with
             | None => raise KeyError
             | Some i =>
                 self <- get ;;
                 modify (set_obstacle_info_dict (<[i := d]> (_obstacle_info_dict self)))
             end)%py
      end
  end.

(** [register_boundary]. *)
Definition register_boundary (vertices : py_vertices) : M t unit :=
  match vertices with
  | NotAList => raise (TypeError "A map boundary must be a list of tuples.")
  | Vertices vs =>
      (v0 <- getitem vs 0 ;;
       if negb (length v0 =? 2)%nat then
         raise (TypeError "All coordinates must be 2-dimension.")
       else modify (set_boundary_coords vs))%py
  end.

(** [get_obstacle_info]. *)
Definition get_obstacle_info (i : Z) : M t ObstacleInfo :=
  (self <- get ;;
   match _obstacle_info_dict self !! i with
   | Some d => ret d
   | None => raise KeyError
   end)%py.

(** [__init__]. *)
Fixpoint register_obstacles (obstacle_info_list : list py_obstacle) : M t unit :=
  match obstacle_info_list with
  | [] => ret tt
  | obs :: rest => (register_obstacle obs ;;; register_obstacles rest)%py
  end.

Definition init (boundary_coords : py_vertices) (obstacle_info_list : list py_obstacle)
    (log : list event) : result t * list event :=
  match (register_boundary boundary_coords ;;;
         register_obstacles obstacle_info_list)%py (mk [] ∅, log) with
  | (Ok _, (m, log')) => (Ok m, log')
  | (Raise e, (_, log')) => (Raise e, log')
  end.

(** Every vertex has two coordinates. *)
Definition all_2d (vs : list PathNode) : bool :=
  forallb (fun v => (length v =? 2)%nat) vs.

(** [from_raw]: the obstacles are numbered from 0 and named after their
    number; with a [rescale] factor, every vertex is first replaced by its
    first two coordinates times the factor. *)
Fixpoint enumerate_obstacles (i : nat) (obstacle_coords_list : list (list PathNode))
  : list py_obstacle :=
  match obstacle_coords_list with
  | [] => []
  | obs :: rest =>
      Dict (mkInfo (Some (Z.of_nat i))
                   (Some ("obstacle_" +:+ pretty (Z.of_nat i)))
                   (Some (Vertices obs)))
      :: enumerate_obstacles (S i) rest
  end.

Definition rescale_vertex {S} (rescale : Q) (x : PathNode) : M S PathNode :=
  (x0 <- getitem x 0 ;;
   x1 <- getitem x 1 ;;
   ret [fmul x0 rescale; fmul x1 rescale])%py.

Definition from_raw (boundary_coords : list PathNode)
    (obstacle_coords_list : list (list PathNode)) (rescale : option Q)
    (log : list event) : result t * list event :=
  match rescale with
  | None =>
      init (Vertices boundary_coords) (enumerate_obstacles 0 obstacle_coords_list) log
  | Some k =>
      match (b <- comprehension (rescale_vertex k) boundary_coords ;;
             os <- comprehension (comprehension (rescale_vertex k)) obstacle_coords_list ;;
             ret (b, os))%py (tt, log) with
      | (Ok bos, (_, log')) =>
          init (Vertices (fst bos)) (enumerate_obstacles 0 (snd bos)) log'
      | (Raise e, (_, log')) => (Raise e, log')
      end
  end.

(** [dict_to_obstacle_info]. *)
Definition dict_to_obstacle_info {S} (obstacle_dict : ObstacleInfo) : M S ObstacleInfo :=
  match id_ obstacle_dict with
  | None => raise (ValueError "An obstacle info must have a key 'id_'.")
  | Some i =>
      let name := match name obstacle_dict with
                  | None => "obstacle_" +:+ pretty i
                  | Some n => n
                  end in
      match vertices obstacle_dict with
      | None => raise (ValueError "An obstacle info must have a key 'vertices'.")
      | Some vs => ret (mkInfo (Some i) (Some name) (Some vs))
      end
  end.

(** [get_boundary_scope]. *)
Definition get_boundary_scope : M t (Q * Q * Q * Q) :=
  (self <- get ;;
   xs <- comprehension (fun x => getitem x 0) (_boundary_coords self) ;;
   x_min <- py_min xs ;;
   xs <- comprehension (fun x => getitem x 0) (_boundary_coords self) ;;
   x_max <- py_max xs ;;
   ys <- comprehension (fun x => getitem x 1) (_boundary_coords self) ;;
   y_min <- py_min ys ;;
   ys <- comprehension (fun x => getitem x 1) (_boundary_coords self) ;;
   y_max <- py_max ys ;;
   ret (x_min, x_max, y_min, y_max))%py.

(** A vertex is modelled by the sequence of its coordinates, whether the
    Python value is a tuple or a list: [tuple(v)] keeps the coordinates and
    changes the Python type only, which the model does not record. *)
Definition tuple (v : PathNode) : PathNode := v.

(** [map_coords_cvt], for a conversion [ct] that returns a vertex and does
    not raise.  The loop runs over the keys the dictionary has when it
    starts; a [gmap] does not record the order in which they were inserted,
    which matters only for which of several ill-formed entries would raise
    first. *)
Fixpoint cvt_loop (ct : PathNode -> PathNode) (keys : list Z) : M t unit :=
  match keys with
  | [] => ret tt
  | idx :: rest =>
      (self <- get ;;
       match _obstacle_info_dict self !! idx with
       | None => raise KeyError
       | Some obs =>
           match vertices obs with
           | None => raise KeyError
           | Some NotAList => raise (TypeError "object is not iterable")
           | Some (Vertices vs) =>
               modify (set_obstacle_info_dict
                         (<[idx := mkInfo (id_ obs) (name obs)
                                     (Some (Vertices (map (fun x => tuple (ct x)) vs)))]>
                            (_obstacle_info_dict self))) ;;;
               cvt_loop ct rest
           end
       end)%py
  end.

Definition map_coords_cvt (ct : PathNode -> PathNode) : M t unit :=
  (self <- get ;;
   modify (set_boundary_coords (map ct (_boundary_coords self))) ;;;
   self <- get ;;
   cvt_loop ct (map fst (map_to_list (_obstacle_info_dict self))))%py.

(** *** What the checks accept, and what the stored entries look like *)

(** The boundary passes [register_boundary]. *)
Definition boundary_accepted (vertices : py_vertices) : bool :=
  match vertices with
  | Vertices (v0 :: _) => (length v0 =? 2)%nat
  | _ => false
  end.

(** The obstacle passes [register_obstacle]. *)
Definition obstacle_accepted (obstacle : py_obstacle) : bool :=
  match obstacle with
  | Dict d =>
      match id_ d, vertices d with
      | Some _, Some vs => boundary_accepted vs
      | _, _ => false
      end
  | NotADict => false
  end.

(** An entry of the dictionary as [register_obstacle] left it: stored
    under its own id, with a vertex list whose first vertex is
    2-dimensional. *)
Definition entry_ok (i : Z) (d : ObstacleInfo) : Prop :=
  id_ d = Some i
  /\ exists v0 vs, vertices d = Some (Vertices (v0 :: vs)) /\ length v0 = 2%nat.

(** An entry with a vertex list, which is all [map_coords_cvt] needs. *)
Definition entry_listed (d : ObstacleInfo) : Prop :=
  exists vs, vertices d = Some (Vertices vs).

(** The dictionary [from_raw] builds for the obstacle of index [i]. *)
Definition numbered (i : nat) (vs : list PathNode) : ObstacleInfo :=
  mkInfo (Some (Z.of_nat i)) (Some ("obstacle_" +:+ pretty (Z.of_nat i)))
         (Some (Vertices vs)).

(** A vertex and what rescaling by [k] makes of it: the two float
    products. *)
Definition rescaled (k : Q) (v v' : PathNode) : Prop :=
  exists x0 x1 rest, v = x0 :: x1 :: rest /\ v' = [fmul x0 k; fmul x1 k].

(** The conversion of one entry. *)
Definition cvt_entry (ct : PathNode -> PathNode) (d : ObstacleInfo) : ObstacleInfo :=
  match vertices d with
  | Some (Vertices vs) => mkInfo (id_ d) (name d) (Some (Vertices (map ct vs)))
  | _ => d
  end.

End GeometricMap.

(** ** A small instance of the interfaces

    Geometry reduced to bounding boxes with the taxicab distance, and
    angles counted in quarter turns: enough to run the program on concrete
    inputs. *)

Module BoxWorld.

(** [x_min, x_max, y_min, y_max]; [None] is the empty geometry. *)
Definition box : Type := option (Q * Q * Q * Q).

Definition add_point (b : box) (v : PathNode) : box :=
  match v with
  | x :: y :: _ =>
      match b with
      | None => Some (x, x, y, y)
      | Some (x0, x1, y0, y1) => Some (Qmin x0 x, Qmax x1 x, Qmin y0 y, Qmax y1 y)
      end
  | _ => b
  end.

Definition bbox (l : list PathNode) : box := fold_left add_point l None.

Definition box_contains (b p : box) : bool :=
  match b, p with
  | Some (x0, x1, y0, y1), Some (px, _, py, _) =>
      Qlt_bool x0 px && Qlt_bool px x1 && Qlt_bool y0 py && Qlt_bool py y1
  | _, _ => false
  end.

Definition box_meet (a b : box) : box :=
  match a, b with
  | Some (ax0, ax1, ay0, ay1), Some (bx0, bx1, by0, by1) =>
      let x0 := Qmax ax0 bx0 in
      let x1 := Qmin ax1 bx1 in
      let y0 := Qmax ay0 by0 in
      let y1 := Qmin ay1 by1 in
      if Qle_bool x0 x1 && Qle_bool y0 y1 then Some (x0, x1, y0, y1) else None
  | _, _ => None
  end.

Definition box_is_empty (b : box) : bool :=
  match b with None => true | Some _ => false end.

(** How far [p] lies outside the interval from [lo] to [hi]. *)
Definition gap (lo hi p : Q) : Q := Qmax 0 (Qmax (lo - p) (p - hi)).

Definition box_distance (a p : box) : Q :=
  match a, p with
  | Some (x0, x1, y0, y1), Some (px, _, py, _) => (gap x0 x1 px + gap y0 y1 py)%Q
  | _, _ => 0
  end.

(** A ring needs three vertices, a line two; the empty list gives the
    empty geometry.  No string is read as a coordinate. *)
Definition ring_builds (l : list PathNode) : bool :=
  match l with
  | [_] | [_; _] => false
  | _ => true
  end.

Definition line_builds (l : list PathNode) : bool :=
  match l with
  | [_] => false
  | _ => true
  end.

#[local] Instance box_shapely : Shapely := {|
  geom := box;
  polygon_builds := ring_builds;
  linestring_builds := line_builds;
  str_coord := fun _ => Raise (ValueError "could not convert string to float");
  Polygon := bbox;
  LineString := bbox;
  Point := fun x y => Some (x, x, y, y);
  contains := box_contains;
  is_valid := fun _ => true;
  buffer := fun g _ => g;
  intersects := fun a b => negb (box_is_empty (box_meet a b));
  intersection := box_meet;
  is_empty := box_is_empty;
  distance := box_distance
|}.

(** Angles in quarter turns, rounded down. *)
Definition quarter (a : Q) : Z := (Qfloor a mod 4)%Z.

#[local] Instance quarter_turns : PyMath := {|
  cos := fun a => match quarter a with 0%Z => 1%Q | 2%Z => (-1)%Q | _ => 0%Q end;
  sin := fun a => match quarter a with 1%Z => 1%Q | 3%Z => (-1)%Q | _ => 0%Q end
|}.

(** A sensor with three beams: a quarter turn right, ahead, a quarter turn
    left; reach 20. *)
Definition three_beams : LaserScanOutput.LaserScanConfig :=
  LaserScanOutput.mkConfig (-1) 1 1 0 20 "laser".

(** A square room of side 10 with a square pillar in the middle. *)
Definition room : list PathNode := [[0; 0]; [10; 0]; [10; 10]; [0; 10]]%Q.
Definition pillar : list PathNode := [[4; 4]; [6; 4]; [6; 6]; [4; 6]]%Q.

Definition the_map : LaserScanner.BasicMap := LaserScanner.mkMap room [pillar].

(** The scan state [load_scanner] builds from [three_beams]. *)
Definition fresh_scan : LaserScanOutput.t :=
  LaserScanOutput.set_angles [-1; 0; 1]%Q
    (LaserScanOutput.init_fields three_beams).

(** The scanner after [__init__], [load_map] and [load_scanner]. *)
Definition start : LaserScanner.t * list event :=
  snd ((bind (LaserScanner.load_map room [pillar])
             (fun _ => LaserScanner.load_scanner (1%Q, 1%Q) 0))
         (LaserScanner.init three_beams, [])).

(** A second pillar, and the scanner loaded with any list of obstacles. *)
Definition pillar2 : list PathNode := [[7; 7]; [8; 7]; [8; 8]; [7; 8]]%Q.

Definition scanner_with (obstacles : list (list PathNode))
  : LaserScanner.t * list event :=
  snd ((bind (LaserScanner.load_map room obstacles)
             (fun _ => LaserScanner.load_scanner (1%Q, 1%Q) 0))
         (LaserScanner.init three_beams, [])).

(** Two vertices only, which make no ring: as an obstacle, and as the
    boundary of a scanner. *)
Definition sliver : list PathNode := [[2; 2]; [3; 3]]%Q.

Definition fenced : LaserScanner.t * list event :=
  snd ((bind (LaserScanner.load_map sliver [])
             (fun _ => LaserScanner.load_scanner (1%Q, 1%Q) 0))
         (LaserScanner.init three_beams, [])).



(** The sensor from -1.2 to 0.8 in steps of 0.8, in binary64. *)
Definition four_fifths : Q := binary64 (8 # 10).

Definition uneven_steps : LaserScanOutput.LaserScanConfig :=
  LaserScanOutput.mkConfig (binary64 (-12 # 10)) four_fifths four_fifths 0 20 "laser".

(** A configuration whose limits are the wrong way round. *)
Definition reversed_beams : LaserScanOutput.LaserScanConfig :=
  LaserScanOutput.mkConfig 1 (-1) 1 0 20 "laser".

(** A forward-facing sensor looking to one side only. *)
Definition side_beams : LaserScanOutput.LaserScanConfig :=
  LaserScanOutput.mkConfig 0 2 1 0 20 "laser".

(** Two obstacle dictionaries with the same id, one without a name, and the
    empty geometric map. *)
Definition wall : GeometricMap.ObstacleInfo :=
  GeometricMap.mkInfo (Some 1%Z) (Some "wall") (Some (GeometricMap.Vertices pillar)).
Definition column : GeometricMap.ObstacleInfo :=
  GeometricMap.mkInfo (Some 1%Z) (Some "column") (Some (GeometricMap.Vertices pillar2)).
Definition nameless : GeometricMap.ObstacleInfo :=
  GeometricMap.mkInfo (Some 3%Z) None (Some (GeometricMap.Vertices pillar)).
Definition no_map : GeometricMap.t := GeometricMap.mk [] ∅.

(** A map with the room as boundary and [wall] in it. *)
Definition walled : GeometricMap.t :=
  GeometricMap.mk room (<[1%Z := wall]> ∅).

(** Doubling a vertex. *)
Definition twice (v : PathNode) : PathNode := map (fun c => (c * 2)%Q) v.

End BoxWorld.
(** * Properties *)

Import LaserScanOutput.

(** ** Rationals *)

Lemma Qlt_bool_iff (a b : Q) : Qlt_bool a b = true <-> (a < b)%Q.
Proof.
  unfold Qlt_bool. rewrite negb_true_iff.
  split.
  - intros H. apply Qnot_le_lt. intros Hle.
    apply Qle_bool_iff in Hle. congruence.
  - intros H. destruct (Qle_bool b a) eqn:E; [|done].
    apply Qle_bool_iff in E. exfalso. exact (Qlt_not_le _ _ H E).
Qed.

Lemma Qlt_bool_false_iff (a b : Q) : Qlt_bool a b = false <-> (b <= a)%Q.
Proof.
  unfold Qlt_bool. rewrite negb_false_iff. apply Qle_bool_iff.
Qed.

Lemma Qle_bool_false_iff (a b : Q) : Qle_bool a b = false <-> (b < a)%Q.
Proof.
  split.
  - intros H. apply Qnot_le_lt. intros Hle.
    apply Qle_bool_iff in Hle. congruence.
  - intros H. destruct (Qle_bool a b) eqn:E; [|done].
    apply Qle_bool_iff in E. exfalso. exact (Qlt_not_le _ _ H E).
Qed.

Lemma Qmin_as_test (c d : Q) : (if Qlt_bool d c then d else c) = Qmin c d.
Proof.
  unfold Qmin, GenericMinMax.gmin, Qlt_bool, Qle_bool, Qcompare, Z.leb.
  by destruct (_ ?= _)%Z.
Qed.


Lemma Qceiling_integer (q : Q) :
  (inject_Z (Qfloor q) == q)%Q -> Qceiling q = Qfloor q.
Proof.
  intros Hq. rewrite <- Hq at 1. apply Qceiling_Z.
Qed.


(** ** Rounding to binary64 *)























(** ** The monad *)

(** Unfolding the monad, the projections and the setters. *)
Ltac run :=
  repeat (progress
    (unfold bind, ret, get, modify, raise, warn, emit, lift,
       LaserScanOutput.angles, LaserScanOutput.ranges,
       LaserScanOutput.beam_end_points in *;
     cbn [fst snd py_add as_float as_coord num
          LaserScanOutput.timestamp LaserScanOutput.frame_id LaserScanOutput._state
          LaserScanOutput.angle_min LaserScanOutput.angle_max
          LaserScanOutput.angle_increment LaserScanOutput._angles
          LaserScanOutput.range_min LaserScanOutput.range_max
          LaserScanOutput._ranges LaserScanOutput._beam_end_points
          LaserScanOutput.set_timestamp LaserScanOutput.set_state
          LaserScanOutput.set_angles LaserScanOutput.set_ranges
          LaserScanOutput.set_beam_end_points LaserScanOutput.init_fields
          LaserScanOutput.after_init_beams
          LaserScanner._cfg LaserScanner._map_prepared LaserScanner._scanner_prepared
          LaserScanner._map LaserScanner.laser_scan LaserScanner._state
          LaserScanner.set_map_prepared LaserScanner.set_scanner_prepared
          LaserScanner.set_map LaserScanner.set_laser_scan LaserScanner.set_state
          LaserScanner.boundary_coords LaserScanner.obstacle_list
          GeometricMap._boundary_coords GeometricMap._obstacle_info_dict
          GeometricMap.set_boundary_coords GeometricMap.set_obstacle_info_dict
          GeometricMap.id_ GeometricMap.name GeometricMap.vertices] in *)).

(** ** The sensor configuration and the angle sequence *)

Section Construction.

Lemma from_config_raises (c : LaserScanConfig) (log : list event) :
  malformed c ->
  exists msg, from_config c log = (Raise (ValueError msg), log).
Proof.
  intros Hc. unfold from_config, post_init. run.
  destruct (Qlt_bool (cfg_angle_max c) (cfg_angle_min c)) eqn:E1; [by eexists|].
  destruct (Qle_bool (cfg_angle_increment c) 0) eqn:E2; [by eexists|].
  destruct (Qlt_bool (fsub (cfg_angle_max c) (cfg_angle_min c)) (cfg_angle_increment c))
    eqn:E3; [by eexists|].
  exfalso. apply Qlt_bool_false_iff in E1, E3. apply Qle_bool_false_iff in E2.
  destruct Hc as [Hc|[Hc|Hc]]; lra.
Qed.

Lemma from_config_returns (c : LaserScanConfig) (log : list event) :
  ~ malformed c ->
  exists log',
    from_config c log =
      (Ok (set_angles (arange (cfg_angle_min c)
                              (fadd (cfg_angle_max c) (fdiv (cfg_angle_increment c) 2))
                              (cfg_angle_increment c))
                      (init_fields c)), log').
Proof.
  intros Hc. unfold from_config, post_init. run.
  destruct (Qlt_bool (cfg_angle_max c) (cfg_angle_min c)) eqn:E1.
  { exfalso. apply Hc. left. by apply Qlt_bool_iff. }
  destruct (Qle_bool (cfg_angle_increment c) 0) eqn:E2.
  { exfalso. apply Hc. right; left. by apply Qle_bool_iff. }
  destruct (Qlt_bool (fsub (cfg_angle_max c) (cfg_angle_min c)) (cfg_angle_increment c))
    eqn:E3.
  { exfalso. apply Hc. right; right. by apply Qlt_bool_iff. }
  cbn [orb].
  destruct (Qle_bool 0 (cfg_angle_min c) || Qle_bool (cfg_angle_max c) 0);
    run; by eexists.
Qed.





End Construction.

Section Angles.

Lemma well_formed_not_malformed (c : LaserScanConfig) :
  well_formed c -> ~ malformed c.
Proof. intros (?&?&?) [?|[?|?]]; lra. Qed.










(** With rounding the count is not that of the exact quotient either: from
    -1.2 to 0.8 in steps of 0.8, all three binary64 numbers, the exact
    quotient plus a half is 3 and the float quotient is above 3, so
    there are four angles, and the last, 1.2000000000000004, lies beyond
    [angle_max] plus half an increment. *)
Lemma rounded_quotient_adds_an_angle :
  well_formed BoxWorld.uneven_steps
  /\ float_config BoxWorld.uneven_steps = true
  /\ Qceiling (steps BoxWorld.uneven_steps) = 3%Z
  /\ exists o,
      (from_config BoxWorld.uneven_steps []).1 = Ok o
      /\ length (angles o) = 4%nat
      /\ last (angles o) = Some (5404319552844597 # 4503599627370496)
      /\ (cfg_angle_max BoxWorld.uneven_steps + cfg_angle_increment BoxWorld.uneven_steps / 2
          < 5404319552844597 # 4503599627370496)%Q.
Proof.
  split.
  { unfold well_formed. split_and!.
    - apply Qle_bool_iff. vm_compute. reflexivity.
    - apply Qlt_alt. vm_compute. reflexivity.
    - apply Qle_bool_iff. vm_compute. reflexivity. }
  split; [vm_compute; reflexivity|]. split; [vm_compute; reflexivity|].
  eexists. split; [vm_compute; reflexivity|]. split; [reflexivity|].
  split; [reflexivity|]. apply Qlt_alt. vm_compute. reflexivity.
Qed.

(** And the angles need not grow: at 1e16 the binary64 numbers are 2
    apart, so that adding an increment of 1 changes nothing, and the four
    angles from 1e16 to 1e16 + 4 are all 1e16. *)
Lemma absorbed_increment_repeats_the_angle :
  well_formed (mkConfig 10000000000000000 10000000000000004 1 0 10 "laser")
  /\ float_config (mkConfig 10000000000000000 10000000000000004 1 0 10 "laser") = true
  /\ exists o,
      (from_config (mkConfig 10000000000000000 10000000000000004 1 0 10 "laser") []).1
      = Ok o
      /\ angles o = replicate 4 10000000000000000%Q.
Proof.
  split.
  { unfold well_formed. split_and!.
    - apply Qle_bool_iff. vm_compute. reflexivity.
    - apply Qlt_alt. vm_compute. reflexivity.
    - apply Qle_bool_iff. vm_compute. reflexivity. }
  split; [vm_compute; reflexivity|].
  eexists. split; [vm_compute; reflexivity|]. reflexivity.
Qed.


Lemma three_beams_well_formed : well_formed BoxWorld.three_beams.
Proof.
  unfold well_formed. split_and!.
  - apply Qle_bool_iff. vm_compute. reflexivity.
  - apply Qlt_alt. vm_compute. reflexivity.
  - apply Qle_bool_iff. vm_compute. reflexivity.
Qed.


End Angles.

(** ** The measurement buffer *)

Section Buffer.
Context `{PyMath}.

Lemma init_beams_loop_run (x y h : Q) (l : list Q) (o : t) (log : list event) :
  init_beams_loop (PyFloat x, PyFloat y) (PyFloat h) l (o, log)
  = (Ok tt, (set_beam_end_points
               (beam_end_points o ++ map (end_point x y h (range_max o)) l) o,
             log)).
Proof.
  revert o. induction l as [|a l IH]; intros o.
  - cbn [init_beams_loop map]. run. rewrite app_nil_r. by destruct o.
  - cbn [init_beams_loop map]. run. rewrite IH. run.
    unfold end_point. by rewrite <- app_assoc.
Qed.

Lemma init_beams_run (x y h : Q) (o : t) (log : list event) :
  init_beams (x, y) h (o, log) = (Ok tt, (after_init_beams x y h o, log)).
Proof.
  unfold init_beams. run. rewrite init_beams_loop_run. run. done.
Qed.

(** With a component of the pose that is no number, the first beam
    raises. *)
Lemma init_beams_loop_raises (p0 p1 h : pyval) (a : Q) (l : list Q) (o : t)
    (log : list event) :
  numeric [p0; p1; h] = false ->
  exists msg,
    init_beams_loop (p0, p1) h (a :: l) (o, log) = (Raise (TypeError msg), (o, log)).
Proof.
  intros Hn. cbn [init_beams_loop]. run.
  destruct h as [h|]; run; [|by eexists].
  destruct p0 as [x|]; run; [|by eexists].
  destruct p1 as [y|]; run; [|by eexists].
  done.
Qed.

(** What [init_beams] leaves when it returns: the pose is made of floats,
    or there is no beam. *)
Lemma init_beams_refreshed (p0 p1 h : pyval) (o : t) (log : list event) :
  numeric [p0; p1; h] = true \/ angles o = [] ->
  init_beams (p0, p1) h (o, log)
  = (Ok tt, (LaserScanOutput.set_state [p0; p1; h]
               (after_init_beams (num p0) (num p1) (num h) o), log)).
Proof.
  intros [Hn|He].
  - destruct p0 as [x|]; [|done]. destruct p1 as [y|]; [|done].
    destruct h as [h|]; [|done]. apply init_beams_run.
  - destruct o. run. subst. reflexivity.
Qed.

(** Otherwise it raises, after the three assignments. *)
Lemma init_beams_raises (p0 p1 h : pyval) (o : t) (log : list event) :
  numeric [p0; p1; h] = false -> angles o <> [] ->
  exists msg,
    init_beams (p0, p1) h (o, log)
    = (Raise (TypeError msg),
       (set_ranges (replicate (length (angles o)) (range_max o))
          (set_beam_end_points [] (LaserScanOutput.set_state [p0; p1; h] o)),
        log)).
Proof.
  intros Hn He. unfold init_beams. run.
  destruct (_angles o) as [|a l] eqn:Ea; [done|].
  edestruct (init_beams_loop_raises p0 p1 h a l) as [msg E]; [done|].
  rewrite E. by exists msg.
Qed.

Lemma after_init_beams_match (x y h : Q) (o : t) :
  buffers_match (after_init_beams x y h o).
Proof.
  unfold buffers_match. run. by rewrite length_replicate, length_map.
Qed.

Lemma update_run (current_time : Q) (nr : list Q) (nb : list (Q * Q))
    (o : t) (log : list event) :
  length nr = length (ranges o) -> length nb = length (beam_end_points o) ->
  update_ranges_and_beams current_time nr nb (o, log)
  = (Ok tt, (set_beam_end_points nb (set_ranges nr (set_timestamp current_time o)), log)).
Proof.
  intros Hr Hb. unfold update_ranges_and_beams. run.
  rewrite Hr, Hb, !Nat.eqb_refl. done.
Qed.

(** C8. [update_ranges_and_beams] raises a [ValueError] when [new_ranges] or
    [new_beam_end_points] has not the length of the current buffer, and the
    object is then as it was: timestamp, ranges and end points unchanged.
    Otherwise it returns, and the three have been replaced together. *)
Theorem update_all_or_nothing (current_time : Q) (nr : list Q) (nb : list (Q * Q))
    (o : t) (log : list event) :
  (length nr <> length (ranges o) \/ length nb <> length (beam_end_points o) ->
   exists msg,
     update_ranges_and_beams current_time nr nb (o, log)
     = (Raise (ValueError msg), (o, log)))
  /\ (length nr = length (ranges o) -> length nb = length (beam_end_points o) ->
      exists o',
        update_ranges_and_beams current_time nr nb (o, log) = (Ok tt, (o', log))
        /\ timestamp o' = current_time
        /\ ranges o' = nr
        /\ beam_end_points o' = nb
        /\ angles o' = angles o).
Proof.
  split.
  - intros Hne. unfold update_ranges_and_beams. run.
    destruct (length nr =? length (_ranges o))%nat eqn:E1; cbn [negb];
      [|by eexists].
    destruct (length nb =? length (_beam_end_points o))%nat eqn:E2; cbn [negb];
      [|by eexists].
    apply Nat.eqb_eq in E1, E2. destruct Hne; done.
  - intros Hr Hb. eexists. split; [by apply update_run|]. done.
Qed.

End Buffer.

Lemma update_all_or_nothing_witness :
  (exists msg,
     update_ranges_and_beams 1 [5%Q] [] (@after_init_beams BoxWorld.quarter_turns 0 0 0 (init_fields BoxWorld.three_beams), [])
     = (Raise (ValueError msg), (@after_init_beams BoxWorld.quarter_turns 0 0 0 (init_fields BoxWorld.three_beams), [])))
  /\ (exists o',
        update_ranges_and_beams 1 [] [] (init_fields BoxWorld.three_beams, [])
        = (Ok tt, (o', []))
        /\ timestamp o' = 1%Q).
Proof.
  split.
  - apply (update_all_or_nothing 1 [5%Q] []
             (@after_init_beams BoxWorld.quarter_turns 0 0 0 (init_fields BoxWorld.three_beams)) []).
    left. cbn. lia.
  - destruct (update_all_or_nothing 1 [] [] (init_fields BoxWorld.three_beams) [])
      as [_ Hok].
    destruct Hok as (o' & E & Ht & _); [reflexivity | reflexivity |].
    exists o'. split; [exact E | exact Ht].
Defined.

(** ** Scanning *)

Section Scanning.
Context `{PyMath} `{Shapely}.

Lemma closest_of_cons (beam here geo : geom) (rest : list geom) (c : Q) :
  LaserScanner.closest_of beam here (geo :: rest) c
  = match LaserScanner.hit_distance beam here geo with
    | Some d => LaserScanner.closest_of beam here rest (Qmin c d)
    | None => LaserScanner.closest_of beam here rest c
    end.
Proof.
  unfold LaserScanner.closest_of. cbn [omap list_omap].
  by destruct (LaserScanner.hit_distance beam here geo).
Qed.

(** The loop over the geometries returns the least of [range_max] and the
    distances to the geometries the beam meets; it calls [intersects] once
    per geometry and changes nothing. *)
Lemma closest_loop_run (i j : nat) (beam here : geom) (geos : list geom) (c : Q)
    (s : LaserScanner.t) (log : list event) :
  LaserScanner.closest_loop i j beam here geos c (s, log)
  = (Ok (LaserScanner.closest_of beam here geos c),
     (s, log ++ map (IntersectsCall i) (seq j (length geos)))).
Proof.
  revert j c log. induction geos as [|geo rest IH]; intros j c log.
  - cbn. run. by rewrite app_nil_r.
  - cbn [LaserScanner.closest_loop length seq map]. run.
    rewrite closest_of_cons. unfold LaserScanner.hit_distance.
    replace (log ++ IntersectsCall i j :: map (IntersectsCall i) (seq (S j) (length rest)))
      with ((log ++ [IntersectsCall i j]) ++ map (IntersectsCall i) (seq (S j) (length rest)))
      by (by rewrite <- app_assoc).
    destruct (is_valid geo); cbn [negb];
      (destruct (intersects beam _); cbn [andb];
       [destruct (is_empty (intersection beam _)); cbn [negb];
        [apply IH
        | destruct (Qlt_bool _ c) eqn:E; rewrite IH, <- Qmin_as_test, E; done]
       | apply IH]).
Qed.

Lemma setitem_middle {S A} (pre suf : list A) (old v : A) (w : S * list event) :
  setitem (pre ++ old :: suf) (length pre) v w = (Ok (pre ++ v :: suf), w).
Proof.
  unfold setitem.
  assert ((length pre <? length (pre ++ old :: suf))%nat = true) as ->.
  { apply Nat.ltb_lt. rewrite length_app. cbn. lia. }
  run. rewrite insert_app_r_alt, Nat.sub_diag by lia. done.
Qed.

Lemma heading_run (s : LaserScanner.t) (st : list pyval) (h : pyval) (log : list event) :
  LaserScanner._state s = Some st -> st !! 2%nat = Some h ->
  LaserScanner.heading (s, log) = (Ok h, (s, log)).
Proof.
  intros Hs Hh. unfold LaserScanner.heading, LaserScanner.attr, getitem. run.
  rewrite Hs. run. by rewrite Hh.
Qed.

(** The loop over the beams, for a pose of floats: it writes, for each
    angle, the range the inner loop found and the end point at that range,
    calls [intersects] beam by beam, and changes nothing else. *)
Lemma beams_loop_trace (x y h : Q) (st : list pyval) (o : t) (s : LaserScanner.t)
    (geos : list geom) (l : list Q) (pre suf : list Q) (preb sufb : list (Q * Q))
    (log : list event) :
  LaserScanner._state s = Some st -> st !! 2%nat = Some (PyFloat h) ->
  LaserScanner.laser_scan s = Some o ->
  length preb = length pre -> length suf = length l -> length sufb = length l ->
  LaserScanner.beams_loop (length pre) x y geos l (pre ++ suf) (preb ++ sufb) (s, log)
  = (Ok (pre ++ map (fun a => LaserScanner.closest_of
                                (LaserScanner.beam_of x y h (range_max o) a)
                                (Point x y) geos (range_max o)) l,
         preb ++ map (fun a => end_point x y h
                                (LaserScanner.closest_of
                                   (LaserScanner.beam_of x y h (range_max o) a)
                                   (Point x y) geos (range_max o)) a) l),
     (s, log ++ LaserScanner.scan_trace (length pre) (length l) (length geos))).
Proof.
  intros Hs Hh Ho.
  revert pre suf preb sufb log.
  induction l as [|a l IH]; intros pre suf preb sufb log Hpre Hsuf Hsufb.
  - destruct suf; [|done]. destruct sufb; [|done].
    cbn. run. unfold LaserScanner.scan_trace. cbn. by rewrite !app_nil_r.
  - destruct suf as [|r0 suf]; [done|]. destruct sufb as [|b0 sufb]; [done|].
    cbn [LaserScanner.beams_loop map]. unfold bind at 1.
    rewrite (heading_run s st h log Hs Hh).
    cbn [py_add]. unfold bind at 1, ret at 1.
    unfold bind at 1. unfold LaserScanner.attr at 1. cbn [fst]. rewrite Ho.
    cbn [py_add as_float]. do 4 (unfold bind at 1, ret at 1).
    unfold bind at 1. rewrite closest_loop_run.
    unfold bind at 1. rewrite setitem_middle.
    do 2 (unfold bind at 1, ret at 1).
    unfold bind at 1. rewrite <- Hpre, setitem_middle, Hpre.
    fold (LaserScanner.beam_of x y h (range_max o) a).
    set (r := LaserScanner.closest_of _ _ _ _).
    rewrite (cons_middle r pre suf), (cons_middle _ preb sufb), !app_assoc.
    replace (S (length pre)) with (length (pre ++ [r]))
      by (rewrite length_app; cbn; lia).
    rewrite (IH (pre ++ [r]) suf
               (preb ++ [(fadd x (fmul r (cos (fadd h a))),
                          fadd y (fmul r (sin (fadd h a))))]) sufb).
    + unfold end_point. fold r. rewrite <- !app_assoc.
      unfold LaserScanner.scan_trace. cbn [length seq flat_map].
      rewrite length_app. cbn [length]. rewrite Nat.add_1_r. done.
    + rewrite !length_app. cbn. lia.
    + cbn in Hsuf. lia.
    + cbn in Hsufb. lia.
Qed.

Lemma on_laser_scan_run {A} (m : M t A) (s : LaserScanner.t) (o o' : t)
    (r : result A) (log log' : list event) :
  LaserScanner.laser_scan s = Some o -> m (o, log) = (r, (o', log')) ->
  LaserScanner.on_laser_scan m (s, log) = (r, (LaserScanner.set_laser_scan o' s, log')).
Proof.
  intros Ho Hm. unfold LaserScanner.on_laser_scan. cbn [fst snd]. by rewrite Ho, Hm.
Qed.

(** Building the polygons of the obstacles, in order. *)
Lemma build_polygons_run {S} (obstacles : list (list PathNode)) (w : S * list event) :
  forallb polygon_builds obstacles = true ->
  comprehension build_polygon obstacles w = (Ok (map Polygon obstacles), w).
Proof.
  induction obstacles as [|ob rest IH]; intros Hall; [done|].
  cbn [forallb] in Hall. apply andb_true_iff in Hall as [Hob Hrest].
  cbn [comprehension map]. unfold build_polygon at 1. rewrite Hob. run.
  rewrite (IH Hrest). done.
Qed.

Lemma build_polygons_raises {S} (obstacles : list (list PathNode)) (w : S * list event) :
  forallb polygon_builds obstacles = false ->
  exists msg, comprehension (S := S) build_polygon obstacles w = (Raise (ValueError msg), w).
Proof.
  induction obstacles as [|ob rest IH]; intros Hall; [done|].
  cbn [forallb] in Hall. cbn [comprehension]. unfold build_polygon at 1.
  destruct (polygon_builds ob); run; [|by eexists].
  destruct (IH Hall) as [msg ->]. by exists msg.
Qed.

Lemma build_point_run {S} (c0 c1 : pyval) (w : S * list event) :
  build_point c0 c1 w
  = match LaserScanner.here_of c0 c1 with
    | Ok (x, y) => (Ok (Point x y), w)
    | Raise e => (Raise e, w)
    end.
Proof.
  unfold build_point, LaserScanner.here_of. run.
  destruct c0 as [x|s0]; destruct c1 as [y|s1]; run; try done.
  - by destruct (str_coord s1).
  - by destruct (str_coord s0).
  - destruct (str_coord s0); [|done]. by destruct (str_coord s1).
Qed.

Lemma here_of_floats (x y : Q) : LaserScanner.here_of x y = Ok (x, y).
Proof. reflexivity. Qed.

(** The scan up to the point where the geometries are built: the three
    checks have passed, the pose and the timestamp are stored, and
    [init_beams] has returned. *)
Ltac scan_prefix Hmp Hm Hsp Ho Hfit :=
  unfold LaserScanner.scan; run; rewrite Hmp, Hsp; cbn [negb length Nat.eqb];
  run;
  unfold LaserScanner.on_laser_scan at 1 2, LaserScanner.position at 1,
    LaserScanner.heading at 1, LaserScanner.attr at 1 2 3, getitem;
  run; rewrite Ho; run; cbn [take lookup list_lookup]; run;
  erewrite init_beams_refreshed by exact Hfit; run;
  rewrite Hm; run.

(** The containment guard: the scan returns the refreshed scan state and
    gives its advisory. *)
Lemma scan_guard_run (current_time : Q) (p0 p1 p2 : pyval) (x y : Q)
    (s : LaserScanner.t) (m : LaserScanner.BasicMap) (o : t) (log : list event) :
  LaserScanner.ready s m o ->
  numeric [p0; p1; p2] = true \/ angles o = [] ->
  polygon_builds (LaserScanner.boundary_coords m) = true ->
  LaserScanner.here_of p0 p1 = Ok (x, y) ->
  LaserScanner.inside m x y = false ->
  LaserScanner.scan current_time (LaserScanner.PyList [p0; p1; p2]) (s, log)
  = (Ok (LaserScanner.after_guard current_time p0 p1 p2 o),
     (LaserScanner.at_guard current_time p0 p1 p2 o s,
      log ++ [Warn "Scanner is outside the boundary!"])).
Proof.
  intros (Hmp & Hm & Hsp & Ho) Hfit Hb Hhere Hin.
  scan_prefix Hmp Hm Hsp Ho Hfit.
  unfold build_polygon. rewrite Hb. run.
  rewrite build_point_run, Hhere.
  unfold LaserScanner.inside in Hin. rewrite Hin. cbn [negb]. run.
  done.
Qed.

(** A complete scan: every geometry is built, every beam is tested
    against every geometry, and the result is committed. *)
Lemma scan_full_trace (current_time : Q) (p0 p1 p2 : pyval) (x y : Q)
    (s : LaserScanner.t) (m : LaserScanner.BasicMap) (first : PathNode) (o : t)
    (log : list event) :
  LaserScanner.ready s m o ->
  numeric [p0; p1; p2] = true \/ angles o = [] ->
  polygon_builds (LaserScanner.boundary_coords m) = true ->
  LaserScanner.here_of p0 p1 = Ok (x, y) ->
  LaserScanner.inside m x y = true ->
  forallb polygon_builds (LaserScanner.obstacle_list m) = true ->
  LaserScanner.boundary_coords m !! 0%nat = Some first ->
  linestring_builds (LaserScanner.boundary_coords m ++ [first]) = true ->
  LaserScanner.scan current_time (LaserScanner.PyList [p0; p1; p2]) (s, log)
  = (Ok (LaserScanner.after_scan current_time p0 p1 p2 m first o),
     (LaserScanner.set_laser_scan
        (LaserScanner.after_scan current_time p0 p1 p2 m first o)
        (LaserScanner.set_state [p0; p1; p2] s),
      log ++ LaserScanner.scan_trace 0 (length (angles o))
               (S (length (LaserScanner.obstacle_list m))))).
Proof.
  intros (Hmp & Hm & Hsp & Ho) Hfit Hb Hhere Hin Hobs Hfirst Hline.
  scan_prefix Hmp Hm Hsp Ho Hfit.
  unfold build_polygon at 1. rewrite Hb. run.
  rewrite build_point_run, Hhere.
  unfold LaserScanner.inside in Hin. rewrite Hin. cbn [negb]. run.
  unfold LaserScanner.position, LaserScanner.attr. run. cbn [take unpack2]. run.
  rewrite build_polygons_run by done. run.
  rewrite Hfirst. run.
  unfold build_linestring. rewrite Hline. run.
  fold (LaserScanner.candidate_geometries m first).
  set (geos := LaserScanner.candidate_geometries m first).
  assert (length geos = S (length (LaserScanner.obstacle_list m))) as Hgeos.
  { unfold geos, LaserScanner.candidate_geometries.
    rewrite length_app, length_map. cbn. lia. }
  destruct Hfit as [Hn|He].
  - destruct p0 as [x0|]; [|done]. destruct p1 as [y0|]; [|done].
    destruct p2 as [h|]; [|done]. injection Hhere as <- <-. run.
    set (o1 := after_init_beams x0 y0 h (set_timestamp current_time o)).
    set (s1 := LaserScanner.set_laser_scan _ _).
    pose proof (beams_loop_trace x0 y0 h [PyFloat x0; PyFloat y0; PyFloat h] o1 s1 geos
                  (_angles o) [] (replicate (length (_angles o)) (range_max o))
                  [] (map (end_point x0 y0 h (range_max o)) (_angles o)) log) as E.
    cbn [length app] in E. rewrite E; try done.
    2:{ by rewrite length_replicate. }
    2:{ by rewrite length_map. }
    run.
    erewrite on_laser_scan_run; [| reflexivity |].
    2:{ apply update_run.
        - unfold o1. run. by rewrite length_map, length_replicate.
        - unfold o1. run. by rewrite !length_map. }
    run. rewrite Hgeos. done.
  - destruct o. run. subst. cbn [LaserScanner.beams_loop length replicate map]. run.
    unfold LaserScanner.on_laser_scan, update_ranges_and_beams. run.
    cbn [length Nat.eqb negb]. run.
    unfold LaserScanner.scan_trace. cbn. rewrite app_nil_r. done.
Qed.

(** The ways a scan raises once the checks have passed.  In each the pose
    and the timestamp have been stored and [init_beams] has run: what is
    left is the scanner of the containment guard, and nothing is logged. *)
Lemma scan_raises_unbuilt_boundary (current_time : Q) (p0 p1 p2 : pyval)
    (s : LaserScanner.t) (m : LaserScanner.BasicMap) (o : t) (log : list event) :
  LaserScanner.ready s m o ->
  numeric [p0; p1; p2] = true \/ angles o = [] ->
  polygon_builds (LaserScanner.boundary_coords m) = false ->
  exists msg,
    LaserScanner.scan current_time (LaserScanner.PyList [p0; p1; p2]) (s, log)
    = (Raise (ValueError msg), (LaserScanner.at_guard current_time p0 p1 p2 o s, log)).
Proof.
  intros (Hmp & Hm & Hsp & Ho) Hfit Hb.
  scan_prefix Hmp Hm Hsp Ho Hfit.
  unfold build_polygon at 1. rewrite Hb. run. by eexists.
Qed.

Lemma scan_raises_no_point (current_time : Q) (p0 p1 p2 : pyval) (e : exn)
    (s : LaserScanner.t) (m : LaserScanner.BasicMap) (o : t) (log : list event) :
  LaserScanner.ready s m o ->
  numeric [p0; p1; p2] = true \/ angles o = [] ->
  polygon_builds (LaserScanner.boundary_coords m) = true ->
  LaserScanner.here_of p0 p1 = Raise e ->
  LaserScanner.scan current_time (LaserScanner.PyList [p0; p1; p2]) (s, log)
  = (Raise e, (LaserScanner.at_guard current_time p0 p1 p2 o s, log)).
Proof.
  intros (Hmp & Hm & Hsp & Ho) Hfit Hb Hhere.
  scan_prefix Hmp Hm Hsp Ho Hfit.
  unfold build_polygon at 1. rewrite Hb. run.
  rewrite build_point_run, Hhere. done.
Qed.

Lemma scan_raises_unbuilt_obstacle (current_time : Q) (p0 p1 p2 : pyval) (x y : Q)
    (s : LaserScanner.t) (m : LaserScanner.BasicMap) (o : t) (log : list event) :
  LaserScanner.ready s m o ->
  numeric [p0; p1; p2] = true \/ angles o = [] ->
  polygon_builds (LaserScanner.boundary_coords m) = true ->
  LaserScanner.here_of p0 p1 = Ok (x, y) ->
  LaserScanner.inside m x y = true ->
  forallb polygon_builds (LaserScanner.obstacle_list m) = false ->
  exists msg,
    LaserScanner.scan current_time (LaserScanner.PyList [p0; p1; p2]) (s, log)
    = (Raise (ValueError msg), (LaserScanner.at_guard current_time p0 p1 p2 o s, log)).
Proof.
  intros (Hmp & Hm & Hsp & Ho) Hfit Hb Hhere Hin Hobs.
  scan_prefix Hmp Hm Hsp Ho Hfit.
  unfold build_polygon at 1. rewrite Hb. run.
  rewrite build_point_run, Hhere.
  unfold LaserScanner.inside in Hin. rewrite Hin. cbn [negb]. run.
  unfold LaserScanner.position, LaserScanner.attr. run. cbn [take unpack2]. run.
  edestruct (build_polygons_raises (S := LaserScanner.t) (LaserScanner.obstacle_list m))
    as [msg E]; [exact Hobs|].
  rewrite E. by exists msg.
Qed.

Lemma scan_raises_no_vertex (current_time : Q) (p0 p1 p2 : pyval) (x y : Q)
    (s : LaserScanner.t) (m : LaserScanner.BasicMap) (o : t) (log : list event) :
  LaserScanner.ready s m o ->
  numeric [p0; p1; p2] = true \/ angles o = [] ->
  polygon_builds (LaserScanner.boundary_coords m) = true ->
  LaserScanner.here_of p0 p1 = Ok (x, y) ->
  LaserScanner.inside m x y = true ->
  forallb polygon_builds (LaserScanner.obstacle_list m) = true ->
  LaserScanner.boundary_coords m !! 0%nat = None ->
  LaserScanner.scan current_time (LaserScanner.PyList [p0; p1; p2]) (s, log)
  = (Raise IndexError, (LaserScanner.at_guard current_time p0 p1 p2 o s, log)).
Proof.
  intros (Hmp & Hm & Hsp & Ho) Hfit Hb Hhere Hin Hobs Hfirst.
  scan_prefix Hmp Hm Hsp Ho Hfit.
  unfold build_polygon at 1. rewrite Hb. run.
  rewrite build_point_run, Hhere.
  unfold LaserScanner.inside in Hin. rewrite Hin. cbn [negb]. run.
  unfold LaserScanner.position, LaserScanner.attr. run. cbn [take unpack2]. run.
  rewrite build_polygons_run by done. run.
  rewrite Hfirst. done.
Qed.

Lemma scan_raises_unbuilt_line (current_time : Q) (p0 p1 p2 : pyval) (x y : Q)
    (s : LaserScanner.t) (m : LaserScanner.BasicMap) (first : PathNode) (o : t)
    (log : list event) :
  LaserScanner.ready s m o ->
  numeric [p0; p1; p2] = true \/ angles o = [] ->
  polygon_builds (LaserScanner.boundary_coords m) = true ->
  LaserScanner.here_of p0 p1 = Ok (x, y) ->
  LaserScanner.inside m x y = true ->
  forallb polygon_builds (LaserScanner.obstacle_list m) = true ->
  LaserScanner.boundary_coords m !! 0%nat = Some first ->
  linestring_builds (LaserScanner.boundary_coords m ++ [first]) = false ->
  exists msg,
    LaserScanner.scan current_time (LaserScanner.PyList [p0; p1; p2]) (s, log)
    = (Raise (ValueError msg), (LaserScanner.at_guard current_time p0 p1 p2 o s, log)).
Proof.
  intros (Hmp & Hm & Hsp & Ho) Hfit Hb Hhere Hin Hobs Hfirst Hline.
  scan_prefix Hmp Hm Hsp Ho Hfit.
  unfold build_polygon at 1. rewrite Hb. run.
  rewrite build_point_run, Hhere.
  unfold LaserScanner.inside in Hin. rewrite Hin. cbn [negb]. run.
  unfold LaserScanner.position, LaserScanner.attr. run. cbn [take unpack2]. run.
  rewrite build_polygons_run by done. run.
  rewrite Hfirst. run.
  unfold build_linestring. rewrite Hline. run. by eexists.
Qed.

(** A list of three components of which one is no number passes the
    checks; the pose and the timestamp are stored, the ranges are reset and
    the end points emptied, and then the first beam raises a
    [TypeError]. *)
Lemma scan_raises_not_numeric (current_time : Q) (p0 p1 p2 : pyval)
    (s : LaserScanner.t) (m : LaserScanner.BasicMap) (o : t) (log : list event) :
  LaserScanner.ready s m o ->
  numeric [p0; p1; p2] = false -> angles o <> [] ->
  exists msg,
    LaserScanner.scan current_time (LaserScanner.PyList [p0; p1; p2]) (s, log)
    = (Raise (TypeError msg),
       (LaserScanner.set_laser_scan
          (set_ranges (replicate (length (angles o)) (range_max o))
             (set_beam_end_points []
                (LaserScanOutput.set_state [p0; p1; p2] (set_timestamp current_time o))))
          (LaserScanner.set_state [p0; p1; p2] s),
        log)).
Proof.
  intros (Hmp & Hm & Hsp & Ho) Hn He.
  unfold LaserScanner.scan; run; rewrite Hmp, Hsp; cbn [negb length Nat.eqb]; run.
  unfold LaserScanner.on_laser_scan at 1 2, LaserScanner.position at 1,
    LaserScanner.heading at 1, LaserScanner.attr at 1 2 3, getitem.
  run. rewrite Ho. run. cbn [take lookup list_lookup]. run.
  edestruct (init_beams_raises p0 p1 p2 (set_timestamp current_time o) log) as [msg E];
    [done | done |].
  run. rewrite E. by exists msg.
Qed.

(** A scan that returns has passed the three checks and found its
    attributes; the pose was made of floats, or there was no beam; shapely
    built the boundary polygon and read the position; and the scan took
    one of the two paths. *)
Lemma scan_ok_inv (current_time : Q) (arg : LaserScanner.pose_arg)
    (s s' : LaserScanner.t) (log log' : list event) (o' : t) :
  LaserScanner.scan current_time arg (s, log) = (Ok o', (s', log')) ->
  exists p0 p1 p2 x y m o,
    arg = LaserScanner.PyList [p0; p1; p2]
    /\ LaserScanner.ready s m o
    /\ (numeric [p0; p1; p2] = true \/ angles o = [])
    /\ polygon_builds (LaserScanner.boundary_coords m) = true
    /\ LaserScanner.here_of p0 p1 = Ok (x, y)
    /\ s' = LaserScanner.set_laser_scan o' (LaserScanner.set_state [p0; p1; p2] s)
    /\ ((LaserScanner.inside m x y = false
         /\ o' = LaserScanner.after_guard current_time p0 p1 p2 o
         /\ log' = log ++ [Warn "Scanner is outside the boundary!"])
        \/ (LaserScanner.inside m x y = true
            /\ forallb polygon_builds (LaserScanner.obstacle_list m) = true
            /\ exists first,
                LaserScanner.boundary_coords m !! 0%nat = Some first
                /\ linestring_builds (LaserScanner.boundary_coords m ++ [first]) = true
                /\ o' = LaserScanner.after_scan current_time p0 p1 p2 m first o
                /\ log' = log ++ LaserScanner.scan_trace 0 (length (angles o))
                                   (S (length (LaserScanner.obstacle_list m))))).
Proof.
  intros Hscan.
  destruct (LaserScanner._map_prepared s) eqn:Hmp.
  2:{ unfold LaserScanner.scan in Hscan. run. rewrite Hmp in Hscan. done. }
  destruct (LaserScanner._scanner_prepared s) eqn:Hsp.
  2:{ unfold LaserScanner.scan in Hscan. run. rewrite Hmp, Hsp in Hscan. done. }
  destruct arg as [st|st].
  2:{ unfold LaserScanner.scan in Hscan. run. rewrite Hmp, Hsp in Hscan. done. }
  destruct st as [|p0 [|p1 [|p2 [|? ?]]]];
    try (unfold LaserScanner.scan in Hscan; run; rewrite Hmp, Hsp in Hscan; done).
  destruct (LaserScanner.laser_scan s) as [o|] eqn:Ho.
  2:{ unfold LaserScanner.scan in Hscan. run. rewrite Hmp, Hsp in Hscan.
      cbn [negb length Nat.eqb] in Hscan.
      unfold LaserScanner.on_laser_scan at 1 in Hscan. run.
      rewrite Ho in Hscan. done. }
  assert (numeric [p0; p1; p2] = true \/ angles o = []) as Hfit.
  { destruct (numeric [p0; p1; p2]) eqn:Hn; [by left|]. right.
    destruct (angles o) as [|a l] eqn:Ea; [done|]. exfalso.
    unfold LaserScanner.scan in Hscan. run. rewrite Hmp, Hsp in Hscan.
    cbn [negb length Nat.eqb] in Hscan.
    unfold LaserScanner.on_laser_scan at 1 2, LaserScanner.position at 1,
      LaserScanner.heading at 1, LaserScanner.attr at 1 2 3, getitem in Hscan.
    run. rewrite Ho in Hscan. run. cbn [take lookup list_lookup] in Hscan. run.
    edestruct (init_beams_raises p0 p1 p2 (set_timestamp current_time o) log)
      as [msg E]; [done | run; by rewrite Ea |].
    run. rewrite E in Hscan. done. }
  destruct (LaserScanner._map s) as [m|] eqn:Hm.
  2:{ unfold LaserScanner.scan in Hscan. run. rewrite Hmp, Hsp in Hscan.
      cbn [negb length Nat.eqb] in Hscan.
      unfold LaserScanner.on_laser_scan at 1 2, LaserScanner.position at 1,
        LaserScanner.heading at 1, LaserScanner.attr at 1 2 3, getitem in Hscan.
      run. rewrite Ho in Hscan. run. cbn [take lookup list_lookup] in Hscan. run.
      erewrite init_beams_refreshed in Hscan by exact Hfit. run.
      rewrite Hm in Hscan. done. }
  assert (LaserScanner.ready s m o) as Hready by done.
  destruct (polygon_builds (LaserScanner.boundary_coords m)) eqn:Hb.
  2:{ destruct (scan_raises_unbuilt_boundary current_time p0 p1 p2 s m o log
                  Hready Hfit Hb) as [msg E].
      rewrite E in Hscan. done. }
  destruct (LaserScanner.here_of p0 p1) as [[x y]|e] eqn:Hhere.
  2:{ rewrite (scan_raises_no_point current_time p0 p1 p2 e s m o log
                 Hready Hfit Hb Hhere) in Hscan. done. }
  exists p0, p1, p2, x, y, m, o. do 5 (split; [done|]).
  destruct (LaserScanner.inside m x y) eqn:Hin.
  - destruct (forallb polygon_builds (LaserScanner.obstacle_list m)) eqn:Hobs.
    2:{ destruct (scan_raises_unbuilt_obstacle current_time p0 p1 p2 x y s m o log
                    Hready Hfit Hb Hhere Hin Hobs) as [msg E].
        rewrite E in Hscan. done. }
    destruct (LaserScanner.boundary_coords m !! 0%nat) as [first|] eqn:Hfirst.
    2:{ rewrite (scan_raises_no_vertex current_time p0 p1 p2 x y s m o log
                   Hready Hfit Hb Hhere Hin Hobs Hfirst) in Hscan. done. }
    destruct (linestring_builds (LaserScanner.boundary_coords m ++ [first])) eqn:Hline.
    2:{ destruct (scan_raises_unbuilt_line current_time p0 p1 p2 x y s m first o log
                    Hready Hfit Hb Hhere Hin Hobs Hfirst Hline) as [msg E].
        rewrite E in Hscan. done. }
    rewrite (scan_full_trace current_time p0 p1 p2 x y s m first o log
               Hready Hfit Hb Hhere Hin Hobs Hfirst Hline) in Hscan.
    injection Hscan as <- <- <-.
    split; [done|]. right. split; [done|]. split; [done|]. by exists first.
  - rewrite (scan_guard_run current_time p0 p1 p2 x y s m o log
               Hready Hfit Hb Hhere Hin) in Hscan.
    injection Hscan as <- <- <-.
    split; [done|]. left. done.
Qed.

(** C6, amended. A scan before the map is loaded, or before the scanner is
    loaded, or with a pose that is not a list of exactly three components,
    raises a [ValueError] and leaves the scanner as it was: the stored
    pose, the timestamp, the ranges and the beam end points are unchanged,
    and nothing has been logged. *)
Theorem scan_rejects_before_any_effect (current_time : Q)
    (arg : LaserScanner.pose_arg) (s : LaserScanner.t) (log : list event) :
  LaserScanner._map_prepared s = false
  \/ LaserScanner._scanner_prepared s = false
  \/ LaserScanner.pose_ok arg = false ->
  exists msg,
    LaserScanner.scan current_time arg (s, log) = (Raise (ValueError msg), (s, log)).
Proof.
  intros Hpre. unfold LaserScanner.scan. run.
  destruct (LaserScanner._map_prepared s); cbn [negb]; [|by eexists].
  destruct (LaserScanner._scanner_prepared s); cbn [negb]; [|by eexists].
  destruct arg as [st|st]; [|by eexists].
  destruct st as [|x [|y [|h [|? ?]]]]; cbn [negb length Nat.eqb];
    try (by eexists).
  cbn in Hpre. by destruct Hpre as [?|[?|?]].
Qed.

End Scanning.

(** The same, for a pose of three floats on a loaded scanner. *)
Lemma scan_ok_inv_floats `{PyMath} `{Shapely} (current_time x y h : Q)
    (s s' : LaserScanner.t) (m : LaserScanner.BasicMap) (o o' : t)
    (log log' : list event) :
  LaserScanner.ready s m o ->
  LaserScanner.scan current_time (LaserScanner.PyList [x; y; h]) (s, log)
  = (Ok o', (s', log')) ->
  polygon_builds (LaserScanner.boundary_coords m) = true
  /\ s' = LaserScanner.set_laser_scan o' (LaserScanner.set_state [x; y; h] s)
  /\ ((LaserScanner.inside m x y = false
       /\ o' = LaserScanner.after_guard current_time x y h o
       /\ log' = log ++ [Warn "Scanner is outside the boundary!"])
      \/ (LaserScanner.inside m x y = true
          /\ forallb polygon_builds (LaserScanner.obstacle_list m) = true
          /\ exists first,
              LaserScanner.boundary_coords m !! 0%nat = Some first
              /\ linestring_builds (LaserScanner.boundary_coords m ++ [first]) = true
              /\ o' = LaserScanner.after_scan current_time x y h m first o
              /\ log' = log ++ LaserScanner.scan_trace 0 (length (angles o))
                                 (S (length (LaserScanner.obstacle_list m))))).
Proof.
  intros (_ & Hm & _ & Ho) Hscan.
  apply scan_ok_inv in Hscan
    as (p0 & p1 & p2 & x' & y' & m' & o0 & [= <- <- <-] & (_ & Hm' & _ & Ho') & _ & Hb
        & [= <- <-] & -> & Hpath).
  rewrite Hm in Hm'. injection Hm' as <-. rewrite Ho in Ho'. injection Ho' as <-.
  done.
Qed.

(** What [buildable] says. *)
Lemma buildable_spec `{Shapely} (m : LaserScanner.BasicMap) :
  LaserScanner.buildable m = true ->
  polygon_builds (LaserScanner.boundary_coords m) = true
  /\ forallb polygon_builds (LaserScanner.obstacle_list m) = true
  /\ (forall first, LaserScanner.boundary_coords m !! 0%nat = Some first ->
        linestring_builds (LaserScanner.boundary_coords m ++ [first]) = true).
Proof.
  unfold LaserScanner.buildable. rewrite !andb_true_iff. intros [[Hb Hobs] Hline].
  split_and!; try done. intros first Hfirst.
  destruct (LaserScanner.boundary_coords m) as [|v vs]; [done|].
  by injection Hfirst as <-.
Qed.

(** ** The minimum the inner loop computes *)

Lemma fold_min_proper (l : list Q) (a b : Q) :
  (a == b)%Q -> (fold_left Qmin l a == fold_left Qmin l b)%Q.
Proof.
  revert a b. induction l as [|c l IH]; intros a b Hab; [done|].
  cbn. apply IH. by rewrite Hab.
Qed.

Lemma fold_min_init (l : list Q) (a b : Q) :
  (fold_left Qmin l (Qmin a b) == Qmin a (fold_left Qmin l b))%Q.
Proof.
  revert b. induction l as [|c l IH]; intros b; [done|].
  cbn. rewrite <- IH. apply fold_min_proper. symmetry. apply Q.min_assoc.
Qed.

Lemma fold_min_nonneg (l : list Q) (a : Q) :
  (0 <= a)%Q -> Forall (fun d => (0 <= d)%Q) l -> (0 <= fold_left Qmin l a)%Q.
Proof.
  revert a. induction l as [|c l IH]; intros a Ha Hl; [done|].
  apply Forall_cons in Hl as [Hc Hl]. cbn. apply IH; [|done].
  by apply Q.min_glb.
Qed.

(** The loop's minimum is the range of the specification: the floor at 0
    never binds, since no distance is negative. *)
Lemma fold_min_spec_range (range_max : Q) (distances : list Q) :
  Forall (fun d => (0 <= d)%Q) distances ->
  (fold_left Qmin distances range_max == LaserScanner.spec_range range_max distances)%Q.
Proof.
  destruct distances as [|d ds]; [done|].
  intros [Hd Hds]%Forall_cons. cbn.
  rewrite fold_min_init.
  rewrite (Q.max_r 0 (fold_left Qmin ds d)); [done|].
  by apply fold_min_nonneg.
Qed.

Section ScanResults.
Context `{PyMath} `{Shapely} `{!ShapelyLaws}.

Lemma hit_distances_nonneg (beam here : geom) (geos : list geom) :
  Forall (fun d => (0 <= d)%Q) (omap (LaserScanner.hit_distance beam here) geos).
Proof.
  induction geos as [|g geos IH]; [constructor|].
  cbn [omap list_omap]. unfold LaserScanner.hit_distance at 1.
  destruct (intersects beam _ && negb (is_empty _)); [|done].
  constructor; [apply distance_nonneg | done].
Qed.

Lemma scanned_range_spec (m : LaserScanner.BasicMap) (first : PathNode)
    (x y h rmax a : Q) :
  (LaserScanner.scanned_range m first x y h rmax a
   == LaserScanner.beam_range m first x y h rmax a)%Q.
Proof.
  unfold LaserScanner.scanned_range, LaserScanner.beam_range, LaserScanner.closest_of.
  apply fold_min_spec_range, hit_distances_nonneg.
Qed.

Lemma Forall2_map_r {A B} (P : A -> B -> Prop) (f : A -> B) (l : list A) :
  (forall a, P a (f a)) -> Forall2 P l (map f l).
Proof. intros Hf. induction l; cbn; constructor; auto. Qed.

Lemma zip_with_map_r {A B C} (g : A -> B -> C) (f : A -> B) (l : list A) :
  zip_with g l (map f l) = map (fun a => g a (f a)) l.
Proof. induction l; cbn; [done|]. by f_equal. Qed.

(** C1, amended. When the checks of [scan] pass, the pose is a list of
    three floats, shapely builds every geometry of the map, and the sensor
    lies strictly inside the boundary polygon, the scan returns and
    commits, for every beam angle, the range of the specification: the
    least distance from the sensor to the intersection of the beam with a
    geometry (each obstacle a filled polygon, the boundary a closed
    polyline), floored at 0 and capped at [range_max], and [range_max]
    when the beam meets none.  The committed end point of the beam is the
    position plus that range times [(cos (heading + angle), sin (heading +
    angle))], computed in floats: each sum and product rounded. *)
Theorem scan_commits_nearest_hit (current_time x y h : Q) (s : LaserScanner.t)
    (m : LaserScanner.BasicMap) (o : t) (log : list event) :
  LaserScanner.ready s m o -> LaserScanner.buildable m = true ->
  LaserScanner.inside m x y = true ->
  exists first o' s' log',
    LaserScanner.boundary_coords m !! 0%nat = Some first
    /\ LaserScanner.scan current_time (LaserScanner.PyList [x; y; h]) (s, log)
       = (Ok o', (s', log'))
    /\ LaserScanner.laser_scan s' = Some o'
    /\ angles o' = angles o
    /\ range_max o' = range_max o
    /\ Forall2 (fun a r => (r == LaserScanner.beam_range m first x y h (range_max o) a)%Q)
               (angles o') (ranges o')
    /\ beam_end_points o'
       = zip_with (fun a r => end_point x y h r a) (angles o') (ranges o').
Proof.
  intros Hready (Hb & Hobs & Hline)%buildable_spec Hin.
  destruct (LaserScanner.boundary_coords m) as [|first rest] eqn:Hbc.
  { unfold LaserScanner.inside in Hin. rewrite Hbc, contains_nil in Hin. done. }
  assert (LaserScanner.boundary_coords m !! 0%nat = Some first) as Hfirst
    by (by rewrite Hbc).
  rewrite <- Hbc in *.
  exists first. do 3 eexists. split; [done|]. split.
  { apply (scan_full_trace current_time x y h x y s m first o log); try done.
    - by left.
    - by apply Hline. }
  unfold LaserScanner.after_scan. run. split_and!; try done.
  - apply Forall2_map_r. intros a. apply scanned_range_spec.
  - by rewrite zip_with_map_r.
Qed.


(** C10. When the containment guard fires (the pose a list of three floats,
    the boundary polygon built), the scan state that is returned is
    refreshed up to the commit: its timestamp is the one supplied, the
    pose stored in it and in the scanner is the one supplied, and every
    beam end point is computed anew from that pose at [range_max], in
    floats. *)
Theorem guard_returns_refreshed_state (current_time x y h : Q) (s : LaserScanner.t)
    (m : LaserScanner.BasicMap) (o : t) (log : list event) :
  LaserScanner.ready s m o ->
  polygon_builds (LaserScanner.boundary_coords m) = true ->
  LaserScanner.inside m x y = false ->
  exists o' s' log',
    LaserScanner.scan current_time (LaserScanner.PyList [x; y; h]) (s, log)
    = (Ok o', (s', log'))
    /\ LaserScanner.laser_scan s' = Some o'
    /\ timestamp o' = current_time
    /\ LaserScanOutput._state o' = [x; y; h]
    /\ LaserScanner._state s' = Some [x; y; h]
    /\ beam_end_points o' = map (end_point x y h (range_max o)) (angles o)
    /\ ranges o' = replicate (length (angles o)) (range_max o)
    /\ angles o' = angles o
    /\ range_max o' = range_max o.
Proof.
  intros Hready Hb Hin. do 3 eexists.
  split.
  { apply (scan_guard_run current_time x y h x y s m o log); try done. by left. }
  unfold LaserScanner.at_guard, LaserScanner.after_guard. run. done.
Qed.

End ScanResults.

Section ScanInvariants.
Context `{PyMath} `{Shapely}.

(** C9. A scan that returned, called again with the same timestamp and the
    same pose on the scanner it left (the map unchanged), returns again, and
    with the same ranges and the same beam end points.  More generally the
    same call on any loaded scanner with the same map, the same angles and
    the same [range_max] returns these ranges and end points, whatever its
    stored pose, timestamp and buffers were. *)
Theorem scan_twice_same_result (current_time : Q) (arg : LaserScanner.pose_arg)
    (s s1 : LaserScanner.t) (log log1 : list event) (o1 : t) :
  LaserScanner.scan current_time arg (s, log) = (Ok o1, (s1, log1)) ->
  (exists o2 s2 log2,
     LaserScanner.scan current_time arg (s1, log1) = (Ok o2, (s2, log2))
     /\ ranges o2 = ranges o1
     /\ beam_end_points o2 = beam_end_points o1)
  /\ (forall sa m oa loga,
        LaserScanner.ready sa m oa ->
        LaserScanner._map s = Some m ->
        angles oa = angles o1 -> range_max oa = range_max o1 ->
        exists o2 s2 log2,
          LaserScanner.scan current_time arg (sa, loga) = (Ok o2, (s2, log2))
          /\ ranges o2 = ranges o1
          /\ beam_end_points o2 = beam_end_points o1).
Proof.
  intros Hscan.
  apply scan_ok_inv in Hscan
    as (p0 & p1 & p2 & x & y & m & o & -> & (Hmp & Hm & Hsp & Ho) & Hfit & Hb & Hhere
        & -> & Hpath).
  assert (forall sa oa loga,
            LaserScanner.ready sa m oa ->
            angles oa = angles o1 -> range_max oa = range_max o1 ->
            exists o2 s2 log2,
              LaserScanner.scan current_time (LaserScanner.PyList [p0; p1; p2]) (sa, loga)
              = (Ok o2, (s2, log2))
              /\ ranges o2 = ranges o1
              /\ beam_end_points o2 = beam_end_points o1) as Hany.
  { intros sa oa loga Hready Hang Hmax.
    destruct Hpath as [(Hin & -> & _) | (Hin & Hobs & first & Hfirst & Hline & -> & _)].
    - assert (numeric [p0; p1; p2] = true \/ angles oa = []) as Hfita.
      { destruct Hfit as [?|He]; [by left|]. right. by rewrite Hang. }
      do 3 eexists.
      split; [exact (scan_guard_run current_time p0 p1 p2 x y sa m oa loga
                       Hready Hfita Hb Hhere Hin)|].
      unfold LaserScanner.after_guard in *. run. by rewrite Hang, Hmax.
    - assert (numeric [p0; p1; p2] = true \/ angles oa = []) as Hfita.
      { destruct Hfit as [?|He]; [by left|]. right. by rewrite Hang. }
      do 3 eexists.
      split; [exact (scan_full_trace current_time p0 p1 p2 x y sa m first oa loga
                       Hready Hfita Hb Hhere Hin Hobs Hfirst Hline)|].
      unfold LaserScanner.after_scan in *. run. by rewrite Hang, Hmax. }
  split.
  - apply (Hany _ o1); done.
  - intros sa m' oa loga Hready Hm' Hang Hmax.
    rewrite Hm in Hm'. injection Hm' as <-.
    exact (Hany sa oa loga Hready Hang Hmax).
Qed.

(** C3, amended. [init_beams], given floats, returns and leaves as many
    ranges and as many beam end points as there are angles.
    [update_ranges_and_beams], when it returns, has replaced both lists by
    the ones it was given, and they are as many as the angles if the lists
    it replaced were; when it raises, neither list has changed.  Every
    scan that returns, the early return of the containment guard included,
    returns a scan state with as many ranges and as many beam end points
    as angles. *)
Theorem buffers_match_angles :
  (forall (x y h : Q) o log,
     exists o', init_beams (x, y) h (o, log) = (Ok tt, (o', log)) /\ buffers_match o')
  /\ (forall current_time nr nb o log o' log',
        update_ranges_and_beams current_time nr nb (o, log) = (Ok tt, (o', log')) ->
        ranges o' = nr /\ beam_end_points o' = nb /\ angles o' = angles o
        /\ (buffers_match o -> buffers_match o'))
  /\ (forall current_time nr nb o log e o' log',
        update_ranges_and_beams current_time nr nb (o, log) = (Raise e, (o', log')) ->
        o' = o)
  /\ (forall current_time arg s log o' s' log',
        LaserScanner.scan current_time arg (s, log) = (Ok o', (s', log')) ->
        LaserScanner.laser_scan s' = Some o' /\ buffers_match o').
Proof.
  split_and!.
  - intros x y h o log. eexists. split; [apply init_beams_run|].
    apply after_init_beams_match.
  - intros current_time nr nb o log o' log' Hup.
    unfold update_ranges_and_beams in Hup. run.
    destruct (length nr =? length (_ranges o))%nat eqn:E1; cbn [negb] in Hup; [|done].
    destruct (length nb =? length (_beam_end_points o))%nat eqn:E2;
      cbn [negb] in Hup; [|done].
    apply Nat.eqb_eq in E1, E2. injection Hup as <- <-. run.
    split_and!; try done.
    unfold buffers_match. run. intros [? ?]. split; congruence.
  - intros current_time nr nb o log e o' log' Hup.
    unfold update_ranges_and_beams in Hup. run.
    destruct (length nr =? length (_ranges o))%nat; cbn [negb] in Hup;
      [|by injection Hup].
    destruct (length nb =? length (_beam_end_points o))%nat; cbn [negb] in Hup;
      [done | by injection Hup].
  - intros current_time arg s log o' s' log' Hscan.
    apply scan_ok_inv in Hscan
      as (p0 & p1 & p2 & x & y & m & o & -> & Hready & _ & _ & _ & -> & Hpath).
    split; [done|].
    destruct Hpath as [(_ & -> & _) | (_ & _ & first & _ & _ & -> & _)].
    + unfold buffers_match, LaserScanner.after_guard. run.
      by rewrite length_replicate, length_map.
    + unfold buffers_match, LaserScanner.after_scan. run. by rewrite !length_map.
Qed.

End ScanInvariants.

(** Counterexample to C3 as stated: on the scan state [load_scanner] has
    just built, [update_ranges_and_beams] with two empty lists returns, and
    leaves no range for three angles. *)
Lemma update_before_init_beams :
  exists o o',
    (from_config BoxWorld.three_beams []).1 = Ok o
    /\ update_ranges_and_beams 1 [] [] (o, []) = (Ok tt, (o', []))
    /\ length (angles o') = 3%nat
    /\ length (ranges o') = 0%nat
    /\ ~ buffers_match o'.
Proof.
  do 2 eexists. split; [vm_compute; reflexivity|].
  split; [vm_compute; reflexivity|].
  split; [reflexivity|]. split; [reflexivity|].
  intros [Hr _]. discriminate Hr.
Qed.

(** ** Loading *)

(** [load_map] and [load_scanner] on a new scanner with a well-formed
    configuration leave it ready to scan. *)
Lemma loading_makes_ready (c : LaserScanConfig) (boundary : list PathNode)
    (obstacles : list (list PathNode)) (p : Q * Q) (h0 : Q) :
  well_formed c ->
  exists s o log,
    (bind (LaserScanner.load_map boundary obstacles)
          (fun _ => LaserScanner.load_scanner p h0)) (LaserScanner.init c, [])
    = (Ok tt, (s, log))
    /\ LaserScanner.ready s (LaserScanner.mkMap boundary obstacles) o
    /\ (from_config c []).1 = Ok o.
Proof.
  intros Hwf.
  destruct (from_config_returns c [] (well_formed_not_malformed c Hwf)) as [log' E].
  unfold LaserScanner.load_map, LaserScanner.load_scanner, LaserScanner.init. run.
  do 3 eexists. rewrite E. run. split; [reflexivity|]. split; [|reflexivity]. done.
Qed.

(** ** The small instance *)

Lemma gap_nonneg (lo hi p : Q) : (0 <= BoxWorld.gap lo hi p)%Q.
Proof. unfold BoxWorld.gap. apply Q.le_max_l. Qed.

Lemma box_laws : @ShapelyLaws BoxWorld.box_shapely.
Proof.
  split.
  - intros g p. cbn. unfold BoxWorld.box_distance.
    destruct g as [[[[x0 x1] y0] y1]|]; [|done].
    destruct p as [[[[px ?] py] ?]|]; [|done].
    pose proof (gap_nonneg x0 x1 px). pose proof (gap_nonneg y0 y1 py).
    set (a := BoxWorld.gap x0 x1 px) in *. set (b := BoxWorld.gap y0 y1 py) in *.
    lra.
  - intros p. reflexivity.
Qed.

Lemma start_ready :
  LaserScanner.ready BoxWorld.start.1 BoxWorld.the_map BoxWorld.fresh_scan.
Proof. repeat split. Qed.

Lemma scanner_with_ready (obstacles : list (list PathNode)) :
  LaserScanner.ready (BoxWorld.scanner_with obstacles).1
    (LaserScanner.mkMap BoxWorld.room obstacles) BoxWorld.fresh_scan.
Proof. repeat split. Qed.

Lemma fenced_ready :
  LaserScanner.ready BoxWorld.fenced.1 (LaserScanner.mkMap BoxWorld.sliver [])
    BoxWorld.fresh_scan.
Proof. repeat split. Qed.

(** ** The statements on the small instance *)

(** Counterexample to C1 as stated: the room with the pillar and an
    obstacle of two vertices.  The checks pass and the sensor is strictly
    inside the boundary, but shapely refuses the second obstacle: the scan
    raises, and the ranges it leaves are the [range_max] that [init_beams]
    wrote, not the least distances, which are smaller. *)
Lemma unbuilt_obstacle_raises :
  LaserScanner.ready (BoxWorld.scanner_with [BoxWorld.pillar; BoxWorld.sliver]).1
    (LaserScanner.mkMap BoxWorld.room [BoxWorld.pillar; BoxWorld.sliver])
    BoxWorld.fresh_scan
  /\ @LaserScanner.inside BoxWorld.box_shapely
       (LaserScanner.mkMap BoxWorld.room [BoxWorld.pillar; BoxWorld.sliver]) 1 5 = true
  /\ exists msg s' o',
      @LaserScanner.scan BoxWorld.quarter_turns BoxWorld.box_shapely
        5 (LaserScanner.PyList [1; 5; 0]%Q)
        (BoxWorld.scanner_with [BoxWorld.pillar; BoxWorld.sliver])
      = (Raise (ValueError msg),
         (s', (BoxWorld.scanner_with [BoxWorld.pillar; BoxWorld.sliver]).2))
      /\ LaserScanner.laser_scan s' = Some o'
      /\ ranges o' = [20; 20; 20]%Q
      /\ Forall (fun a =>
                   (@LaserScanner.beam_range BoxWorld.quarter_turns BoxWorld.box_shapely
                      (LaserScanner.mkMap BoxWorld.room [BoxWorld.pillar; BoxWorld.sliver])
                      [0; 0]%Q 1 5 0 20 a < 20)%Q)
                (angles o').
Proof.
  split; [apply scanner_with_ready|]. split; [vm_compute; reflexivity|].
  do 3 eexists. split; [vm_compute; reflexivity|]. split; [reflexivity|].
  split; [reflexivity|].
  repeat constructor; apply Qlt_alt; vm_compute; reflexivity.
Qed.


(** Counterexample to C6 as stated: the pose [['a', 'b', 'c']] is no
    3-component numeric tuple, but it is a list of three components and
    passes the checks.  The scan fails, with a [TypeError] at the first
    beam, after it has overwritten the stored pose and the timestamp,
    reset the ranges and emptied the beam end points. *)
Lemma strings_pass_the_checks :
  LaserScanner.pose_ok (LaserScanner.PyList [PyStr "a"; PyStr "b"; PyStr "c"]) = true
  /\ LaserScanner._state BoxWorld.start.1 = Some [1; 1; 0]%Q
  /\ LaserScanner.laser_scan BoxWorld.start.1 = Some BoxWorld.fresh_scan
  /\ exists msg s' o',
      @LaserScanner.scan BoxWorld.quarter_turns BoxWorld.box_shapely
        5 (LaserScanner.PyList [PyStr "a"; PyStr "b"; PyStr "c"]) BoxWorld.start
      = (Raise (TypeError msg), (s', BoxWorld.start.2))
      /\ LaserScanner._state s' = Some [PyStr "a"; PyStr "b"; PyStr "c"]
      /\ LaserScanner.laser_scan s' = Some o'
      /\ timestamp o' = 5%Q /\ timestamp BoxWorld.fresh_scan = 0%Q
      /\ ranges o' = [20; 20; 20]%Q /\ ranges BoxWorld.fresh_scan = []
      /\ LaserScanOutput._state o' = [PyStr "a"; PyStr "b"; PyStr "c"].
Proof.
  split; [reflexivity|]. split; [reflexivity|]. split; [reflexivity|].
  do 3 eexists. split; [vm_compute; reflexivity|]. split; [reflexivity|].
  split; [reflexivity|]. split_and!; reflexivity.
Qed.

Lemma scan_commits_nearest_hit_witness :
  exists first o' s' log',
    LaserScanner.boundary_coords BoxWorld.the_map !! 0%nat = Some first
    /\ @LaserScanner.scan BoxWorld.quarter_turns BoxWorld.box_shapely
         5 (LaserScanner.PyList [1; 5; 0]%Q) (BoxWorld.start.1, BoxWorld.start.2)
       = (Ok o', (s', log'))
    /\ Forall2 (fun a r =>
                  (r == @LaserScanner.beam_range BoxWorld.quarter_turns BoxWorld.box_shapely
                          BoxWorld.the_map first 1 5 0 (range_max BoxWorld.fresh_scan) a)%Q)
               (angles o') (ranges o').
Proof.
  destruct (@scan_commits_nearest_hit BoxWorld.quarter_turns BoxWorld.box_shapely box_laws
              5 1 5 0 BoxWorld.start.1 BoxWorld.the_map BoxWorld.fresh_scan BoxWorld.start.2)
    as (first & o' & s' & log' & Hfirst & E & _ & _ & _ & Hr & _).
  - exact start_ready.
  - vm_compute. reflexivity.
  - vm_compute. reflexivity.
  - exists first, o', s', log'. split; [exact Hfirst|]. split; [exact E | exact Hr].
Defined.


Lemma guard_returns_refreshed_state_witness :
  exists o' s' log',
    @LaserScanner.scan BoxWorld.quarter_turns BoxWorld.box_shapely
      5 (LaserScanner.PyList [11; 5; 0]%Q) (BoxWorld.start.1, BoxWorld.start.2)
    = (Ok o', (s', log'))
    /\ timestamp o' = 5%Q
    /\ LaserScanner._state s' = Some [11; 5; 0]%Q.
Proof.
  destruct (@guard_returns_refreshed_state BoxWorld.quarter_turns BoxWorld.box_shapely
              5 11 5 0 BoxWorld.start.1 BoxWorld.the_map BoxWorld.fresh_scan BoxWorld.start.2)
    as (o' & s' & log' & E & _ & Ht & _ & Hs & _).
  - exact start_ready.
  - vm_compute. reflexivity.
  - vm_compute. reflexivity.
  - exists o', s', log'. split; [exact E|]. split; [exact Ht | exact Hs].
Defined.

Lemma scan_rejects_before_any_effect_witness :
  exists msg,
    @LaserScanner.scan BoxWorld.quarter_turns BoxWorld.box_shapely
      5 (LaserScanner.PyTuple [1; 5; 0]%Q) (BoxWorld.start.1, BoxWorld.start.2)
    = (Raise (ValueError msg), (BoxWorld.start.1, BoxWorld.start.2)).
Proof.
  apply (@scan_rejects_before_any_effect BoxWorld.quarter_turns BoxWorld.box_shapely).
  right. right. reflexivity.
Defined.

Lemma scan_twice_same_result_witness :
  exists o1 o2 : t,
    ranges o2 = ranges o1 /\ beam_end_points o2 = beam_end_points o1
    /\ length (ranges o1) = 3%nat.
Proof.
  destruct (@LaserScanner.scan BoxWorld.quarter_turns BoxWorld.box_shapely
              5 (LaserScanner.PyList [1; 5; 0]%Q) (BoxWorld.start.1, BoxWorld.start.2))
    as [r [s1 log1]] eqn:E1.
  destruct r as [o1|e]; [|vm_compute in E1; discriminate E1].
  destruct (@scan_twice_same_result BoxWorld.quarter_turns BoxWorld.box_shapely
              5 (LaserScanner.PyList [1; 5; 0]%Q) _ _ _ _ _ E1)
    as [(o2 & s2 & log2 & _ & Hr & Hb) _].
  exists o1, o2. split; [exact Hr|]. split; [exact Hb|].
  vm_compute in E1. injection E1 as <- _ _. reflexivity.
Defined.

Lemma buffers_match_angles_witness :
  exists o' : t,
    update_ranges_and_beams 1 [7; 8; 9]%Q [(0, 0); (1, 1); (2, 2)]%Q
      (@after_init_beams BoxWorld.quarter_turns 0 0 0 BoxWorld.fresh_scan, [])
    = (Ok tt, (o', []))
    /\ buffers_match o'.
Proof.
  destruct (@buffers_match_angles BoxWorld.quarter_turns BoxWorld.box_shapely)
    as (_ & Hup & _ & _).
  exists (set_beam_end_points [(0, 0); (1, 1); (2, 2)]%Q
            (set_ranges [7; 8; 9]%Q
               (set_timestamp 1
                  (@after_init_beams BoxWorld.quarter_turns 0 0 0 BoxWorld.fresh_scan)))).
  split; [reflexivity|].
  apply (Hup 1%Q [7; 8; 9]%Q [(0, 0); (1, 1); (2, 2)]%Q
             (@after_init_beams BoxWorld.quarter_turns 0 0 0 BoxWorld.fresh_scan) []
             _ []).
  - reflexivity.
  - apply after_init_beams_match.
Defined.
(** ** Registering the geometry of a map *)

Section Registration.
Import GeometricMap.

(** [register_boundary] looks at the first vertex only: a list is
    registered as soon as that one has two coordinates. *)
Lemma register_boundary_first_vertex (v0 : PathNode) (vs : list PathNode)
    (m : GeometricMap.t) (log : list event) :
  register_boundary (Vertices (v0 :: vs)) (m, log)
  = if (length v0 =? 2)%nat
    then (Ok tt, (set_boundary_coords (v0 :: vs) m, log))
    else (Raise (TypeError "All coordinates must be 2-dimension."), (m, log)).
Proof.
  unfold register_boundary, getitem. cbn [lookup list_lookup]. run.
  by destruct (length v0 =? 2)%nat.
Qed.

(** An empty list is refused by the indexing, not by a check. *)
Lemma register_boundary_empty (m : GeometricMap.t) (log : list event) :
  register_boundary (Vertices []) (m, log) = (Raise IndexError, (m, log)).
Proof. reflexivity. Qed.

(** An obstacle that is registered is stored under its id, over whatever
    was stored there. *)
Lemma register_obstacle_stores (d : ObstacleInfo) (i : Z) (v0 : PathNode)
    (vs : list PathNode) (m : GeometricMap.t) (log : list event) :
  id_ d = Some i -> vertices d = Some (Vertices (v0 :: vs)) -> length v0 = 2%nat ->
  register_obstacle (Dict d) (m, log)
  = (Ok tt, (set_obstacle_info_dict (<[i := d]> (_obstacle_info_dict m)) m, log)).
Proof.
  intros Hi Hv Hl. unfold register_obstacle, getitem. rewrite Hv.
  cbn [lookup list_lookup]. run. rewrite Hl, Hi. run. done.
Qed.

(** Of two accepted obstacles with one id registered one after the other,
    the second is the one read back under that id. *)
Lemma register_obstacle_last_write_wins (d1 d2 : ObstacleInfo) (i : Z)
    (v1 v2 : PathNode) (vs1 vs2 : list PathNode) (m : GeometricMap.t)
    (log : list event) :
  id_ d1 = Some i -> vertices d1 = Some (Vertices (v1 :: vs1)) -> length v1 = 2%nat ->
  id_ d2 = Some i -> vertices d2 = Some (Vertices (v2 :: vs2)) -> length v2 = 2%nat ->
  exists m',
    (bind (register_obstacle (Dict d1)) (fun _ => register_obstacle (Dict d2))) (m, log)
    = (Ok tt, (m', log))
    /\ get_obstacle_info i (m', log) = (Ok d2, (m', log)).
Proof.
  intros Hi1 Hv1 Hl1 Hi2 Hv2 Hl2. eexists. unfold bind at 1.
  erewrite register_obstacle_stores by done.
  erewrite register_obstacle_stores by done.
  split; [done|]. unfold get_obstacle_info. run. by rewrite lookup_insert_eq.
Qed.

(** C7, on the code. The vertex list [(0, 0), (1, 2, 3)] holds a vertex
    that is not 2-dimensional, yet [register_boundary] registers it as the
    boundary and [register_obstacle] stores an obstacle made of it: both
    check the first vertex alone.  An empty vertex list makes them fail at
    the indexing, with an [IndexError] in place of a validation error. *)
Theorem register_checks_first_vertex_only (m : GeometricMap.t) (log : list event) :
  all_2d [[0; 0]; [1; 2; 3]]%Q = false
  /\ register_boundary (Vertices [[0; 0]; [1; 2; 3]]%Q) (m, log)
     = (Ok tt, (set_boundary_coords [[0; 0]; [1; 2; 3]]%Q m, log))
  /\ register_obstacle
       (Dict (mkInfo (Some 7%Z) (Some "wall") (Some (Vertices [[0; 0]; [1; 2; 3]]%Q))))
       (m, log)
     = (Ok tt,
        (set_obstacle_info_dict
           (<[7%Z := mkInfo (Some 7%Z) (Some "wall")
                       (Some (Vertices [[0; 0]; [1; 2; 3]]%Q))]>
              (_obstacle_info_dict m)) m,
         log))
  /\ register_boundary (Vertices []) (m, log) = (Raise IndexError, (m, log))
  /\ register_obstacle (Dict (mkInfo (Some 7%Z) (Some "wall") (Some (Vertices []))))
       (m, log)
     = (Raise IndexError, (m, log)).
Proof.
  split_and!; try reflexivity.
Qed.

End Registration.

(** * Further properties *)

(** ** The minimum of a list of distances *)

Lemma fold_min_le_init (l : list Q) (a : Q) : (fold_left Qmin l a <= a)%Q.
Proof.
  revert a. induction l as [|c l IH]; intros a; [apply Qle_refl|].
  cbn. eapply Qle_trans; [apply IH | apply Q.le_min_l].
Qed.

Lemma fold_min_mono (l : list Q) (a b : Q) :
  (a <= b)%Q -> (fold_left Qmin l a <= fold_left Qmin l b)%Q.
Proof.
  revert a b. induction l as [|c l IH]; intros a b Hab; [done|].
  cbn. apply IH. by apply Q.min_le_compat_r.
Qed.

Lemma fold_min_perm (l l' : list Q) (a : Q) :
  l ≡ₚ l' -> (fold_left Qmin l a == fold_left Qmin l' a)%Q.
Proof.
  intros Hp. revert a.
  induction Hp as [|c l l' _ IH|c d l|l l' l'' _ IH1 _ IH2]; intros a; cbn.
  - done.
  - apply IH.
  - apply fold_min_proper.
    rewrite <- !Q.min_assoc. by rewrite (Q.min_comm d c).
  - by rewrite IH1.
Qed.

Lemma Qmin_cases (c d : Q) : Qmin c d = c \/ Qmin c d = d.
Proof. rewrite <- Qmin_as_test. destruct (Qlt_bool d c); auto. Qed.

Lemma fold_min_attained (l : list Q) (a : Q) :
  fold_left Qmin l a = a \/ fold_left Qmin l a ∈ l.
Proof.
  revert a. induction l as [|c l IH]; intros a; [by left|].
  cbn. destruct (IH (Qmin a c)) as [E|Hin].
  - rewrite E. destruct (Qmin_cases a c) as [->| ->]; [by left|].
    right. apply list_elem_of_here.
  - right. by apply list_elem_of_further.
Qed.

(** ** More on scanning *)

Section ScanProperties.
Context `{PyMath} `{Shapely}.

(** A scan that returns changes neither the configuration, nor the map,
    nor the flags of the scanner, nor the angles, the angular limits, the
    range limits and the frame of the scan state. *)
Theorem scan_keeps_configuration (current_time : Q) (arg : LaserScanner.pose_arg)
    (s s' : LaserScanner.t) (log log' : list event) (o' : t) :
  LaserScanner.scan current_time arg (s, log) = (Ok o', (s', log')) ->
  LaserScanner._cfg s' = LaserScanner._cfg s
  /\ LaserScanner._map s' = LaserScanner._map s
  /\ LaserScanner._map_prepared s' = LaserScanner._map_prepared s
  /\ LaserScanner._scanner_prepared s' = LaserScanner._scanner_prepared s
  /\ exists o,
      LaserScanner.laser_scan s = Some o
      /\ angles o' = angles o
      /\ angle_min o' = angle_min o /\ angle_max o' = angle_max o
      /\ angle_increment o' = angle_increment o
      /\ range_min o' = range_min o /\ range_max o' = range_max o
      /\ frame_id o' = frame_id o.
Proof.
  intros Hscan.
  apply scan_ok_inv in Hscan
    as (p0 & p1 & p2 & x & y & m & o & -> & (Hmp & Hm & Hsp & Ho) & _ & _ & _ & -> & Hpath).
  run. split_and!; try done.
  exists o. split; [done|].
  destruct Hpath as [(_ & -> & _) | (_ & _ & first & _ & _ & -> & _)]; done.
Qed.

(** No range a scan returns exceeds [range_max], and none is negative
    unless [range_max] is. *)
Theorem scan_ranges_bounded `{!ShapelyLaws} (current_time : Q)
    (arg : LaserScanner.pose_arg) (s s' : LaserScanner.t) (log log' : list event)
    (o' : t) :
  LaserScanner.scan current_time arg (s, log) = (Ok o', (s', log')) ->
  Forall (fun r => (r <= range_max o')%Q) (ranges o')
  /\ ((0 <= range_max o')%Q -> Forall (fun r => (0 <= r)%Q) (ranges o')).
Proof.
  intros Hscan.
  apply scan_ok_inv in Hscan
    as (p0 & p1 & p2 & x & y & m & o & -> & _ & _ & _ & _ & -> & Hpath).
  destruct Hpath as [(_ & -> & _) | (_ & _ & first & _ & _ & -> & _)].
  - unfold LaserScanner.after_guard. run. split.
    + apply Forall_forall. intros r Hr. apply elem_of_replicate in Hr as [-> _].
      apply Qle_refl.
    + intros Hmax. apply Forall_forall. intros r Hr.
      by apply elem_of_replicate in Hr as [-> _].
  - unfold LaserScanner.after_scan. run. split.
    + apply Forall_forall. intros r Hr. apply list_elem_of_In, in_map_iff in Hr
        as (a & <- & _).
      apply fold_min_le_init.
    + intros Hmax. apply Forall_forall. intros r Hr.
      apply list_elem_of_In, in_map_iff in Hr as (a & <- & _).
      apply fold_min_nonneg; [done | apply hit_distances_nonneg].
Qed.

(** A scan from inside the boundary, on a map whose geometries shapely
    builds, calls [intersects] once for each beam and each geometry (the
    obstacles in their order, then the boundary), beam by beam in the
    order of the angles, and logs nothing else: the calls are, in this
    order, those of beam 0 with the geometries 0, 1, ..., then those of
    beam 1, and so on. *)
Theorem full_scan_tests_every_pair `{!ShapelyLaws} (current_time x y h : Q)
    (s : LaserScanner.t) (m : LaserScanner.BasicMap) (o : t) (log : list event) :
  LaserScanner.ready s m o -> LaserScanner.buildable m = true ->
  LaserScanner.inside m x y = true ->
  exists o' s',
    LaserScanner.scan current_time (LaserScanner.PyList [x; y; h]) (s, log)
    = (Ok o', (s',
               log ++ flat_map
                        (fun i => map (IntersectsCall i)
                                    (seq 0 (S (length (LaserScanner.obstacle_list m)))))
                        (seq 0 (length (angles o))))).
Proof.
  intros Hready (Hb & Hobs & Hline)%buildable_spec Hin.
  destruct (LaserScanner.boundary_coords m) as [|first rest] eqn:Hbc.
  { unfold LaserScanner.inside in Hin. rewrite Hbc, contains_nil in Hin. done. }
  assert (LaserScanner.boundary_coords m !! 0%nat = Some first) as Hfirst
    by (by rewrite Hbc).
  rewrite <- Hbc in *.
  do 2 eexists.
  apply (scan_full_trace current_time x y h x y s m first o log); try done.
  - by left.
  - by apply Hline.
Qed.

(** Every range a scan returns is [range_max] or the distance to the
    intersection of its beam with one of the geometries. *)
Theorem scan_range_attained (current_time x y h : Q) (s s' : LaserScanner.t)
    (m : LaserScanner.BasicMap) (o o' : t) (log log' : list event) :
  LaserScanner.ready s m o ->
  LaserScanner.scan current_time (LaserScanner.PyList [x; y; h]) (s, log)
  = (Ok o', (s', log')) ->
  Forall2 (fun a r =>
             r = range_max o
             \/ exists first geo,
                 LaserScanner.boundary_coords m !! 0%nat = Some first
                 /\ geo ∈ LaserScanner.candidate_geometries m first
                 /\ LaserScanner.hit_distance
                      (LaserScanner.beam_of x y h (range_max o) a) (Point x y) geo
                    = Some r)
          (angles o) (ranges o').
Proof.
  intros Hready Hscan.
  destruct (scan_ok_inv_floats _ _ _ _ _ _ _ _ _ _ _ Hready Hscan)
    as (_ & -> & Hpath).
  destruct Hpath as [(_ & -> & _) | (_ & _ & first & Hfirst & _ & -> & _)].
  - unfold LaserScanner.after_guard. run.
    induction (_angles o) as [|a l IH]; cbn; constructor; auto.
  - unfold LaserScanner.after_scan. run. apply Forall2_map_r. intros a.
    unfold LaserScanner.scanned_range, LaserScanner.closest_of.
    destruct (fold_min_attained
                (omap (LaserScanner.hit_distance
                         (LaserScanner.beam_of x y h (range_max o) a) (Point x y))
                      (LaserScanner.candidate_geometries m first))
                (range_max o)) as [E|Hin]; [by left|].
    right. apply list_elem_of_omap in Hin as (geo & Hgeo & Hhit).
    by exists first, geo.
Qed.

(** An obstacle more in the map lengthens no beam. *)
Theorem obstacle_never_lengthens (current_time x y h : Q)
    (s sa s' sa' : LaserScanner.t) (boundary : list PathNode)
    (obstacle : list PathNode) (obstacles : list (list PathNode))
    (o o' oa' : t) (log loga log' loga' : list event) :
  LaserScanner.ready s (LaserScanner.mkMap boundary obstacles) o ->
  LaserScanner.ready sa (LaserScanner.mkMap boundary (obstacle :: obstacles)) o ->
  LaserScanner.scan current_time (LaserScanner.PyList [x; y; h]) (s, log)
  = (Ok o', (s', log')) ->
  LaserScanner.scan current_time (LaserScanner.PyList [x; y; h]) (sa, loga)
  = (Ok oa', (sa', loga')) ->
  Forall2 Qle (ranges oa') (ranges o').
Proof.
  intros Hready Hreadya Hscan Hscana.
  destruct (scan_ok_inv_floats _ _ _ _ _ _ _ _ _ _ _ Hready Hscan)
    as (_ & -> & Hpath).
  destruct (scan_ok_inv_floats _ _ _ _ _ _ _ _ _ _ _ Hreadya Hscana)
    as (_ & -> & Hpatha).
  unfold LaserScanner.inside in *. run.
  destruct Hpath as [(Hin & -> & _) | (Hin & _ & first & Hfirst & _ & -> & _)];
    destruct Hpatha as [(Hina & -> & _) | (Hina & _ & firsta & Hfirsta & _ & -> & _)];
    try congruence.
  - unfold LaserScanner.after_guard. run.
    induction (length (_angles o)) as [|n IH]; cbn; constructor; [apply Qle_refl | done].
  - rewrite Hfirst in Hfirsta. injection Hfirsta as <-.
    unfold LaserScanner.after_scan. run.
    induction (_angles o) as [|a l IH]; cbn; constructor; [|done].
    unfold LaserScanner.scanned_range, LaserScanner.candidate_geometries. run.
    cbn [map app].
    destruct (LaserScanner.hit_distance _ _ (Polygon obstacle)); [|apply Qle_refl].
    cbn [fold_left]. apply fold_min_mono, Q.le_min_l.
Qed.

(** The order of the obstacles in the map does not change the ranges. *)
Theorem obstacle_order_irrelevant (current_time x y h : Q)
    (s sa s' sa' : LaserScanner.t) (boundary : list PathNode)
    (obstacles obstacles' : list (list PathNode))
    (o o' oa' : t) (log loga log' loga' : list event) :
  obstacles ≡ₚ obstacles' ->
  LaserScanner.ready s (LaserScanner.mkMap boundary obstacles) o ->
  LaserScanner.ready sa (LaserScanner.mkMap boundary obstacles') o ->
  LaserScanner.scan current_time (LaserScanner.PyList [x; y; h]) (s, log)
  = (Ok o', (s', log')) ->
  LaserScanner.scan current_time (LaserScanner.PyList [x; y; h]) (sa, loga)
  = (Ok oa', (sa', loga')) ->
  Forall2 Qeq (ranges oa') (ranges o').
Proof.
  intros Hperm Hready Hreadya Hscan Hscana.
  destruct (scan_ok_inv_floats _ _ _ _ _ _ _ _ _ _ _ Hready Hscan)
    as (_ & -> & Hpath).
  destruct (scan_ok_inv_floats _ _ _ _ _ _ _ _ _ _ _ Hreadya Hscana)
    as (_ & -> & Hpatha).
  unfold LaserScanner.inside in *. run.
  destruct Hpath as [(Hin & -> & _) | (Hin & _ & first & Hfirst & _ & -> & _)];
    destruct Hpatha as [(Hina & -> & _) | (Hina & _ & firsta & Hfirsta & _ & -> & _)];
    try congruence.
  - unfold LaserScanner.after_guard. run.
    induction (length (_angles o)) as [|n IH]; cbn; constructor; [apply Qeq_refl | done].
  - rewrite Hfirst in Hfirsta. injection Hfirsta as <-.
    unfold LaserScanner.after_scan. run.
    induction (_angles o) as [|a l IH]; cbn; constructor; [|done].
    unfold LaserScanner.scanned_range, LaserScanner.closest_of,
      LaserScanner.candidate_geometries. run.
    apply fold_min_perm. apply omap_Permutation.
    apply Permutation_app_tail. apply Permutation_map. by symmetry.
Qed.

(** A list of three components of which one is no number is not refused
    by the checks of [scan]: on a loaded scanner with at least one beam
    the scan raises a [TypeError], and by then the pose is stored in the
    scanner and in the scan state, the timestamp is set, every range is
    back at [range_max] and the end points are gone.  Nothing is logged. *)
Theorem scan_type_error_after_refresh (current_time : Q) (p0 p1 p2 : pyval)
    (s : LaserScanner.t) (m : LaserScanner.BasicMap) (o : t) (log : list event) :
  LaserScanner.ready s m o ->
  numeric [p0; p1; p2] = false -> angles o <> [] ->
  exists msg s' o',
    LaserScanner.scan current_time (LaserScanner.PyList [p0; p1; p2]) (s, log)
    = (Raise (TypeError msg), (s', log))
    /\ LaserScanner._state s' = Some [p0; p1; p2]
    /\ LaserScanner.laser_scan s' = Some o'
    /\ timestamp o' = current_time
    /\ LaserScanOutput._state o' = [p0; p1; p2]
    /\ ranges o' = replicate (length (angles o)) (range_max o)
    /\ beam_end_points o' = []
    /\ angles o' = angles o.
Proof.
  intros Hready Hn He.
  destruct (scan_raises_not_numeric current_time p0 p1 p2 s m o log Hready Hn He)
    as [msg E].
  exists msg. do 2 eexists. split; [exact E|]. run. done.
Qed.

(** When shapely refuses the boundary, or refuses an obstacle once the
    sensor is found inside the boundary, a scan with a pose of three floats
    raises a [ValueError]; by then the pose and the timestamp are stored
    and [init_beams] has put every range at [range_max] and every end point
    at that distance along its beam.  Nothing is logged. *)
Theorem scan_value_error_after_refresh (current_time x y h : Q)
    (s : LaserScanner.t) (m : LaserScanner.BasicMap) (o : t) (log : list event) :
  LaserScanner.ready s m o ->
  polygon_builds (LaserScanner.boundary_coords m) = false
  \/ (polygon_builds (LaserScanner.boundary_coords m) = true
      /\ LaserScanner.inside m x y = true
      /\ forallb polygon_builds (LaserScanner.obstacle_list m) = false) ->
  exists msg s' o',
    LaserScanner.scan current_time (LaserScanner.PyList [x; y; h]) (s, log)
    = (Raise (ValueError msg), (s', log))
    /\ LaserScanner._state s' = Some [x; y; h]
    /\ LaserScanner.laser_scan s' = Some o'
    /\ timestamp o' = current_time
    /\ LaserScanOutput._state o' = [x; y; h]
    /\ ranges o' = replicate (length (angles o)) (range_max o)
    /\ beam_end_points o' = map (end_point x y h (range_max o)) (angles o)
    /\ angles o' = angles o.
Proof.
  intros Hready Hcase.
  assert (numeric [PyFloat x; PyFloat y; PyFloat h] = true \/ angles o = []) as Hfit
    by (by left).
  destruct Hcase as [Hb|(Hb & Hin & Hobs)].
  - destruct (scan_raises_unbuilt_boundary current_time x y h s m o log Hready Hfit Hb)
      as [msg E].
    exists msg. do 2 eexists. split; [exact E|].
    unfold LaserScanner.at_guard, LaserScanner.after_guard. run. done.
  - destruct (scan_raises_unbuilt_obstacle current_time x y h x y s m o log
                Hready Hfit Hb eq_refl Hin Hobs) as [msg E].
    exists msg. do 2 eexists. split; [exact E|].
    unfold LaserScanner.at_guard, LaserScanner.after_guard. run. done.
Qed.

End ScanProperties.

(** ** More on the sensor and its buffer *)

Section SensorProperties.
Context `{PyMath}.

(** On a configuration it accepts, the constructor gives its advisory
    exactly when [angle_min] is not negative or [angle_max] is not
    positive, and logs nothing otherwise. *)
Theorem advisory_iff_forward_not_bracketed (c : LaserScanConfig) (log : list event) :
  well_formed c ->
  exists o log',
    from_config c log = (Ok o, log')
    /\ ((cfg_angle_min c < 0)%Q /\ (0 < cfg_angle_max c)%Q -> log' = log)
    /\ ((0 <= cfg_angle_min c)%Q \/ (cfg_angle_max c <= 0)%Q ->
        exists msg, log' = log ++ [Warn msg]).
Proof.
  intros Hwf. pose proof Hwf as (Hle & Hinc & Hspan).
  unfold from_config, post_init. run.
  destruct (Qlt_bool (cfg_angle_max c) (cfg_angle_min c)) eqn:E1.
  { apply Qlt_bool_iff in E1. lra. }
  destruct (Qle_bool (cfg_angle_increment c) 0) eqn:E2.
  { apply Qle_bool_iff in E2. lra. }
  destruct (Qlt_bool (fsub (cfg_angle_max c) (cfg_angle_min c)) (cfg_angle_increment c))
    eqn:E3.
  { apply Qlt_bool_iff in E3. lra. }
  cbn [orb].
  destruct (Qle_bool 0 (cfg_angle_min c)) eqn:E4; cbn [orb].
  { run. do 2 eexists. split; [done|]. apply Qle_bool_iff in E4. split.
    - intros [? ?]. lra.
    - intros _. by eexists. }
  apply Qle_bool_false_iff in E4.
  destruct (Qle_bool (cfg_angle_max c) 0) eqn:E5.
  { run. do 2 eexists. split; [done|]. apply Qle_bool_iff in E5. split.
    - intros [? ?]. lra.
    - intros _. by eexists. }
  apply Qle_bool_false_iff in E5.
  run. do 2 eexists. split; [done|]. split; [done|]. intros [?|?]; lra.
Qed.


(** After [init_beams], [update_ranges_and_beams] returns exactly when
    both lists it is given are as long as the angle sequence. *)
Theorem update_after_init_beams (x y h current_time : Q) (nr : list Q)
    (nb : list (Q * Q)) (o : t) (log : list event) :
  is_ok (bind (init_beams (x, y) h)
              (fun _ => update_ranges_and_beams current_time nr nb) (o, log)).1 = true
  <-> length nr = length (angles o) /\ length nb = length (angles o).
Proof.
  unfold bind. rewrite init_beams_run. unfold update_ranges_and_beams. run.
  rewrite length_replicate, length_map.
  destruct (Nat.eqb_spec (length nr) (length (_angles o))) as [E1|E1];
    destruct (Nat.eqb_spec (length nb) (length (_angles o))) as [E2|E2];
    cbn [negb]; run; cbn [is_ok]; split; try done; intros [? ?]; done.
Qed.

End SensorProperties.

(** ** More on loading *)

(** [load_scanner] on a malformed configuration raises and leaves the
    scanner as it was, its flags included. *)
Theorem load_scanner_rejects_malformed (p : Q * Q) (h0 : Q) (s : LaserScanner.t)
    (log : list event) :
  malformed (LaserScanner._cfg s) ->
  exists msg,
    LaserScanner.load_scanner p h0 (s, log) = (Raise (ValueError msg), (s, log)).
Proof.
  intros Hc. unfold LaserScanner.load_scanner. run.
  destruct (from_config_raises _ log Hc) as [msg ->]. by exists msg.
Qed.

(** [load_scanner] on a well-formed configuration returns: the scanner is
    marked ready and holds the pose, its map is untouched, and the new scan
    state has the angles of the configuration but no range and no end
    point yet: [init_beams] has not run. *)
Theorem load_scanner_leaves_buffers_empty (p : Q * Q) (h0 : Q) (s : LaserScanner.t)
    (log : list event) :
  well_formed (LaserScanner._cfg s) ->
  exists s' o log',
    LaserScanner.load_scanner p h0 (s, log) = (Ok tt, (s', log'))
    /\ LaserScanner.laser_scan s' = Some o
    /\ (from_config (LaserScanner._cfg s) log).1 = Ok o
    /\ LaserScanner._scanner_prepared s' = true
    /\ LaserScanner._state s' = Some [p.1; p.2; h0]
    /\ LaserScanner._map s' = LaserScanner._map s
    /\ LaserScanner._map_prepared s' = LaserScanner._map_prepared s
    /\ ranges o = [] /\ beam_end_points o = [].
Proof.
  intros Hwf.
  destruct (from_config_returns _ log (well_formed_not_malformed _ Hwf)) as [log2 E].
  unfold LaserScanner.load_scanner. run. rewrite E. run.
  do 3 eexists. split; [reflexivity|]. run. split_and!; done.
Qed.

(** ** More on the geometric map *)

Section MapProperties.
Import GeometricMap.

Lemma register_boundary_cases (vs : py_vertices) (m : GeometricMap.t)
    (log : list event) :
  (boundary_accepted vs = true ->
   exists l, vs = Vertices l
     /\ register_boundary vs (m, log) = (Ok tt, (set_boundary_coords l m, log)))
  /\ (boundary_accepted vs = false ->
      exists e, register_boundary vs (m, log) = (Raise e, (m, log))).
Proof.
  destruct vs as [|[|v0 l]]; cbn [boundary_accepted].
  - split; [done|]. intros _. by eexists.
  - split; [done|]. intros _. by eexists.
  - rewrite register_boundary_first_vertex.
    destruct (length v0 =? 2)%nat; split; try done.
    + intros _. by eexists.
    + intros _. by eexists.
Qed.

(** [register_boundary] returns exactly on a list whose first vertex has two
    coordinates; it then replaces the boundary and keeps the obstacles.
    When it raises, the map is as it was. *)
Theorem register_boundary_accepts (vs : py_vertices) (m : GeometricMap.t)
    (log : list event) :
  (boundary_accepted vs = true ->
   exists l m', vs = Vertices l
     /\ register_boundary vs (m, log) = (Ok tt, (m', log))
     /\ _boundary_coords m' = l
     /\ _obstacle_info_dict m' = _obstacle_info_dict m)
  /\ (boundary_accepted vs = false ->
      exists e, register_boundary vs (m, log) = (Raise e, (m, log))).
Proof.
  destruct (register_boundary_cases vs m log) as [Hok Hno]. split; [|done].
  intros Hacc. destruct (Hok Hacc) as (l & -> & E).
  exists l, (set_boundary_coords l m). by rewrite E.
Qed.

Lemma register_obstacle_accepted (d : ObstacleInfo) (m : GeometricMap.t)
    (log : list event) :
  obstacle_accepted (Dict d) = true ->
  exists i,
    id_ d = Some i
    /\ entry_ok i d
    /\ register_obstacle (Dict d) (m, log)
       = (Ok tt, (set_obstacle_info_dict (<[i := d]> (_obstacle_info_dict m)) m, log)).
Proof.
  cbn [obstacle_accepted]. intros Hacc.
  destruct (id_ d) as [i|] eqn:Hi; [|done].
  destruct (vertices d) as [[|[|v0 l]]|] eqn:Hv; try done.
  cbn [boundary_accepted] in Hacc. apply Nat.eqb_eq in Hacc.
  exists i. split; [done|]. split.
  - split; [done|]. by exists v0, l.
  - by apply (register_obstacle_stores d i v0 l).
Qed.

Lemma register_obstacle_refused (ob : py_obstacle) (m : GeometricMap.t)
    (log : list event) :
  obstacle_accepted ob = false ->
  exists e, register_obstacle ob (m, log) = (Raise e, (m, log)).
Proof.
  intros Hacc. destruct ob as [|d]; [by eexists|].
  cbn [obstacle_accepted] in Hacc. unfold register_obstacle, getitem.
  destruct (vertices d) as [[|[|v0 l]]|] eqn:Hv; try (by eexists).
  cbn [lookup list_lookup]. run.
  destruct (length v0 =? 2)%nat eqn:Hl; cbn [negb]; [|by eexists].
  destruct (id_ d) as [i|] eqn:Hi; [|by eexists].
  cbn [boundary_accepted] in Hacc. congruence.
Qed.

(** [register_obstacle] returns exactly on a dictionary with an id and a
    vertex list whose first vertex has two coordinates; it then stores the
    dictionary under that id and changes nothing else.  When it raises, for
    whatever reason, the map is as it was. *)
Theorem register_obstacle_accepts (ob : py_obstacle) (m : GeometricMap.t)
    (log : list event) :
  (obstacle_accepted ob = true ->
   exists d i, ob = Dict d /\ id_ d = Some i
     /\ register_obstacle ob (m, log)
        = (Ok tt, (set_obstacle_info_dict (<[i := d]> (_obstacle_info_dict m)) m, log)))
  /\ (obstacle_accepted ob = false ->
      exists e, register_obstacle ob (m, log) = (Raise e, (m, log))).
Proof.
  split.
  - intros Hacc. destruct ob as [|d]; [done|].
    destruct (register_obstacle_accepted d m log Hacc) as (i & Hi & _ & E).
    by exists d, i.
  - apply register_obstacle_refused.
Qed.

(** What was registered can be read back under its id, and registering
    under one id leaves the reading of every other id as it was. *)
Theorem register_then_get (d : ObstacleInfo) (m m' : GeometricMap.t)
    (log log' : list event) :
  register_obstacle (Dict d) (m, log) = (Ok tt, (m', log')) ->
  exists i,
    id_ d = Some i
    /\ get_obstacle_info i (m', log') = (Ok d, (m', log'))
    /\ forall j, j <> i ->
         (get_obstacle_info j (m', log')).1 = (get_obstacle_info j (m, log)).1.
Proof.
  intros Hreg.
  destruct (obstacle_accepted (Dict d)) eqn:Hacc.
  - destruct (register_obstacle_accepted d m log Hacc) as (i & Hi & _ & E).
    rewrite E in Hreg. injection Hreg as <- <-.
    exists i. split; [done|]. unfold get_obstacle_info. run. split.
    + by rewrite lookup_insert_eq.
    + intros j Hj. rewrite lookup_insert_ne by done.
      by destruct (_obstacle_info_dict m !! j).
  - destruct (register_obstacle_refused (Dict d) m log Hacc) as [e E].
    rewrite E in Hreg. done.
Qed.

(** Reading an id that is not in the dictionary raises a [KeyError] and
    changes nothing. *)
Lemma get_obstacle_info_missing (i : Z) (m : GeometricMap.t) (log : list event) :
  _obstacle_info_dict m !! i = None ->
  get_obstacle_info i (m, log) = (Raise KeyError, (m, log)).
Proof. intros Hi. unfold get_obstacle_info. run. by rewrite Hi. Qed.

End MapProperties.

Section MapConstruction.
Import GeometricMap.

(** The loop of [__init__] over obstacles that all pass the checks. *)
Lemma register_obstacles_accepted (obs : list py_obstacle) (m0 : GeometricMap.t)
    (log : list event) :
  Forall (fun ob => obstacle_accepted ob = true) obs ->
  exists m', register_obstacles obs (m0, log) = (Ok tt, (m', log)).
Proof.
  revert m0. induction obs as [|ob obs IH]; intros m0 Hall.
  - by eexists.
  - apply Forall_cons in Hall as [Hob Hall]. destruct ob as [|d]; [done|].
    destruct (register_obstacle_accepted d m0 log Hob) as (i & _ & _ & E).
    cbn [register_obstacles]. unfold bind. rewrite E. apply IH, Hall.
Qed.

(** What the loop of [__init__] leaves when it returns. *)
Lemma register_obstacles_ok (obs : list py_obstacle) (m0 m' : GeometricMap.t)
    (log log' : list event) :
  register_obstacles obs (m0, log) = (Ok tt, (m', log')) ->
  log' = log
  /\ _boundary_coords m' = _boundary_coords m0
  /\ Forall (fun ob => obstacle_accepted ob = true) obs
  /\ (forall i d, _obstacle_info_dict m' !! i = Some d ->
        (Dict d ∈ obs /\ entry_ok i d) \/ _obstacle_info_dict m0 !! i = Some d)
  /\ (forall pre d post i,
        obs = pre ++ Dict d :: post -> id_ d = Some i ->
        (forall d', Dict d' ∈ post -> id_ d' <> Some i) ->
        _obstacle_info_dict m' !! i = Some d)
  /\ (forall i, (forall d, Dict d ∈ obs -> id_ d <> Some i) ->
        _obstacle_info_dict m' !! i = _obstacle_info_dict m0 !! i).
Proof.
  revert m0. induction obs as [|ob obs IH]; intros m0 Hrun.
  - cbn in Hrun. injection Hrun as <- <-. split_and!; try done.
    + intros i d Hd. by right.
    + intros [|? ?] ? ? ? ?; done.
  - cbn [register_obstacles] in Hrun. unfold bind in Hrun.
    destruct (obstacle_accepted ob) eqn:Hacc.
    2:{ destruct (register_obstacle_refused ob m0 log Hacc) as [e E].
        rewrite E in Hrun. done. }
    destruct ob as [|d0]; [done|].
    destruct (register_obstacle_accepted d0 m0 log Hacc) as (i0 & Hi0 & Hok0 & E).
    rewrite E in Hrun.
    apply IH in Hrun as (-> & Hb & Hall & Horigin & Hlast & Hkeep). run.
    split_and!; try done.
    + by constructor.
    + intros i d Hd. apply Horigin in Hd as [[Hin Hok]|Hd].
      * left. split; [by apply list_elem_of_further | done].
      * destruct (decide (i0 = i)) as [<-|Hne].
        -- rewrite lookup_insert_eq in Hd. injection Hd as <-.
           left. split; [apply list_elem_of_here | done].
        -- rewrite lookup_insert_ne in Hd by done. by right.
    + intros pre d post i Hsplit Hid Hnone.
      destruct pre as [|ob' pre]; cbn in Hsplit.
      * injection Hsplit as <- <-. rewrite Hkeep by done.
        assert (i0 = i) as -> by congruence. by rewrite lookup_insert_eq.
      * injection Hsplit as <- ->. by eapply Hlast.
    + intros i Hnone. rewrite Hkeep.
      * rewrite lookup_insert_ne; [done|]. intros <-.
        by apply (Hnone d0); [apply list_elem_of_here|].
      * intros d Hd. apply Hnone. by apply list_elem_of_further.
Qed.

(** Constructing a map succeeds exactly when the boundary and every
    obstacle pass the checks on their own; nothing is logged either way. *)
Theorem init_accepts_iff (b : py_vertices) (obs : list py_obstacle) (log : list event) :
  (is_ok (init b obs log).1 = true
   <-> boundary_accepted b = true
       /\ Forall (fun ob => obstacle_accepted ob = true) obs)
  /\ (init b obs log).2 = log.
Proof.
  unfold init, bind.
  destruct (boundary_accepted b) eqn:Hb.
  - destruct (register_boundary_cases b (mk [] ∅) log) as [Hok _].
    destruct (Hok Hb) as (l & -> & E). rewrite E.
    destruct (register_obstacles obs (set_boundary_coords l (mk [] ∅), log))
      as [[[]|e] [m' log']] eqn:Hrun.
    + apply register_obstacles_ok in Hrun as (-> & _ & Hall & _). done.
    + split.
      * split; [done|]. intros [_ Hall].
        destruct (register_obstacles_accepted obs (set_boundary_coords l (mk [] ∅)) log Hall)
          as [m2 E2]. rewrite E2 in Hrun. done.
      * clear E Hok. revert Hrun. generalize (set_boundary_coords l (mk [] ∅)).
        induction obs as [|ob obs IH]; intros m0 Hrun; [done|].
        cbn [register_obstacles] in Hrun. unfold bind in Hrun.
        destruct (obstacle_accepted ob) eqn:Hacc.
        -- destruct ob as [|d0]; [done|].
           destruct (register_obstacle_accepted d0 m0 log Hacc) as (i0 & _ & _ & E).
           rewrite E in Hrun. by eapply IH.
        -- destruct (register_obstacle_refused ob m0 log Hacc) as [e' E].
           rewrite E in Hrun. by injection Hrun as _ _ <-.
  - destruct (register_boundary_cases b (mk [] ∅) log) as [_ Hno].
    destruct (Hno Hb) as [e E]. rewrite E. cbn. split; [|done].
    split; [done|]. by intros [? _].
Qed.

(** The map a construction returns: its boundary is the list given; each
    entry of its dictionary is one of the obstacles given, stored under its
    own id and with a 2-dimensional first vertex; of several obstacles with
    one id the last is stored; and an id no obstacle has is not a key. *)
Theorem init_stores (b : py_vertices) (obs : list py_obstacle) (m : GeometricMap.t)
    (log log' : list event) :
  init b obs log = (Ok m, log') ->
  (exists l, b = Vertices l /\ _boundary_coords m = l)
  /\ (forall i d, _obstacle_info_dict m !! i = Some d -> Dict d ∈ obs /\ entry_ok i d)
  /\ (forall pre d post i,
        obs = pre ++ Dict d :: post -> id_ d = Some i ->
        (forall d', Dict d' ∈ post -> id_ d' <> Some i) ->
        get_obstacle_info i (m, log') = (Ok d, (m, log')))
  /\ (forall i, (forall d, Dict d ∈ obs -> id_ d <> Some i) ->
        get_obstacle_info i (m, log') = (Raise KeyError, (m, log'))).
Proof.
  unfold init, bind. intros Hinit.
  destruct (boundary_accepted b) eqn:Hb.
  2:{ destruct (register_boundary_cases b (mk [] ∅) log) as [_ Hno].
      destruct (Hno Hb) as [e E]. rewrite E in Hinit. done. }
  destruct (register_boundary_cases b (mk [] ∅) log) as [Hok _].
  destruct (Hok Hb) as (l & -> & E). rewrite E in Hinit.
  destruct (register_obstacles obs (set_boundary_coords l (mk [] ∅), log))
    as [[[]|e] [m' log2]] eqn:Hrun; [|done].
  injection Hinit as <- <-.
  apply register_obstacles_ok in Hrun as (-> & Hbd & Hall & Horigin & Hlast & Hkeep).
  run. split_and!.
  - by exists l.
  - intros i d Hd. apply Horigin in Hd as [?|Hd]; [done|].
    by rewrite lookup_empty in Hd.
  - intros pre d post i Hsplit Hid Hnone. unfold get_obstacle_info. run.
    by rewrite (Hlast pre d post i Hsplit Hid Hnone).
  - intros i Hnone. unfold get_obstacle_info. run.
    by rewrite (Hkeep i Hnone), lookup_empty.
Qed.

End MapConstruction.

Section MapFromRaw.
Import GeometricMap.

Lemma register_enumerated (l : list (list PathNode)) (k : nat)
    (m0 m' : GeometricMap.t) (log log' : list event) :
  register_obstacles (enumerate_obstacles k l) (m0, log) = (Ok tt, (m', log')) ->
  log' = log
  /\ _boundary_coords m' = _boundary_coords m0
  /\ (forall j vs, l !! j = Some vs ->
        _obstacle_info_dict m' !! Z.of_nat (k + j) = Some (numbered (k + j) vs))
  /\ (forall z, (z < Z.of_nat k \/ Z.of_nat (k + length l) <= z)%Z ->
        _obstacle_info_dict m' !! z = _obstacle_info_dict m0 !! z).
Proof.
  revert k m0. induction l as [|vs l IH]; intros k m0 Hrun.
  - cbn in Hrun. injection Hrun as <- <-. split_and!; try done.
  - cbn [enumerate_obstacles register_obstacles] in Hrun. unfold bind in Hrun.
    fold (numbered k vs) in Hrun.
    destruct (obstacle_accepted (Dict (numbered k vs))) eqn:Hacc.
    2:{ destruct (register_obstacle_refused _ m0 log Hacc) as [e E].
        rewrite E in Hrun. done. }
    destruct (register_obstacle_accepted _ m0 log Hacc) as (i0 & Hi0 & _ & E).
    cbn in Hi0. injection Hi0 as <-.
    rewrite E in Hrun. apply IH in Hrun as (-> & Hb & Hin & Hout). run.
    split_and!; try done.
    + intros [|j] vs' Hj; cbn in Hj.
      * injection Hj as <-. rewrite Nat.add_0_r, Hout by lia.
        by rewrite lookup_insert_eq.
      * rewrite Nat.add_succ_r. by apply (Hin j).
    + intros z Hz. cbn [length] in Hz. rewrite Hout by lia.
      rewrite lookup_insert_ne; [done|]. lia.
Qed.

Lemma init_enumerated (b : list PathNode) (obs : list (list PathNode))
    (m : GeometricMap.t) (log log' : list event) :
  init (Vertices b) (enumerate_obstacles 0 obs) log = (Ok m, log') ->
  _boundary_coords m = b
  /\ (forall i vs, obs !! i = Some vs ->
        get_obstacle_info (Z.of_nat i) (m, log') = (Ok (numbered i vs), (m, log')))
  /\ (forall z, (z < 0 \/ Z.of_nat (length obs) <= z)%Z ->
        get_obstacle_info z (m, log') = (Raise KeyError, (m, log'))).
Proof.
  unfold init, bind. intros Hraw.
  destruct (register_boundary (Vertices b) (mk [] ∅, log)) as [[[]|e] [m1 log1]] eqn:Eb;
    [|done].
  destruct b as [|v0 b]; [done|].
  rewrite register_boundary_first_vertex in Eb.
  destruct (length v0 =? 2)%nat; [|done]. injection Eb as <- <-.
  destruct (register_obstacles _ _) as [[[]|e] [m' log2]] eqn:Hrun; [|done].
  injection Hraw as <- <-.
  apply register_enumerated in Hrun as (-> & Hb & Hin & Hout). run.
  split_and!; [done | |].
  - intros i vs Hi. unfold get_obstacle_info. run.
    specialize (Hin i vs Hi). cbn [Nat.add] in Hin. by rewrite Hin.
  - intros z Hz. unfold get_obstacle_info. run.
    rewrite Hout by (cbn; lia). by rewrite lookup_empty.
Qed.

(** [from_raw] without a factor: when it returns, the boundary is the list
    given and the obstacle of index [i] is stored under the id [i], with
    the name [obstacle_i] and its vertices as given; no other id is a key. *)
Theorem from_raw_numbers_obstacles (b : list PathNode) (obs : list (list PathNode))
    (m : GeometricMap.t) (log log' : list event) :
  from_raw b obs None log = (Ok m, log') ->
  _boundary_coords m = b
  /\ (forall i vs, obs !! i = Some vs ->
        get_obstacle_info (Z.of_nat i) (m, log') = (Ok (numbered i vs), (m, log')))
  /\ (forall z, (z < 0 \/ Z.of_nat (length obs) <= z)%Z ->
        get_obstacle_info z (m, log') = (Raise KeyError, (m, log'))).
Proof. apply init_enumerated. Qed.

Lemma rescale_vertex_run {S} (k : Q) (v : PathNode) (w : S * list event) :
  match v with
  | x0 :: x1 :: _ => rescale_vertex k v w = (Ok [fmul x0 k; fmul x1 k], w)
  | _ => rescale_vertex k v w = (Raise IndexError, w)
  end.
Proof. by destruct v as [|x0 [|x1 rest]]. Qed.

Lemma rescale_vertices_run {S} (k : Q) (l : list PathNode) (w w' : S * list event)
    (r : result (list PathNode)) :
  comprehension (rescale_vertex k) l w = (r, w') ->
  w' = w
  /\ match r with
     | Ok l' => Forall2 (rescaled k) l l'
     | Raise e => e = IndexError /\ Exists (fun v => (length v < 2)%nat) l
     end.
Proof.
  revert r w'. induction l as [|v l IH]; intros r w' Hrun.
  - cbn in Hrun. injection Hrun as <- <-. split; [done|]. constructor.
  - cbn [comprehension] in Hrun. unfold bind at 1 in Hrun.
    pose proof (rescale_vertex_run k v w) as Hv.
    destruct v as [|x0 [|x1 rest]]; rewrite Hv in Hrun.
    + injection Hrun as <- <-. split; [done|]. split; [done|].
      apply Exists_cons_hd. cbn. lia.
    + injection Hrun as <- <-. split; [done|]. split; [done|].
      apply Exists_cons_hd. cbn. lia.
    + unfold bind in Hrun.
      destruct (comprehension (rescale_vertex k) l w) as [[l'|e] w1] eqn:El.
      * destruct (IH _ _ eq_refl) as [-> Hl]. injection Hrun as <- <-.
        split; [done|]. constructor; [|done]. by exists x0, x1, rest.
      * destruct (IH _ _ eq_refl) as [-> [-> Hl]]. injection Hrun as <- <-.
        split; [done|]. split; [done|]. by apply Exists_cons_tl.
Qed.

Lemma rescale_obstacles_run {S} (k : Q) (l : list (list PathNode))
    (w w' : S * list event) (l' : list (list PathNode)) :
  comprehension (comprehension (rescale_vertex k)) l w = (Ok l', w') ->
  w' = w /\ Forall2 (Forall2 (rescaled k)) l l'.
Proof.
  revert l' w'. induction l as [|vs l IH]; intros l' w' Hrun.
  - cbn in Hrun. injection Hrun as <- <-. split; [done|]. constructor.
  - cbn [comprehension] in Hrun. unfold bind at 1 in Hrun.
    destruct (comprehension (rescale_vertex k) vs w) as [[vs'|e] w1] eqn:Evs; [|done].
    apply rescale_vertices_run in Evs as [-> Hvs].
    unfold bind in Hrun.
    destruct (comprehension (comprehension (rescale_vertex k)) l w) as [[l2|e] w2] eqn:El;
      [|done].
    destruct (IH _ _ eq_refl) as [-> Hl]. injection Hrun as <- <-.
    split; [done|]. by constructor.
Qed.

Lemma rescaled_all_2d (k : Q) (l l' : list PathNode) :
  Forall2 (rescaled k) l l' -> all_2d l' = true.
Proof.
  induction 1 as [|v v' l l' (x0 & x1 & rest & -> & ->) _ IH]; [done|].
  cbn. done.
Qed.

(** [from_raw] with a factor: when it returns, every vertex of the
    boundary and of the stored obstacles is the pair of the first two
    coordinates of the vertex given, each times the factor, the product
    rounded as a float product is.  So all of them are 2-dimensional,
    whatever the vertices given were. *)
Theorem from_raw_rescales (k : Q) (b : list PathNode) (obs : list (list PathNode))
    (m : GeometricMap.t) (log log' : list event) :
  from_raw b obs (Some k) log = (Ok m, log') ->
  Forall2 (rescaled k) b (_boundary_coords m)
  /\ all_2d (_boundary_coords m) = true
  /\ (forall i vs, obs !! i = Some vs ->
        exists vs',
          get_obstacle_info (Z.of_nat i) (m, log')
          = (Ok (numbered i vs'), (m, log'))
          /\ Forall2 (rescaled k) vs vs' /\ all_2d vs' = true).
Proof.
  unfold from_raw. unfold bind at 1. intros Hraw.
  destruct (comprehension (rescale_vertex k) b (tt, log)) as [[b'|e] w1] eqn:Eb;
    [|by destruct w1].
  apply rescale_vertices_run in Eb as [-> Hb].
  unfold bind at 1 in Hraw.
  destruct (comprehension (comprehension (rescale_vertex k)) obs (tt, log))
    as [[obs'|e] w2] eqn:Eo; [|by destruct w2].
  apply rescale_obstacles_run in Eo as [-> Ho]. run.
  apply init_enumerated in Hraw as (Hbd & Hin & _).
  rewrite Hbd. split; [done|]. split; [by eapply rescaled_all_2d|].
  intros i vs Hi.
  destruct (Forall2_lookup_l _ _ _ _ _ Ho Hi) as (vs' & Hi' & Hvs).
  exists vs'. split; [by apply Hin|]. split; [done | by eapply rescaled_all_2d].
Qed.

End MapFromRaw.

(** ** The builtins [min] and [max] *)

Lemma fold_min_lower (l : list Q) (a : Q) :
  Forall (fun d => (fold_left Qmin l a <= d)%Q) l.
Proof.
  revert a. induction l as [|c l IH]; intros a; [constructor|].
  cbn. constructor; [|apply IH].
  eapply Qle_trans; [apply fold_min_le_init | apply Q.le_min_r].
Qed.

Lemma py_min_run {S} (xs : list Q) (w w' : S * list event) (r : result Q) :
  py_min xs w = (r, w') ->
  w' = w
  /\ match r with
     | Ok a => a ∈ xs /\ Forall (fun x => (a <= x)%Q) xs
     | Raise _ => xs = []
     end.
Proof.
  destruct xs as [|a0 xs]; cbn; intros [= <- <-]; [done|].
  split; [done|].
  assert (fold_left (fun best x => if Qlt_bool x best then x else best) xs a0
          = fold_left Qmin xs a0) as ->.
  { revert a0. induction xs as [|c xs IH]; intros a0; [done|].
    cbn. by rewrite Qmin_as_test. }
  split.
  - destruct (fold_min_attained xs a0) as [->|Hin].
    + apply list_elem_of_here.
    + by apply list_elem_of_further.
  - constructor; [apply fold_min_le_init | apply fold_min_lower].
Qed.

Lemma fold_max_spec (l : list Q) (a : Q) :
  let r := fold_left (fun best x => if Qlt_bool best x then x else best) l a in
  (r = a \/ r ∈ l) /\ (a <= r)%Q /\ Forall (fun x => (x <= r)%Q) l.
Proof.
  revert a. induction l as [|c l IH]; intros a; cbn.
  - split_and!; [by left | apply Qle_refl | constructor].
  - destruct (IH (if Qlt_bool a c then c else a)) as (Hin & Hle & Hall).
    destruct (Qlt_bool a c) eqn:E.
    + apply Qlt_bool_iff in E. split_and!.
      * right. destruct Hin as [->|Hin];
          [apply list_elem_of_here | by apply list_elem_of_further].
      * eapply Qle_trans; [apply Qlt_le_weak, E | done].
      * by constructor.
    + apply Qlt_bool_false_iff in E. split_and!.
      * destruct Hin as [->|Hin]; [by left | right; by apply list_elem_of_further].
      * done.
      * constructor; [by eapply Qle_trans | done].
Qed.

Lemma py_max_run {S} (xs : list Q) (w w' : S * list event) (r : result Q) :
  py_max xs w = (r, w') ->
  w' = w
  /\ match r with
     | Ok a => a ∈ xs /\ Forall (fun x => (x <= a)%Q) xs
     | Raise _ => xs = []
     end.
Proof.
  destruct xs as [|a0 xs]; cbn; intros [= <- <-]; [done|].
  split; [done|].
  destruct (fold_max_spec xs a0) as (Hin & Hle & Hall). split.
  - destruct Hin as [->|Hin];
      [apply list_elem_of_here | by apply list_elem_of_further].
  - by constructor.
Qed.

Lemma coordinates_run {S} (i : nat) (l : list PathNode) (w w' : S * list event)
    (r : result (list Q)) :
  comprehension (fun x => getitem x i) l w = (r, w') ->
  w' = w
  /\ match r with
     | Ok xs => Forall2 (fun v x => v !! i = Some x) l xs
     | Raise _ => Exists (fun v => (length v <= i)%nat) l
     end.
Proof.
  revert r w'. induction l as [|v l IH]; intros r w' Hrun.
  - cbn in Hrun. injection Hrun as <- <-. split; [done|]. constructor.
  - cbn [comprehension] in Hrun. unfold bind at 1, getitem at 1 in Hrun.
    match type of Hrun with
    | context [match ?t with Some _ => _ | None => _ end] =>
        destruct t as [x|] eqn:Hv
    end.
    + unfold ret at 1, bind in Hrun.
      destruct (comprehension (fun x => getitem x i) l w) as [[xs|e] w1] eqn:El.
      * destruct (IH _ _ eq_refl) as [-> Hl]. injection Hrun as <- <-.
        split; [done|]. by constructor.
      * destruct (IH _ _ eq_refl) as [-> Hl]. injection Hrun as <- <-.
        split; [done|]. by apply Exists_cons_tl.
    + injection Hrun as <- <-. split; [done|].
      apply Exists_cons_hd. by apply lookup_ge_None.
Qed.

Section MapScope.
Import GeometricMap.

(** [get_boundary_scope] returns exactly when the boundary is not empty
    and each of its vertices has at least two coordinates. *)
Theorem boundary_scope_returns_iff (m : GeometricMap.t) (log : list event) :
  is_ok (get_boundary_scope (m, log)).1 = true
  <-> _boundary_coords m <> []
      /\ Forall (fun v => (2 <= length v)%nat) (_boundary_coords m).
Proof.
  unfold get_boundary_scope. unfold bind at 1, get at 1. cbn [fst].
  set (b := _boundary_coords m).
  unfold bind at 1.
  destruct (comprehension (fun x => getitem x 0) b (m, log)) as [[xs|e] w1] eqn:Ex.
  2:{ apply coordinates_run in Ex as [-> Hex]. cbn. split; [done|].
      intros [_ Hall]. apply Exists_exists in Hex as (v & Hv & Hlen).
      rewrite Forall_forall in Hall. specialize (Hall v Hv). lia. }
  apply coordinates_run in Ex as Hx. destruct Hx as [-> Hxs].
  unfold bind at 1.
  destruct (py_min xs (m, log)) as [[x_min|e] w2] eqn:Emin.
  2:{ apply py_min_run in Emin as [-> ->]. apply Forall2_nil_inv_r in Hxs.
      cbn. split; [done|]. by intros [? _]. }
  apply py_min_run in Emin as [-> [Hmin _]].
  unfold bind at 1. rewrite Ex. unfold bind at 1.
  destruct (py_max xs (m, log)) as [[x_max|e] w3] eqn:Emax.
  2:{ apply py_max_run in Emax as [-> ->]. by apply elem_of_nil in Hmin. }
  apply py_max_run in Emax as [-> _].
  unfold bind at 1.
  destruct (comprehension (fun x => getitem x 1) b (m, log)) as [[ys|e] w4] eqn:Ey.
  2:{ apply coordinates_run in Ey as [-> Hex]. cbn. split; [done|].
      intros [_ Hall]. apply Exists_exists in Hex as (v & Hv & Hlen).
      rewrite Forall_forall in Hall. specialize (Hall v Hv). lia. }
  apply coordinates_run in Ey as Hy. destruct Hy as [-> Hys].
  unfold bind at 1.
  destruct (py_min ys (m, log)) as [[y_min|e] w5] eqn:Eymin.
  2:{ apply py_min_run in Eymin as [-> ->]. apply Forall2_nil_inv_r in Hys.
      rewrite Hys in Hxs. apply Forall2_nil_inv_l in Hxs. subst xs.
      by apply elem_of_nil in Hmin. }
  apply py_min_run in Eymin as [-> [Hymin _]].
  unfold bind at 1. rewrite Ey. unfold bind at 1.
  destruct (py_max ys (m, log)) as [[y_max|e] w6] eqn:Eymax.
  2:{ apply py_max_run in Eymax as [-> ->]. by apply elem_of_nil in Hymin. }
  cbn. split; [|done]. intros _. split.
  - intros Hb. rewrite Hb in Hxs. apply Forall2_nil_inv_l in Hxs. subst xs.
    by apply elem_of_nil in Hmin.
  - apply Forall_forall. intros v Hv. apply list_elem_of_lookup in Hv as [j Hj].
    destruct (Forall2_lookup_l _ _ _ _ _ Hys Hj) as (y & _ & Hy).
    apply lookup_lt_Some in Hy. lia.
Qed.

(** The scope [get_boundary_scope] returns encloses every vertex of the
    boundary, each of its four bounds is the coordinate of some vertex, and
    the map is left as it was. *)
Theorem boundary_scope_encloses (m : GeometricMap.t) (log : list event)
    (x_min x_max y_min y_max : Q) (w' : GeometricMap.t * list event) :
  get_boundary_scope (m, log) = (Ok (x_min, x_max, y_min, y_max), w') ->
  w' = (m, log)
  /\ (forall v, v ∈ _boundary_coords m ->
        exists x y, v !! 0%nat = Some x /\ v !! 1%nat = Some y
          /\ (x_min <= x)%Q /\ (x <= x_max)%Q /\ (y_min <= y)%Q /\ (y <= y_max)%Q)
  /\ (exists v, v ∈ _boundary_coords m /\ v !! 0%nat = Some x_min)
  /\ (exists v, v ∈ _boundary_coords m /\ v !! 0%nat = Some x_max)
  /\ (exists v, v ∈ _boundary_coords m /\ v !! 1%nat = Some y_min)
  /\ (exists v, v ∈ _boundary_coords m /\ v !! 1%nat = Some y_max).
Proof.
  unfold get_boundary_scope. unfold bind at 1, get at 1. cbn [fst].
  set (b := _boundary_coords m).
  unfold bind at 1.
  destruct (comprehension (fun x => getitem x 0) b (m, log)) as [[xs|e] w1] eqn:Ex;
    [|done].
  apply coordinates_run in Ex as Hx. destruct Hx as [-> Hxs].
  unfold bind at 1.
  destruct (py_min xs (m, log)) as [[x_min'|e] w2] eqn:Emin; [|done].
  apply py_min_run in Emin as [-> [Hmin Hminall]].
  unfold bind at 1. rewrite Ex. unfold bind at 1.
  destruct (py_max xs (m, log)) as [[x_max'|e] w3] eqn:Emax; [|done].
  apply py_max_run in Emax as [-> [Hmax Hmaxall]].
  unfold bind at 1.
  destruct (comprehension (fun x => getitem x 1) b (m, log)) as [[ys|e] w4] eqn:Ey;
    [|done].
  apply coordinates_run in Ey as Hy. destruct Hy as [-> Hys].
  unfold bind at 1.
  destruct (py_min ys (m, log)) as [[y_min'|e] w5] eqn:Eymin; [|done].
  apply py_min_run in Eymin as [-> [Hymin Hyminall]].
  unfold bind at 1. rewrite Ey. unfold bind at 1.
  destruct (py_max ys (m, log)) as [[y_max'|e] w6] eqn:Eymax; [|done].
  apply py_max_run in Eymax as [-> [Hymax Hymaxall]].
  cbn. intros [= -> -> -> -> <-]. split; [done|].
  assert (forall (i : nat) (cs : list Q) (c : Q),
            Forall2 (fun v x => v !! i = Some x) b cs -> c ∈ cs ->
            exists v, v ∈ b /\ v !! i = Some c) as Hback.
  { intros i cs c Hcs Hc. apply list_elem_of_lookup in Hc as [j Hj].
    destruct (Forall2_lookup_r _ _ _ _ _ Hcs Hj) as (v & Hv & Hvc).
    exists v. split; [|done]. apply list_elem_of_lookup. by exists j. }
  split_and!; try (by eapply Hback).
  intros v Hv. apply list_elem_of_lookup in Hv as [j Hj].
  destruct (Forall2_lookup_l _ _ _ _ _ Hxs Hj) as (x & Hxj & Hx).
  destruct (Forall2_lookup_l _ _ _ _ _ Hys Hj) as (y & Hyj & Hy).
  exists x, y. rewrite Forall_forall in Hminall, Hmaxall, Hyminall, Hymaxall.
  assert (x ∈ xs) by (apply list_elem_of_lookup; by exists j).
  assert (y ∈ ys) by (apply list_elem_of_lookup; by exists j).
  split_and!; auto.
Qed.

End MapScope.

Section MapConversion.
Import GeometricMap.

Lemma cvt_entry_listed (ct : PathNode -> PathNode) (d : ObstacleInfo) :
  entry_listed d -> entry_listed (cvt_entry ct d).
Proof. intros [vs Hvs]. unfold cvt_entry. rewrite Hvs. by eexists. Qed.

(** The loop of [map_coords_cvt] over distinct keys whose entries have a
    vertex list. *)
Lemma cvt_loop_run (ct : PathNode -> PathNode) (keys : list Z) (m : GeometricMap.t)
    (log : list event) :
  NoDup keys ->
  (forall k, k ∈ keys -> exists d, _obstacle_info_dict m !! k = Some d /\ entry_listed d) ->
  exists m',
    cvt_loop ct keys (m, log) = (Ok tt, (m', log))
    /\ _boundary_coords m' = _boundary_coords m
    /\ forall j,
         _obstacle_info_dict m' !! j
         = if decide (j ∈ keys)
           then cvt_entry ct <$> _obstacle_info_dict m !! j
           else _obstacle_info_dict m !! j.
Proof.
  revert m. induction keys as [|idx rest IH]; intros m Hnd Hkeys.
  - exists m. split; [done|]. split; [done|]. intros j.
    destruct (decide (j ∈ [])) as [Hj|_]; [by apply elem_of_nil in Hj | done].
  - apply NoDup_cons in Hnd as [Hidx Hnd].
    destruct (Hkeys idx) as (d & Hd & vs & Hvs); [apply list_elem_of_here|].
    cbn [cvt_loop]. run. rewrite Hd, Hvs. run.
    set (m1 := set_obstacle_info_dict _ m).
    destruct (IH m1 Hnd) as (m' & E & Hb & Hlook).
    { intros k Hk. unfold m1. run.
      rewrite lookup_insert_ne by (intros ->; done).
      apply Hkeys. by apply list_elem_of_further. }
    exists m'. split; [exact E|]. split; [by rewrite Hb|].
    intros j. rewrite Hlook. unfold m1. run.
    destruct (decide (j = idx)) as [->|Hne].
    + rewrite decide_False by done. rewrite decide_True by apply list_elem_of_here.
      rewrite lookup_insert_eq, Hd. cbn. unfold cvt_entry. by rewrite Hvs.
    + rewrite lookup_insert_ne by done.
      destruct (decide (j ∈ rest)) as [Hj|Hj].
      * rewrite decide_True by (by apply list_elem_of_further). done.
      * rewrite decide_False; [done|]. intros Hin.
        apply elem_of_cons in Hin as [?|?]; done.
Qed.

Lemma map_coords_cvt_run (ct : PathNode -> PathNode) (m : GeometricMap.t)
    (log : list event) :
  map_Forall (fun _ d => entry_listed d) (_obstacle_info_dict m) ->
  map_coords_cvt ct (m, log)
  = (Ok tt, (mk (map ct (_boundary_coords m)) (cvt_entry ct <$> _obstacle_info_dict m),
             log)).
Proof.
  intros Hall. unfold map_coords_cvt. run.
  set (m1 := set_boundary_coords _ m).
  destruct (cvt_loop_run ct (map fst (map_to_list (_obstacle_info_dict m))) m1 log)
    as (m' & E & Hb & Hlook).
  { apply (NoDup_fst_map_to_list (_obstacle_info_dict m)). }
  { intros k Hk. apply list_elem_of_In, in_map_iff in Hk as ([k' d] & <- & Hin).
    apply list_elem_of_In, elem_of_map_to_list in Hin.
    exists d. split; [done|]. by apply (Hall k'). }
  rewrite E. do 2 f_equal. destruct m' as [b' dict']. run. f_equal; [done|].
  apply map_eq. intros j. rewrite Hlook, lookup_fmap.
  destruct (decide (j ∈ map fst (map_to_list (_obstacle_info_dict m)))) as [_|Hj]; [done|].
  destruct (_obstacle_info_dict m !! j) as [d|] eqn:Hd; [|done].
  exfalso. apply Hj. apply list_elem_of_In, in_map_iff. exists (j, d).
  split; [done|]. by apply list_elem_of_In, elem_of_map_to_list.
Qed.

(** A map that a construction returned has a vertex list in every entry. *)
Lemma init_entries_listed (b : py_vertices) (obs : list py_obstacle)
    (m : GeometricMap.t) (log log' : list event) :
  init b obs log = (Ok m, log') ->
  map_Forall (fun _ d => entry_listed d) (_obstacle_info_dict m).
Proof.
  unfold init, bind. intros Hinit.
  destruct (register_boundary b (mk [] ∅, log)) as [[[]|e] [m1 log1]] eqn:Eb; [|done].
  destruct (register_obstacles obs (m1, log1)) as [[[]|e] [m' log2]] eqn:Hrun; [|done].
  injection Hinit as <- <-.
  apply register_obstacles_ok in Hrun as (_ & _ & _ & Horigin & _).
  intros i d Hd. apply Horigin in Hd as [[_ (_ & v0 & vs & Hv & _)]|Hd].
  - by eexists.
  - destruct (boundary_accepted b) eqn:Hb.
    + destruct (register_boundary_cases b (mk [] ∅) log) as [Hok _].
      destruct (Hok Hb) as (l & -> & E). rewrite E in Eb. injection Eb as <- <-.
      run. by rewrite lookup_empty in Hd.
    + destruct (register_boundary_cases b (mk [] ∅) log) as [_ Hno].
      destruct (Hno Hb) as [e E]. rewrite E in Eb. done.
Qed.

(** On a map whose entries all have a vertex list (as every map a
    construction returns has), [map_coords_cvt] returns: the conversion has
    been applied to every vertex of the boundary and of every obstacle,
    ids and names are kept, no key is added or removed, and no check is
    run on what the conversion returned. *)
Theorem map_coords_cvt_converts (ct : PathNode -> PathNode) (m : GeometricMap.t)
    (log : list event) :
  map_Forall (fun _ d => entry_listed d) (_obstacle_info_dict m) ->
  exists m',
    map_coords_cvt ct (m, log) = (Ok tt, (m', log))
    /\ _boundary_coords m' = map ct (_boundary_coords m)
    /\ (forall i d vs,
          _obstacle_info_dict m !! i = Some d -> vertices d = Some (Vertices vs) ->
          get_obstacle_info i (m', log)
          = (Ok (mkInfo (id_ d) (name d) (Some (Vertices (map ct vs)))), (m', log)))
    /\ (forall i, _obstacle_info_dict m !! i = None ->
          get_obstacle_info i (m', log) = (Raise KeyError, (m', log)))
    /\ map_Forall (fun _ d => entry_listed d) (_obstacle_info_dict m').
Proof.
  intros Hall. eexists. split; [by apply map_coords_cvt_run|]. run.
  split_and!; try done.
  - intros i d vs Hd Hvs. unfold get_obstacle_info. run.
    rewrite lookup_fmap, Hd. cbn. unfold cvt_entry. by rewrite Hvs.
  - intros i Hd. unfold get_obstacle_info. run. by rewrite lookup_fmap, Hd.
  - intros i d Hd. rewrite lookup_fmap in Hd.
    destruct (_obstacle_info_dict m !! i) as [d0|] eqn:Hd0; [|done].
    injection Hd as <-. apply cvt_entry_listed. by apply (Hall i).
Qed.

(** Converting by [f] and then by [g] leaves the map that converting once
    by their composition leaves, and both return: the conversions are
    functions of the coordinates of a vertex, which is all the model
    records of it. *)
Theorem map_coords_cvt_composes (f g : PathNode -> PathNode) (m : GeometricMap.t)
    (log : list event) :
  map_Forall (fun _ d => entry_listed d) (_obstacle_info_dict m) ->
  exists m',
    bind (map_coords_cvt f) (fun _ => map_coords_cvt g) (m, log) = (Ok tt, (m', log))
    /\ map_coords_cvt (fun v => g (f v)) (m, log) = (Ok tt, (m', log))
    /\ _boundary_coords m' = map g (map f (_boundary_coords m)).
Proof.
  intros Hall. eexists. split; [|split].
  - unfold bind. rewrite (map_coords_cvt_run f) by done.
    rewrite (map_coords_cvt_run g).
    + reflexivity.
    + run. intros i d Hd. rewrite lookup_fmap in Hd.
      destruct (_obstacle_info_dict m !! i) as [d0|] eqn:Hd0; [|done].
      injection Hd as <-. apply cvt_entry_listed. by apply (Hall i).
  - rewrite map_coords_cvt_run by done. run. do 3 f_equal.
    + by rewrite map_map.
    + rewrite <- map_fmap_compose. apply map_fmap_ext. intros i d Hd.
      destruct (Hall i d Hd) as [vs Hvs]. cbn. unfold cvt_entry. rewrite Hvs. run.
      by rewrite map_map.
  - done.
Qed.

(** [dict_to_obstacle_info] fills in a missing name from the id and keeps
    the id and the vertices; it raises exactly when the id or the vertices
    are missing.  What it returns, registered and read back under its id,
    is the dictionary with the name filled in, whenever the vertices pass
    the check. *)
Theorem dict_to_obstacle_info_completes (d : ObstacleInfo) (m : GeometricMap.t)
    (log : list event) :
  (forall i vs, id_ d = Some i -> vertices d = Some vs ->
     let d' := mkInfo (Some i) (Some (default ("obstacle_" +:+ pretty i) (name d)))
                      (Some vs) in
     dict_to_obstacle_info d (m, log) = (Ok d', (m, log))
     /\ dict_to_obstacle_info d' (m, log) = (Ok d', (m, log))
     /\ (boundary_accepted vs = true ->
         exists m',
           bind (dict_to_obstacle_info d)
                (fun completed =>
                   bind (register_obstacle (Dict completed))
                        (fun _ => get_obstacle_info i)) (m, log)
           = (Ok d', (m', log))))
  /\ (id_ d = None \/ vertices d = None ->
      exists msg, dict_to_obstacle_info d (m, log) = (Raise (ValueError msg), (m, log))).
Proof.
  split.
  - intros i vs Hi Hv d'.
    assert (dict_to_obstacle_info d (m, log) = (Ok d', (m, log))) as E.
    { unfold dict_to_obstacle_info. rewrite Hi, Hv. unfold d'. by destruct (name d). }
    split; [exact E|]. split; [done|].
    intros Hacc. unfold bind at 1. rewrite E. unfold bind.
    destruct (register_obstacle_accepted d' m log) as (i' & Hi' & _ & Er).
    { cbn. done. }
    cbn in Hi'. injection Hi' as <-. rewrite Er.
    eexists. unfold get_obstacle_info. run. by rewrite lookup_insert_eq.
  - unfold dict_to_obstacle_info. intros [Hi|Hv].
    + rewrite Hi. by eexists.
    + destruct (id_ d); rewrite ?Hv; by eexists.
Qed.

End MapConversion.


(** ** The further properties on the small instance *)

Lemma scan_keeps_configuration_witness :
  exists o' s' log',
    @LaserScanner.scan BoxWorld.quarter_turns BoxWorld.box_shapely
      5 (LaserScanner.PyList [1; 5; 0]%Q) (BoxWorld.start.1, BoxWorld.start.2)
    = (Ok o', (s', log'))
    /\ LaserScanner._map s' = LaserScanner._map BoxWorld.start.1.
Proof.
  destruct (@LaserScanner.scan BoxWorld.quarter_turns BoxWorld.box_shapely
              5 (LaserScanner.PyList [1; 5; 0]%Q) (BoxWorld.start.1, BoxWorld.start.2))
    as [r [s' log']] eqn:E.
  destruct r as [o'|e]; [|vm_compute in E; discriminate E].
  exists o', s', log'. split; [reflexivity|].
  exact (proj1 (proj2 (@scan_keeps_configuration BoxWorld.quarter_turns
                         BoxWorld.box_shapely _ _ _ _ _ _ _ E))).
Defined.

Lemma scan_ranges_bounded_witness :
  exists o' s' log',
    @LaserScanner.scan BoxWorld.quarter_turns BoxWorld.box_shapely
      5 (LaserScanner.PyList [1; 5; 0]%Q) (BoxWorld.start.1, BoxWorld.start.2)
    = (Ok o', (s', log'))
    /\ Forall (fun r => (r <= range_max o')%Q) (ranges o').
Proof.
  destruct (@LaserScanner.scan BoxWorld.quarter_turns BoxWorld.box_shapely
              5 (LaserScanner.PyList [1; 5; 0]%Q) (BoxWorld.start.1, BoxWorld.start.2))
    as [r [s' log']] eqn:E.
  destruct r as [o'|e]; [|vm_compute in E; discriminate E].
  exists o', s', log'. split; [reflexivity|].
  exact (proj1 (@scan_ranges_bounded BoxWorld.quarter_turns BoxWorld.box_shapely
                  box_laws _ _ _ _ _ _ _ E)).
Defined.

Lemma full_scan_tests_every_pair_witness :
  exists o' s',
    @LaserScanner.scan BoxWorld.quarter_turns BoxWorld.box_shapely
      5 (LaserScanner.PyList [1; 5; 0]%Q) (BoxWorld.start.1, BoxWorld.start.2)
    = (Ok o', (s',
               BoxWorld.start.2
               ++ [IntersectsCall 0 0; IntersectsCall 0 1; IntersectsCall 1 0;
                   IntersectsCall 1 1; IntersectsCall 2 0; IntersectsCall 2 1])).
Proof.
  apply (@full_scan_tests_every_pair BoxWorld.quarter_turns BoxWorld.box_shapely
           box_laws 5 1 5 0 BoxWorld.start.1 BoxWorld.the_map BoxWorld.fresh_scan
           BoxWorld.start.2).
  - exact start_ready.
  - vm_compute. reflexivity.
  - vm_compute. reflexivity.
Defined.

Lemma scan_range_attained_witness :
  exists o' : t, length (ranges o') = 3%nat.
Proof.
  destruct (@LaserScanner.scan BoxWorld.quarter_turns BoxWorld.box_shapely
              5 (LaserScanner.PyList [1; 5; 0]%Q) (BoxWorld.start.1, BoxWorld.start.2))
    as [r [s' log']] eqn:E.
  destruct r as [o'|e]; [|vm_compute in E; discriminate E].
  exists o'.
  pose proof (@scan_range_attained BoxWorld.quarter_turns BoxWorld.box_shapely
                5 1 5 0 BoxWorld.start.1 s' BoxWorld.the_map BoxWorld.fresh_scan o'
                BoxWorld.start.2 log' start_ready E) as Hall.
  apply Forall2_length in Hall. symmetry. exact Hall.
Defined.

Lemma obstacle_never_lengthens_witness :
  exists o' oa' : t, Forall2 Qle (ranges oa') (ranges o').
Proof.
  destruct (@LaserScanner.scan BoxWorld.quarter_turns BoxWorld.box_shapely
              5 (LaserScanner.PyList [1; 5; 0]%Q)
              ((BoxWorld.scanner_with []).1, (BoxWorld.scanner_with []).2))
    as [r [s' log']] eqn:E.
  destruct r as [o'|e]; [|vm_compute in E; discriminate E].
  destruct (@LaserScanner.scan BoxWorld.quarter_turns BoxWorld.box_shapely
              5 (LaserScanner.PyList [1; 5; 0]%Q)
              ((BoxWorld.scanner_with [BoxWorld.pillar]).1,
               (BoxWorld.scanner_with [BoxWorld.pillar]).2))
    as [ra [sa' loga']] eqn:Ea.
  destruct ra as [oa'|e]; [|vm_compute in Ea; discriminate Ea].
  exists o', oa'.
  exact (@obstacle_never_lengthens BoxWorld.quarter_turns BoxWorld.box_shapely
           5 1 5 0 _ _ _ _ BoxWorld.room BoxWorld.pillar [] BoxWorld.fresh_scan
           o' oa' _ _ _ _
           (scanner_with_ready []) (scanner_with_ready [BoxWorld.pillar]) E Ea).
Defined.

Lemma obstacle_order_irrelevant_witness :
  exists o' oa' : t, Forall2 Qeq (ranges oa') (ranges o').
Proof.
  destruct (@LaserScanner.scan BoxWorld.quarter_turns BoxWorld.box_shapely
              5 (LaserScanner.PyList [1; 5; 0]%Q)
              ((BoxWorld.scanner_with [BoxWorld.pillar; BoxWorld.pillar2]).1,
               (BoxWorld.scanner_with [BoxWorld.pillar; BoxWorld.pillar2]).2))
    as [r [s' log']] eqn:E.
  destruct r as [o'|e]; [|vm_compute in E; discriminate E].
  destruct (@LaserScanner.scan BoxWorld.quarter_turns BoxWorld.box_shapely
              5 (LaserScanner.PyList [1; 5; 0]%Q)
              ((BoxWorld.scanner_with [BoxWorld.pillar2; BoxWorld.pillar]).1,
               (BoxWorld.scanner_with [BoxWorld.pillar2; BoxWorld.pillar]).2))
    as [ra [sa' loga']] eqn:Ea.
  destruct ra as [oa'|e]; [|vm_compute in Ea; discriminate Ea].
  exists o', oa'.
  exact (@obstacle_order_irrelevant BoxWorld.quarter_turns BoxWorld.box_shapely
           5 1 5 0 _ _ _ _ BoxWorld.room
           [BoxWorld.pillar; BoxWorld.pillar2] [BoxWorld.pillar2; BoxWorld.pillar]
           BoxWorld.fresh_scan o' oa' _ _ _ _
           (perm_swap _ _ _)
           (scanner_with_ready _) (scanner_with_ready _) E Ea).
Defined.

Lemma scan_type_error_after_refresh_witness :
  exists msg s' o',
    @LaserScanner.scan BoxWorld.quarter_turns BoxWorld.box_shapely
      5 (LaserScanner.PyList [PyFloat 1; PyStr "b"; PyFloat 0])
      (BoxWorld.start.1, BoxWorld.start.2)
    = (Raise (TypeError msg), (s', BoxWorld.start.2))
    /\ LaserScanner.laser_scan s' = Some o'
    /\ beam_end_points o' = [].
Proof.
  destruct (@scan_type_error_after_refresh BoxWorld.quarter_turns BoxWorld.box_shapely
              5 (PyFloat 1) (PyStr "b") (PyFloat 0) BoxWorld.start.1 BoxWorld.the_map
              BoxWorld.fresh_scan BoxWorld.start.2)
    as (msg & s' & o' & E & _ & Ho & _ & _ & _ & Hb & _).
  - exact start_ready.
  - reflexivity.
  - discriminate.
  - exists msg, s', o'. split; [exact E|]. split; [exact Ho | exact Hb].
Defined.

Lemma scan_value_error_after_refresh_witness :
  exists msg s' o',
    @LaserScanner.scan BoxWorld.quarter_turns BoxWorld.box_shapely
      5 (LaserScanner.PyList [1; 5; 0]%Q) (BoxWorld.fenced.1, BoxWorld.fenced.2)
    = (Raise (ValueError msg), (s', BoxWorld.fenced.2))
    /\ LaserScanner.laser_scan s' = Some o'
    /\ timestamp o' = 5%Q.
Proof.
  destruct (@scan_value_error_after_refresh BoxWorld.quarter_turns BoxWorld.box_shapely
              5 1 5 0 BoxWorld.fenced.1 (LaserScanner.mkMap BoxWorld.sliver [])
              BoxWorld.fresh_scan BoxWorld.fenced.2)
    as (msg & s' & o' & E & _ & Ho & Ht & _).
  - exact fenced_ready.
  - left. reflexivity.
  - exists msg, s', o'. split; [exact E|]. split; [exact Ho | exact Ht].
Defined.

Lemma loading_makes_ready_witness :
  exists s o log,
    (bind (LaserScanner.load_map BoxWorld.room [BoxWorld.pillar])
          (fun _ => LaserScanner.load_scanner (1%Q, 1%Q) 0))
      (LaserScanner.init BoxWorld.three_beams, [])
    = (Ok tt, (s, log))
    /\ LaserScanner.ready s (LaserScanner.mkMap BoxWorld.room [BoxWorld.pillar]) o.
Proof.
  destruct (loading_makes_ready BoxWorld.three_beams BoxWorld.room [BoxWorld.pillar]
              (1%Q, 1%Q) 0 three_beams_well_formed)
    as (s & o & log & E & Hready & _).
  exists s, o, log. split; [exact E | exact Hready].
Defined.

Lemma load_scanner_rejects_malformed_witness :
  exists msg,
    LaserScanner.load_scanner (1%Q, 1%Q) 0 (LaserScanner.init BoxWorld.reversed_beams, [])
    = (Raise (ValueError msg), (LaserScanner.init BoxWorld.reversed_beams, [])).
Proof.
  apply load_scanner_rejects_malformed. left. reflexivity.
Defined.

Lemma load_scanner_leaves_buffers_empty_witness :
  exists s' o log',
    LaserScanner.load_scanner (1%Q, 1%Q) 0 (LaserScanner.init BoxWorld.three_beams, [])
    = (Ok tt, (s', log'))
    /\ LaserScanner.laser_scan s' = Some o
    /\ ranges o = [].
Proof.
  destruct (load_scanner_leaves_buffers_empty (1%Q, 1%Q) 0
              (LaserScanner.init BoxWorld.three_beams) [] three_beams_well_formed)
    as (s' & o & log' & E & Ho & _ & _ & _ & _ & _ & Hr & _).
  exists s', o, log'. split; [exact E|]. split; [exact Ho | exact Hr].
Defined.

Lemma advisory_iff_forward_not_bracketed_witness :
  (exists o, from_config BoxWorld.three_beams [] = (Ok o, []))
  /\ (exists o msg, from_config BoxWorld.side_beams [] = (Ok o, [Warn msg])).
Proof.
  split.
  - destruct (advisory_iff_forward_not_bracketed BoxWorld.three_beams []
                three_beams_well_formed) as (o & log' & E & Hno & _).
    exists o. rewrite E. f_equal. apply Hno. split; reflexivity.
  - destruct (advisory_iff_forward_not_bracketed BoxWorld.side_beams []) as
      (o & log' & E & _ & Hyes).
    + unfold well_formed. split_and!.
      * apply Qle_bool_iff. vm_compute. reflexivity.
      * apply Qlt_alt. vm_compute. reflexivity.
      * apply Qle_bool_iff. vm_compute. reflexivity.
    + destruct Hyes as [msg Hmsg]; [left; cbn; lra|].
      exists o, msg. rewrite E. f_equal. exact Hmsg.
Defined.

Lemma update_after_init_beams_witness :
  is_ok (bind (@init_beams BoxWorld.quarter_turns (0, 0)%Q 0%Q)
              (fun _ => update_ranges_and_beams 1 [7; 8; 9]%Q [(0, 0); (1, 1); (2, 2)]%Q)
              (BoxWorld.fresh_scan, [])).1 = true.
Proof.
  apply (@update_after_init_beams BoxWorld.quarter_turns). split; reflexivity.
Defined.

Lemma register_boundary_accepts_witness :
  exists m',
    GeometricMap.register_boundary (GeometricMap.Vertices BoxWorld.room)
      (BoxWorld.no_map, [])
    = (Ok tt, (m', []))
    /\ GeometricMap._boundary_coords m' = BoxWorld.room.
Proof.
  destruct (register_boundary_accepts (GeometricMap.Vertices BoxWorld.room)
              BoxWorld.no_map []) as [Hok _].
  destruct (Hok eq_refl) as (l & m' & Hl & E & Hb & _).
  exists m'. split; [exact E|]. injection Hl as <-. exact Hb.
Defined.

Lemma register_obstacle_accepts_witness :
  (exists d i,
     GeometricMap.Dict BoxWorld.wall = GeometricMap.Dict d
     /\ GeometricMap.id_ d = Some i
     /\ GeometricMap.register_obstacle (GeometricMap.Dict BoxWorld.wall)
          (BoxWorld.no_map, [])
        = (Ok tt,
           (GeometricMap.set_obstacle_info_dict
              (<[i := d]> (GeometricMap._obstacle_info_dict BoxWorld.no_map))
              BoxWorld.no_map, [])))
  /\ (exists e,
        GeometricMap.register_obstacle GeometricMap.NotADict (BoxWorld.no_map, [])
        = (Raise e, (BoxWorld.no_map, []))).
Proof.
  split.
  - apply (register_obstacle_accepts (GeometricMap.Dict BoxWorld.wall)). reflexivity.
  - apply (register_obstacle_accepts GeometricMap.NotADict). reflexivity.
Defined.

Lemma register_then_get_witness :
  exists i,
    GeometricMap.id_ BoxWorld.wall = Some i
    /\ GeometricMap.get_obstacle_info i (BoxWorld.walled, [])
       = (Ok BoxWorld.wall, (BoxWorld.walled, [])).
Proof.
  destruct (register_then_get BoxWorld.wall (GeometricMap.mk BoxWorld.room ∅)
              BoxWorld.walled [] []) as (i & Hi & Hget & _).
  - reflexivity.
  - exists i. split; [exact Hi | exact Hget].
Defined.

Lemma register_obstacle_last_write_wins_witness :
  exists m',
    (bind (GeometricMap.register_obstacle (GeometricMap.Dict BoxWorld.wall))
          (fun _ => GeometricMap.register_obstacle (GeometricMap.Dict BoxWorld.column)))
      (BoxWorld.no_map, [])
    = (Ok tt, (m', []))
    /\ GeometricMap.get_obstacle_info 1 (m', []) = (Ok BoxWorld.column, (m', [])).
Proof.
  apply (register_obstacle_last_write_wins BoxWorld.wall BoxWorld.column 1%Z
           [4; 4]%Q [7; 7]%Q
           [[6; 4]; [6; 6]; [4; 6]]%Q [[8; 7]; [8; 8]; [7; 8]]%Q);
    reflexivity.
Defined.

Lemma init_accepts_iff_witness :
  is_ok (GeometricMap.init (GeometricMap.Vertices BoxWorld.room)
           [GeometricMap.Dict BoxWorld.wall; GeometricMap.Dict BoxWorld.column] []).1
  = true.
Proof.
  apply (init_accepts_iff (GeometricMap.Vertices BoxWorld.room)
           [GeometricMap.Dict BoxWorld.wall; GeometricMap.Dict BoxWorld.column] []).
  split; [reflexivity|]. repeat constructor.
Defined.

Lemma init_stores_witness :
  exists m log',
    GeometricMap.init (GeometricMap.Vertices BoxWorld.room)
      [GeometricMap.Dict BoxWorld.wall; GeometricMap.Dict BoxWorld.column] []
    = (Ok m, log')
    /\ GeometricMap.get_obstacle_info 1 (m, log') = (Ok BoxWorld.column, (m, log'))
    /\ GeometricMap.get_obstacle_info 2 (m, log') = (Raise KeyError, (m, log')).
Proof.
  destruct (GeometricMap.init (GeometricMap.Vertices BoxWorld.room)
              [GeometricMap.Dict BoxWorld.wall; GeometricMap.Dict BoxWorld.column] [])
    as [r log'] eqn:E.
  destruct r as [m|e]; [|vm_compute in E; discriminate E].
  exists m, log'. split; [reflexivity|].
  destruct (init_stores _ _ _ _ _ E) as (_ & _ & Hlast & Hnone). split.
  - apply (Hlast [GeometricMap.Dict BoxWorld.wall] BoxWorld.column [] 1%Z);
      [reflexivity | reflexivity |].
    intros d' Hd'. by apply elem_of_nil in Hd'.
  - apply Hnone. intros d Hd.
    apply elem_of_cons in Hd as [[= ->]|Hd]; [cbn; discriminate|].
    apply elem_of_cons in Hd as [[= ->]|Hd]; [cbn; discriminate|].
    by apply elem_of_nil in Hd.
Defined.

Lemma from_raw_numbers_obstacles_witness :
  exists m log',
    GeometricMap.from_raw BoxWorld.room [BoxWorld.pillar; BoxWorld.pillar2] None []
    = (Ok m, log')
    /\ GeometricMap.get_obstacle_info 1 (m, log')
       = (Ok (GeometricMap.numbered 1 BoxWorld.pillar2), (m, log')).
Proof.
  destruct (GeometricMap.from_raw BoxWorld.room [BoxWorld.pillar; BoxWorld.pillar2] None [])
    as [r log'] eqn:E.
  destruct r as [m|e]; [|vm_compute in E; discriminate E].
  exists m, log'. split; [reflexivity|].
  destruct (from_raw_numbers_obstacles _ _ _ _ _ E) as (_ & Hin & _).
  exact (Hin 1%nat BoxWorld.pillar2 eq_refl).
Defined.

Lemma from_raw_rescales_witness :
  exists m log',
    GeometricMap.from_raw [[0; 0; 9]; [10; 0]; [10; 10]]%Q [BoxWorld.pillar] (Some 2%Q) []
    = (Ok m, log')
    /\ GeometricMap.all_2d (GeometricMap._boundary_coords m) = true.
Proof.
  destruct (GeometricMap.from_raw [[0; 0; 9]; [10; 0]; [10; 10]]%Q [BoxWorld.pillar]
              (Some 2%Q) [])
    as [r log'] eqn:E.
  destruct r as [m|e]; [|vm_compute in E; discriminate E].
  exists m, log'. split; [reflexivity|].
  exact (proj1 (proj2 (from_raw_rescales _ _ _ _ _ _ E))).
Defined.

Lemma boundary_scope_returns_iff_witness :
  is_ok (GeometricMap.get_boundary_scope (BoxWorld.walled, [])).1 = true.
Proof.
  apply (boundary_scope_returns_iff BoxWorld.walled []). split.
  - discriminate.
  - repeat constructor.
Defined.

Lemma boundary_scope_encloses_witness :
  exists x_min x_max y_min y_max,
    GeometricMap.get_boundary_scope (BoxWorld.walled, [])
    = (Ok (x_min, x_max, y_min, y_max), (BoxWorld.walled, []))
    /\ exists v, v ∈ BoxWorld.room /\ v !! 0%nat = Some x_max.
Proof.
  destruct (GeometricMap.get_boundary_scope (BoxWorld.walled, []))
    as [r w'] eqn:E.
  destruct r as [[[[x_min x_max] y_min] y_max]|e]; [|vm_compute in E; discriminate E].
  destruct (boundary_scope_encloses _ _ _ _ _ _ _ E) as (-> & _ & _ & Hmax & _).
  exists x_min, x_max, y_min, y_max. split; [reflexivity | exact Hmax].
Defined.

Lemma walled_entries_listed :
  map_Forall (fun _ d => GeometricMap.entry_listed d)
    (GeometricMap._obstacle_info_dict BoxWorld.walled).
Proof.
  intros i d Hd. cbn in Hd. apply lookup_insert_Some in Hd as [[_ <-]|[_ Hd]].
  - by eexists.
  - by rewrite lookup_empty in Hd.
Qed.

Lemma map_coords_cvt_converts_witness :
  exists m',
    GeometricMap.map_coords_cvt BoxWorld.twice (BoxWorld.walled, []) = (Ok tt, (m', []))
    /\ GeometricMap._boundary_coords m' = map BoxWorld.twice BoxWorld.room.
Proof.
  destruct (map_coords_cvt_converts BoxWorld.twice BoxWorld.walled [] walled_entries_listed)
    as (m' & E & Hb & _).
  exists m'. split; [exact E | exact Hb].
Defined.

Lemma map_coords_cvt_composes_witness :
  exists m',
    bind (GeometricMap.map_coords_cvt BoxWorld.twice)
         (fun _ => GeometricMap.map_coords_cvt BoxWorld.twice) (BoxWorld.walled, [])
    = (Ok tt, (m', []))
    /\ GeometricMap._boundary_coords m'
       = map BoxWorld.twice (map BoxWorld.twice BoxWorld.room).
Proof.
  destruct (map_coords_cvt_composes BoxWorld.twice BoxWorld.twice BoxWorld.walled []
              walled_entries_listed) as (m' & E & _ & Hb).
  exists m'. split; [exact E | exact Hb].
Defined.

Lemma dict_to_obstacle_info_completes_witness :
  GeometricMap.dict_to_obstacle_info BoxWorld.nameless (BoxWorld.no_map, [])
  = (Ok (GeometricMap.mkInfo (Some 3%Z) (Some "obstacle_3")
           (Some (GeometricMap.Vertices BoxWorld.pillar))),
     (BoxWorld.no_map, [])).
Proof.
  destruct (dict_to_obstacle_info_completes BoxWorld.nameless BoxWorld.no_map [])
    as [Hok _].
  exact (proj1 (Hok 3%Z (GeometricMap.Vertices BoxWorld.pillar) eq_refl eq_refl)).
Defined.
